(** * gym-bot: the workout analyzer of [server/analysis/pose_analyzer.py]

    A shallow embedding of [WorkoutAnalyzer] and the properties its
    specification states about it.

    Numbers.  The program computes with IEEE-754 doubles (Python [float],
    [numpy.float64]).  A double is modelled by [npfloat]: a finite value
    carried as a real number, one of the two infinities, or NaN.  The special
    values follow IEEE-754 (0/0 = NaN, inf - inf = NaN, 0 * inf = NaN, every
    comparison with NaN is false); on finite values the arithmetic is the
    exact one of the reals.  In the angle primitive, where differences of
    coordinates are multiplied and divided, every result is also taken to
    the range of doubles ([to_double]): a magnitude too large becomes an
    infinity, one too small becomes zero.  The rounding of the mantissa and
    the sign of zero are left out.

    Faults.  A Python exception is a value of [pyexn]; a block that may raise
    lives in the monad [res], and [try_except] is the [try: ... except: ...]
    of the source.

    Libraries.  [scipy.signal.savgol_filter] and [scipy.signal.find_peaks]
    are not part of the repository: the analyzer is embedded inside a section
    that takes them as variables, and the module [SciPy] gives one instance
    of them. *)

From Stdlib Require Import Reals Lra Lia ZArith List String Bool.
Import ListNotations.

Set Implicit Arguments.

(* ===================================================================== *)
(** ** Doubles *)
(* ===================================================================== *)

Module NumPy.

Local Open Scope R_scope.

(** A double: finite, [Inf false] = +inf, [Inf true] = -inf, or NaN. *)
Inductive npfloat : Type :=
| Fin (r : R)
| Inf (negative : bool)
| NaN.

Definition Rltb (x y : R) : bool := if Rlt_dec x y then true else false.
Definition Reqb (x y : R) : bool := if Req_dec_T x y then true else false.

Definition fneg (a : npfloat) : npfloat :=
  match a with
  | Fin r => Fin (- r)
  | Inf s => Inf (negb s)
  | NaN => NaN
  end.

Definition fadd (a b : npfloat) : npfloat :=
  match a, b with
  | NaN, _ | _, NaN => NaN
  | Fin x, Fin y => Fin (x + y)
  | Inf s, Fin _ | Fin _, Inf s => Inf s
  | Inf s, Inf t => if Bool.eqb s t then Inf s else NaN
  end.

Definition fsub (a b : npfloat) : npfloat := fadd a (fneg b).

Definition fmul (a b : npfloat) : npfloat :=
  match a, b with
  | NaN, _ | _, NaN => NaN
  | Fin x, Fin y => Fin (x * y)
  | Inf s, Fin y | Fin y, Inf s =>
      if Reqb y 0 then NaN else Inf (xorb s (Rltb y 0))
  | Inf s, Inf t => Inf (xorb s t)
  end.

(** Division does not raise on a zero divisor ([numpy.float64] scalars only
    warn, and the module silences warnings at import): 0/0 is NaN and x/0
    is an infinity. *)
Definition fdiv (a b : npfloat) : npfloat :=
  match a, b with
  | NaN, _ | _, NaN => NaN
  | Fin x, Fin y =>
      if Reqb y 0
      then (if Reqb x 0 then NaN else Inf (Rltb x 0))
      else Fin (x / y)
  | Fin _, Inf _ => Fin 0
  | Inf s, Fin y => Inf (xorb s (Rltb y 0))
  | Inf _, Inf _ => NaN
  end.

Definition fsqrt (a : npfloat) : npfloat :=
  match a with
  | Fin x => if Rltb x 0 then NaN else Fin (sqrt x)
  | Inf false => Inf false
  | Inf true => NaN
  | NaN => NaN
  end.

(** [a < b]; false as soon as an operand is NaN. *)
Definition flt (a b : npfloat) : bool :=
  match a, b with
  | NaN, _ | _, NaN => false
  | Fin x, Fin y => Rltb x y
  | Fin _, Inf t => negb t
  | Inf s, Fin _ => s
  | Inf s, Inf t => s && negb t
  end.

(** [a > b] *)
Definition fgt (a b : npfloat) : bool := flt b a.

(** Python's [abs] on a float. *)
Definition fabs (a : npfloat) : npfloat :=
  match a with
  | Fin x => Fin (Rabs x)
  | Inf _ => Inf false
  | NaN => NaN
  end.

(** An [int] where a float is expected. *)
Definition of_int (n : Z) : npfloat := Fin (IZR n).

(** [np.clip(x, lo, hi)]: NaN goes through. *)
Definition clip (x lo hi : npfloat) : npfloat :=
  match x with
  | NaN => NaN
  | _ => if flt x lo then lo else if flt hi x then hi else x
  end.

(** [np.arccos]: NaN outside [-1, 1]. *)
Definition arccos (x : npfloat) : npfloat :=
  match x with
  | Fin r => if Rltb r (-1) || Rltb 1 r then NaN else Fin (acos r)
  | _ => NaN
  end.

(** [np.arctan2(y, x)]: the angle of the point [(x, y)], in (-pi, pi]. *)
Definition arctan2 (y x : npfloat) : npfloat :=
  match y, x with
  | NaN, _ | _, NaN => NaN
  | Fin b, Fin a =>
      if Rltb 0 a then Fin (atan (b / a))
      else if Rltb a 0
           then (if Rltb b 0 then Fin (atan (b / a) - PI) else Fin (atan (b / a) + PI))
           else if Rltb 0 b then Fin (PI / 2)
           else if Rltb b 0 then Fin (- PI / 2)
           else Fin 0
  | Fin b, Inf false => Fin 0
  | Fin b, Inf true => if Rltb b 0 then Fin (- PI) else Fin PI
  | Inf s, Fin _ => if s then Fin (- PI / 2) else Fin (PI / 2)
  | Inf s, Inf false => if s then Fin (- PI / 4) else Fin (PI / 4)
  | Inf s, Inf true => if s then Fin (- 3 * PI / 4) else Fin (3 * PI / 4)
  end.

(** [np.degrees(x)] is [x * (180 / pi)]. *)
Definition degrees (x : npfloat) : npfloat := fmul x (Fin (180 / PI)).

(** The range of doubles.  A real result whose magnitude reaches
    [overflow_threshold] = 2^1024 - 2^970 rounds to an infinity; one whose
    magnitude does not exceed [underflow_threshold] = 2^-1075, half the
    smallest subnormal, rounds to zero. *)
Definition overflow_threshold : R := 2 ^ 1024 - 2 ^ 970.
Definition underflow_threshold : R := / 2 ^ 1075.

(** The double a real result becomes, as far as its range goes. *)
Definition to_double (r : R) : npfloat :=
  if Rltb (Rabs r) overflow_threshold
  then (if Rltb underflow_threshold (Rabs r) then Fin r else Fin 0)
  else Inf (Rltb r 0).

Definition in_range (a : npfloat) : npfloat :=
  match a with
  | Fin r => to_double r
  | _ => a
  end.

(** [-], [+], [*] and [/] on [numpy.float64] values, overflow and underflow
    included. *)
Definition sub64 (a b : npfloat) : npfloat := in_range (fsub a b).
Definition add64 (a b : npfloat) : npfloat := in_range (fadd a b).
Definition mul64 (a b : npfloat) : npfloat := in_range (fmul a b).
Definition div64 (a b : npfloat) : npfloat := in_range (fdiv a b).

(** A 1-D array of two doubles, as [np.array([p.x, p.y])]. *)
Definition vec2 : Type := (npfloat * npfloat)%type.

(** [u - v] on two arrays *)
Definition vsub (u v : vec2) : vec2 := (sub64 (fst u) (fst v), sub64 (snd u) (snd v)).

(** [np.dot(u, v)] *)
Definition dot (u v : vec2) : npfloat :=
  add64 (mul64 (fst u) (fst v)) (mul64 (snd u) (snd v)).

(** [np.linalg.norm(u)] of a real 1-D array: [sqrt(u.dot(u))].  The square
    root of a double in range is in range. *)
Definition norm (u : vec2) : npfloat := fsqrt (dot u u).

Definition finite (a : npfloat) : Prop :=
  match a with Fin _ => True | _ => False end.

Definition nonfinite (a : npfloat) : Prop :=
  match a with Fin _ => False | _ => True end.

(** Values that are a zero or NaN: what a zero-length ray is made of. *)
Definition zero_or_nan (v : npfloat) : Prop := v = Fin 0 \/ v = NaN.

End NumPy.

Export NumPy.

(* ===================================================================== *)
(** ** Python exceptions *)
(* ===================================================================== *)

Inductive pyexn : Type :=
| IndexError
| ValueError
| ZeroDivisionError
| LibraryError (message : string).

(** [str(e)] *)
Definition str (e : pyexn) : string :=
  match e with
  | IndexError => "list index out of range"
  | ValueError => "invalid value"
  | ZeroDivisionError => "division by zero"
  | LibraryError message => message
  end.

(** The outcome of a block: a value, or a raised exception. *)
Inductive res (A : Type) : Type :=
| Ok (a : A)
| Raise (e : pyexn).

Arguments Ok {A} a.
Arguments Raise {A} e.

Definition bind {A B : Type} (m : res A) (k : A -> res B) : res B :=
  match m with
  | Ok a => k a
  | Raise e => Raise e
  end.

Notation "x <- m ;; k" := (bind m (fun x => k))
  (at level 61, m at next level, right associativity).

(** [try: body  except: return fallback] *)
Definition try_except {A : Type} (body : res A) (fallback : A) : A :=
  match body with
  | Ok a => a
  | Raise _ => fallback
  end.

(* ===================================================================== *)
(** ** The angle primitive *)
(* ===================================================================== *)

(** [calculate_angle(a, b, c)], lines 45-61.  Every call site passes three
    two-element lists of floats, so no statement of the body raises. *)
Definition calculate_angle (a b c : vec2) : npfloat :=
  try_except
    (let ba := vsub a b in
     let bc := vsub c b in
     let cosine_angle := div64 (dot ba bc) (mul64 (norm ba) (norm bc)) in
     let cosine_angle := clip cosine_angle (Fin (-1)) (Fin 1) in
     let angle := arccos cosine_angle in
     Ok (degrees angle))
    (Fin 0).

(* ===================================================================== *)
(** ** Data model *)
(* ===================================================================== *)

Local Open Scope string_scope.
Local Open Scope list_scope.
Local Open Scope Z_scope.

(** One pose landmark as the pose estimator returns it. *)
Record Landmark : Type := mkLandmark {
  x : npfloat;
  y : npfloat;
  z : npfloat;
  visibility : npfloat
}.

(** The landmarks of one frame, indexed by body part (0 nose, 11/12
    shoulders, 13/14 elbows, 15/16 wrists, 23/24 hips, 25/26 knees, 27/28
    ankles). *)
Definition LandmarkFrame : Type := list Landmark.

(** One entry per frame read: the landmarks, or [None] when no pose was
    detected. *)
Definition LandmarkSequence : Type := list (option LandmarkFrame).

(** [len(l)] *)
Definition len {A : Type} (l : list A) : Z := Z.of_nat (List.length l).

(** [landmarks[i]] for a non-negative literal [i]. *)
Definition getitem (landmarks : LandmarkFrame) (i : nat) : res Landmark :=
  match nth_error landmarks i with
  | Some lm => Ok lm
  | None => Raise IndexError
  end.

(** [[landmarks[i].x, landmarks[i].y]] *)
Definition xy (landmarks : LandmarkFrame) (i : nat) : res vec2 :=
  lm <- getitem landmarks i ;; Ok (x lm, y lm).

(** The truth value of a sequence entry in [if landmarks:]: [None] and an
    empty container are false. *)
Definition truthy (entry : option LandmarkFrame) : bool :=
  match entry with
  | Some (_ :: _) => true
  | _ => false
  end.

(** [for landmarks in landmarks_sequence: if landmarks: body], threading the
    locals the body updates. *)
Fixpoint for_frames {S : Type} (body : S -> LandmarkFrame -> res S)
    (landmarks_sequence : LandmarkSequence) (s : S) : res S :=
  match landmarks_sequence with
  | [] => Ok s
  | Some landmarks :: rest =>
      if truthy (Some landmarks)
      then s' <- body s landmarks ;; for_frames body rest s'
      else for_frames body rest s
  | None :: rest => for_frames body rest s
  end.

(** Python's [max(seq)] and [min(seq)]: keep the first item unless a later
    one compares greater (smaller); an empty sequence raises. *)
Definition py_max (l : list npfloat) : res npfloat :=
  match l with
  | [] => Raise ValueError
  | h :: t => Ok (fold_left (fun m v => if fgt v m then v else m) t h)
  end.

Definition py_min (l : list npfloat) : res npfloat :=
  match l with
  | [] => Raise ValueError
  | h :: t => Ok (fold_left (fun m v => if flt v m then v else m) t h)
  end.

(** [max(a, b)] and [min(a, b)] on two floats. *)
Definition py_max2 (a b : npfloat) : npfloat := if fgt b a then b else a.
Definition py_min2 (a b : npfloat) : npfloat := if flt b a then b else a.

(** [a / b] on two ints. *)
Definition py_truediv (a b : Z) : res npfloat :=
  if b =? 0 then Raise ZeroDivisionError else Ok (Fin (IZR a / IZR b)).

(** Round half to even, the rule of Python's [round]. *)
Definition round_half_even (r : R) : Z :=
  let f := Int_part r in
  let d := (r - IZR f)%R in
  if Rltb d (1 / 2) then f
  else if Rltb (1 / 2) d then f + 1
  else if Z.even f then f else f + 1.

(** [round(v, 1)] *)
Definition py_round1 (v : npfloat) : npfloat :=
  match v with
  | Fin r => Fin (IZR (round_half_even (r * 10)) / 10)
  | _ => v
  end.

(** The threshold tables of [__init__], lines 31-43. *)
Record SquatThresholds : Type := {
  knee_angle_min : Z;
  knee_angle_max : Z;
  depth_threshold : npfloat;
  form_tolerance : npfloat
}.

Record PushupThresholds : Type := {
  elbow_angle_min : Z;
  elbow_angle_max : Z;
  body_alignment_tolerance : npfloat;
  rom_threshold : Z
}.

Definition squat_thresholds : SquatThresholds :=
  {| knee_angle_min := 90; knee_angle_max := 160;
     depth_threshold := Fin 0.15; form_tolerance := Fin 0.1 |}.

Definition pushup_thresholds : PushupThresholds :=
  {| elbow_angle_min := 70; elbow_angle_max := 160;
     body_alignment_tolerance := Fin 0.08; rom_threshold := 60 |}.

(** The record [analyze_video] returns; [analysisQuality] is absent on the
    early-return and fault paths. *)
Record AnalysisResult : Type := mkResult {
  exerciseName : string;
  repCount : Z;
  feedback : list string;
  formScore : npfloat;
  analysisQuality : option string
}.

(** What the video reader and the pose estimator (both outside the
    analyzer) hand to [analyze_video]: the file cannot be opened, reading or
    pose estimation raises, or every frame is read and yields one entry. *)
Inductive Capture : Type :=
| NotOpened
| ReadFault (e : pyexn)
| Frames (landmarks_sequence : LandmarkSequence).

(** [try: body  except Exception as e: return handler(e)] *)
Definition try_except_as {A : Type} (body : res A) (handler : pyexn -> A) : A :=
  match body with
  | Ok a => a
  | Raise e => handler e
  end.

(** The angle at landmark [j] between landmarks [i] and [k], as every call
    of [calculate_angle] on a frame is written. *)
Definition angle_at (landmarks : LandmarkFrame) (i j k : nat) : res npfloat :=
  a <- xy landmarks i ;;
  b <- xy landmarks j ;;
  c <- xy landmarks k ;;
  Ok (calculate_angle a b c).

(** [(a + b) / 2] *)
Definition mean2 (a b : npfloat) : npfloat := fdiv (fadd a b) (Fin 2).

(** [-np.array(data)] *)
Definition np_neg (data : list npfloat) : list npfloat := map fneg data.

(** [lm is not None] *)
Definition is_not_None (entry : option LandmarkFrame) : bool :=
  match entry with
  | Some _ => true
  | None => false
  end.

(** [not l] on a list *)
Definition is_empty {A : Type} (l : list A) : bool :=
  match l with
  | [] => true
  | _ :: _ => false
  end.

(** One rule of a form analysis: when it fires, append the message and
    subtract the penalty. *)
Definition apply_rule (fires : bool) (message : string) (penalty : R)
    (st : list string * npfloat) : list string * npfloat :=
  if fires then (fst st ++ [message], fsub (snd st) (Fin penalty)) else st.

(** [count > total_frames * fraction] *)
Definition exceeds (count total_frames : Z) (fraction : R) : bool :=
  fgt (of_int count) (fmul (of_int total_frames) (Fin fraction)).

(** [if not feedback: feedback.append(message)] *)
Definition default_feedback (message : string) (st : list string * npfloat)
    : list string * npfloat :=
  if is_empty (fst st) then (fst st ++ [message], snd st) else st.

(* ===================================================================== *)
(** ** The analyzer *)
(* ===================================================================== *)

Section Analyzer.

(** [scipy.signal.savgol_filter(x, window_length, polyorder)]: the filtered
    array, or the [ValueError] it raises on arguments it rejects. *)
Variable savgol_filter : list npfloat -> Z -> Z -> res (list npfloat).

(** [scipy.signal.find_peaks(x, height=h, distance=d)[0]]: the indices of
    the peaks.  It does not raise on a 1-D array with [d >= 1]. *)
Variable find_peaks : list npfloat -> npfloat -> Z -> list Z.

(** [smooth_data(data, window_length=5)], lines 70-79. *)
Definition smooth_data (data : list npfloat) (window_length : Z) : list npfloat :=
  try_except
    (if len data <? window_length then Ok data
     else
       let window_length :=
         if window_length mod 2 =? 0 then window_length - 1 else window_length in
       savgol_filter data window_length (Z.min 3 (window_length - 1)))
    data.

(** The default [window_length] of [smooth_data]. *)
Definition default_window_length : Z := 5.

(** [analyze_elbow_movement], lines 134-153. *)
Definition analyze_elbow_movement (landmarks_sequence : LandmarkSequence) : npfloat :=
  try_except
    (elbow_angles <-
       for_frames (fun elbow_angles landmarks =>
         left_elbow_angle <- angle_at landmarks 11 13 15 ;;
         Ok (elbow_angles ++ [left_elbow_angle]))
       landmarks_sequence [] ;;
     if len elbow_angles <? 2 then Ok (Fin 0)
     else
       let elbow_angles := smooth_data elbow_angles default_window_length in
       hi <- py_max elbow_angles ;;
       lo <- py_min elbow_angles ;;
       Ok (fdiv (fsub hi lo) (Fin 180)))
    (Fin 0).

(** [check_horizontal_body_position], lines 155-171. *)
Definition check_horizontal_body_position (landmarks_sequence : LandmarkSequence) : bool :=
  try_except
    (let total_frames := len landmarks_sequence in
     horizontal_frames <-
       for_frames (fun horizontal_frames landmarks =>
         l11 <- getitem landmarks 11 ;;
         l12 <- getitem landmarks 12 ;;
         let shoulder_y := mean2 (y l11) (y l12) in
         l23 <- getitem landmarks 23 ;;
         l24 <- getitem landmarks 24 ;;
         let hip_y := mean2 (y l23) (y l24) in
         if flt (fabs (fsub shoulder_y hip_y)) (Fin 0.15)
         then Ok (horizontal_frames + 1)
         else Ok horizontal_frames)
       landmarks_sequence 0 ;;
     ratio <- py_truediv horizontal_frames total_frames ;;
     Ok (fgt ratio (Fin 0.6)))
    false.

(** The loop shared by [detect_asymmetric_leg_movement] and
    [count_lunge_reps]: the left and the right knee angle of every frame. *)
Definition knee_angle_lists (landmarks_sequence : LandmarkSequence)
    : res (list npfloat * list npfloat) :=
  for_frames (fun lists landmarks =>
    left_knee <- angle_at landmarks 23 25 27 ;;
    right_knee <- angle_at landmarks 24 26 28 ;;
    Ok (fst lists ++ [left_knee], snd lists ++ [right_knee]))
  landmarks_sequence ([], []).

(** [max(l) - min(l)] *)
Definition py_range (l : list npfloat) : res npfloat :=
  hi <- py_max l ;;
  lo <- py_min l ;;
  Ok (fsub hi lo).

(** [detect_asymmetric_leg_movement], lines 173-202. *)
Definition detect_asymmetric_leg_movement (landmarks_sequence : LandmarkSequence) : bool :=
  try_except
    (lists <- knee_angle_lists landmarks_sequence ;;
     let left_knee_angles := fst lists in
     let right_knee_angles := snd lists in
     if len left_knee_angles <? 2 then Ok false
     else
       left_range <- py_range left_knee_angles ;;
       right_range <- py_range right_knee_angles ;;
       Ok (fgt (fabs (fsub left_range right_range)) (Fin 30)))
    false.

(** [analyze_hip_movement], lines 204-219. *)
Definition analyze_hip_movement (landmarks_sequence : LandmarkSequence) : npfloat :=
  try_except
    (hip_positions <-
       for_frames (fun hip_positions landmarks =>
         l23 <- getitem landmarks 23 ;;
         l24 <- getitem landmarks 24 ;;
         let hip_y := mean2 (y l23) (y l24) in
         Ok (hip_positions ++ [hip_y]))
       landmarks_sequence [] ;;
     if len hip_positions <? 2 then Ok (Fin 0)
     else
       let hip_positions := smooth_data hip_positions default_window_length in
       py_range hip_positions)
    (Fin 0).

(** The loop shared by [analyze_knee_movement] and [count_squat_reps]: the
    mean of the left and the right knee angle of every frame. *)
Definition avg_knee_angles (landmarks_sequence : LandmarkSequence) : res (list npfloat) :=
  for_frames (fun knee_angles landmarks =>
    left_knee <- angle_at landmarks 23 25 27 ;;
    right_knee <- angle_at landmarks 24 26 28 ;;
    let avg_knee := mean2 left_knee right_knee in
    Ok (knee_angles ++ [avg_knee]))
  landmarks_sequence [].

(** [analyze_knee_movement], lines 221-246. *)
Definition analyze_knee_movement (landmarks_sequence : LandmarkSequence) : npfloat :=
  try_except
    (knee_angles <- avg_knee_angles landmarks_sequence ;;
     if len knee_angles <? 2 then Ok (Fin 0)
     else
       let knee_angles := smooth_data knee_angles default_window_length in
       r <- py_range knee_angles ;;
       Ok (fdiv r (Fin 180)))
    (Fin 0).

(** [analyze_shoulder_movement], lines 248-263. *)
Definition analyze_shoulder_movement (landmarks_sequence : LandmarkSequence) : npfloat :=
  try_except
    (shoulder_positions <-
       for_frames (fun shoulder_positions landmarks =>
         l11 <- getitem landmarks 11 ;;
         l12 <- getitem landmarks 12 ;;
         let shoulder_y := mean2 (y l11) (y l12) in
         Ok (shoulder_positions ++ [shoulder_y]))
       landmarks_sequence [] ;;
     if len shoulder_positions <? 2 then Ok (Fin 0)
     else
       let shoulder_positions := smooth_data shoulder_positions default_window_length in
       py_range shoulder_positions)
    (Fin 0).

(** [detect_exercise_type], lines 81-132. *)
Definition detect_exercise_type (landmarks_sequence : LandmarkSequence) : string :=
  try_except
    (if is_empty landmarks_sequence then Ok "unknown"
     else
       let hip_movement := analyze_hip_movement landmarks_sequence in
       let knee_movement := analyze_knee_movement landmarks_sequence in
       let shoulder_movement := analyze_shoulder_movement landmarks_sequence in
       let elbow_movement := analyze_elbow_movement landmarks_sequence in
       let squat_confidence := 0 in
       let pushup_confidence := 0 in
       let lunge_confidence := 0 in
       let squat_confidence :=
         if fgt hip_movement (Fin 0.2) && fgt knee_movement (Fin 0.25)
         then squat_confidence + 40 else squat_confidence in
       let squat_confidence :=
         if fgt hip_movement (Fin 0.3)
         then squat_confidence + 30 else squat_confidence in
       let squat_confidence :=
         if fgt knee_movement (Fin 0.4)
         then squat_confidence + 30 else squat_confidence in
       let pushup_confidence :=
         if fgt elbow_movement (Fin 0.3) && fgt shoulder_movement (Fin 0.15)
         then pushup_confidence + 40 else pushup_confidence in
       let pushup_confidence :=
         if check_horizontal_body_position landmarks_sequence
         then pushup_confidence + 35 else pushup_confidence in
       let pushup_confidence :=
         if fgt elbow_movement (Fin 0.4)
         then pushup_confidence + 25 else pushup_confidence in
       let lunge_confidence :=
         if detect_asymmetric_leg_movement landmarks_sequence
         then lunge_confidence + 60 else lunge_confidence in
       let lunge_confidence :=
         if fgt hip_movement (Fin 0.25) && fgt knee_movement (Fin 0.3)
         then lunge_confidence + 40 else lunge_confidence in
       let max_confidence :=
         Z.max (Z.max squat_confidence pushup_confidence) lunge_confidence in
       if max_confidence <? 50 then Ok "unknown"
       else if squat_confidence =? max_confidence then Ok "squat"
       else if pushup_confidence =? max_confidence then Ok "push_up"
       else Ok "lunge")
    "unknown".

(** [count_squat_reps], lines 279-308. *)
Definition count_squat_reps (landmarks_sequence : LandmarkSequence) : Z :=
  try_except
    (knee_angles <- avg_knee_angles landmarks_sequence ;;
     if len knee_angles <? 10 then Ok 0
     else
       let knee_angles := smooth_data knee_angles (Z.min 7 (len knee_angles)) in
       let peaks :=
         find_peaks knee_angles (of_int (knee_angle_max squat_thresholds)) 10 in
       let valleys :=
         find_peaks (np_neg knee_angles)
                    (of_int (- knee_angle_min squat_thresholds)) 10 in
       Ok (Z.min (len peaks) (len valleys)))
    0.

(** The loop of [count_pushup_reps]: the mean of the left and the right
    elbow angle of every frame. *)
Definition avg_elbow_angles (landmarks_sequence : LandmarkSequence) : res (list npfloat) :=
  for_frames (fun elbow_angles landmarks =>
    left_elbow <- angle_at landmarks 11 13 15 ;;
    right_elbow <- angle_at landmarks 12 14 16 ;;
    let avg_elbow := mean2 left_elbow right_elbow in
    Ok (elbow_angles ++ [avg_elbow]))
  landmarks_sequence [].

(** [count_pushup_reps], lines 310-339. *)
Definition count_pushup_reps (landmarks_sequence : LandmarkSequence) : Z :=
  try_except
    (elbow_angles <- avg_elbow_angles landmarks_sequence ;;
     if len elbow_angles <? 10 then Ok 0
     else
       let elbow_angles := smooth_data elbow_angles (Z.min 7 (len elbow_angles)) in
       let peaks :=
         find_peaks elbow_angles (of_int (elbow_angle_max pushup_thresholds)) 8 in
       let valleys :=
         find_peaks (np_neg elbow_angles)
                    (of_int (- elbow_angle_min pushup_thresholds)) 8 in
       Ok (Z.min (len peaks) (len valleys)))
    0.

(** [count_lunge_reps], lines 341-376. *)
Definition count_lunge_reps (landmarks_sequence : LandmarkSequence) : Z :=
  try_except
    (lists <- knee_angle_lists landmarks_sequence ;;
     let left_knee_angles := fst lists in
     let right_knee_angles := snd lists in
     if len left_knee_angles <? 10 then Ok 0
     else
       left_range <- py_range left_knee_angles ;;
       right_range <- py_range right_knee_angles ;;
       let active_leg_angles :=
         if fgt left_range right_range then left_knee_angles else right_knee_angles in
       let active_leg_angles := smooth_data active_leg_angles default_window_length in
       let peaks := find_peaks active_leg_angles (of_int 140) 10 in
       let valleys := find_peaks (np_neg active_leg_angles) (of_int (-100)) 10 in
       Ok (Z.min (len peaks) (len valleys)))
    0.

(** [count_repetitions], lines 265-277. *)
Definition count_repetitions (landmarks_sequence : LandmarkSequence)
    (exercise_type : string) : Z :=
  try_except
    (if String.eqb exercise_type "squat" then Ok (count_squat_reps landmarks_sequence)
     else if String.eqb exercise_type "push_up" then Ok (count_pushup_reps landmarks_sequence)
     else if String.eqb exercise_type "lunge" then Ok (count_lunge_reps landmarks_sequence)
     else Ok 0)
    0.

(** [count + 1] when the per-frame test holds. *)
Definition bump (test : bool) (count : Z) : Z := if test then count + 1 else count.

(** The per-frame tests of [analyze_squat_form], lines 418, 421, 429, 436. *)
Definition squat_knee_cave (left_knee_x left_hip_x left_ankle_x : npfloat) : bool :=
  flt left_knee_x (fsub (py_min2 left_hip_x left_ankle_x) (Fin 0.02)).

Definition squat_knee_forward (left_knee_x left_ankle_x : npfloat) : bool :=
  fgt left_knee_x (fadd left_ankle_x (Fin 0.05)).

Definition squat_back_lean (shoulder hip : vec2) : bool :=
  let torso_angle :=
    fabs (fdiv (fmul (arctan2 (fsub (snd shoulder) (snd hip))
                              (fsub (fst shoulder) (fst hip)))
                     (Fin 180))
               (Fin PI)) in
  flt torso_angle (Fin 60).

Definition squat_depth_insufficient (hip_y knee_y : npfloat) : bool :=
  flt hip_y (fsub knee_y (Fin 0.02)).

(** The loop body of [analyze_squat_form], lines 412-437, on the counters
    [(knee_cave_frames, back_lean_frames, depth_insufficient_frames,
    knee_forward_frames)]. *)
Definition squat_frame (counters : Z * Z * Z * Z) (landmarks : LandmarkFrame)
    : res (Z * Z * Z * Z) :=
  let '(knee_cave_frames, back_lean_frames,
        depth_insufficient_frames, knee_forward_frames) := counters in
  l25 <- getitem landmarks 25 ;;
  let left_knee_x := x l25 in
  l23 <- getitem landmarks 23 ;;
  let left_hip_x := x l23 in
  l27 <- getitem landmarks 27 ;;
  let left_ankle_x := x l27 in
  let knee_cave_frames :=
    bump (squat_knee_cave left_knee_x left_hip_x left_ankle_x) knee_cave_frames in
  let knee_forward_frames :=
    bump (squat_knee_forward left_knee_x left_ankle_x) knee_forward_frames in
  l11 <- getitem landmarks 11 ;;
  l12 <- getitem landmarks 12 ;;
  let shoulder := (mean2 (x l11) (x l12), mean2 (y l11) (y l12)) in
  l24 <- getitem landmarks 24 ;;
  let hip := (mean2 (x l23) (x l24), mean2 (y l23) (y l24)) in
  let back_lean_frames := bump (squat_back_lean shoulder hip) back_lean_frames in
  let hip_y := mean2 (y l23) (y l24) in
  l26 <- getitem landmarks 26 ;;
  let knee_y := mean2 (y l25) (y l26) in
  let depth_insufficient_frames :=
    bump (squat_depth_insufficient hip_y knee_y) depth_insufficient_frames in
  Ok (knee_cave_frames, back_lean_frames,
      depth_insufficient_frames, knee_forward_frames).

(** [analyze_squat_form], lines 398-461. *)
Definition analyze_squat_form (landmarks_sequence : LandmarkSequence)
    : list string * npfloat :=
  try_except
    (let feedback : list string := [] in
     let form_score := Fin 10 in
     let total_frames := len landmarks_sequence in
     counters <- for_frames squat_frame landmarks_sequence (0, 0, 0, 0) ;;
     let '(knee_cave_frames, back_lean_frames,
           depth_insufficient_frames, knee_forward_frames) := counters in
     let st := (feedback, form_score) in
     let st := apply_rule (exceeds knee_cave_frames total_frames 0.15)
                 "Keep your knees aligned with your toes - avoid knee cave" 2.5 st in
     let st := apply_rule (exceeds knee_forward_frames total_frames 0.2)
                 "Keep your knees behind your toes" 1.5 st in
     let st := apply_rule (exceeds back_lean_frames total_frames 0.25)
                 "Keep your chest up and back straight" 2.0 st in
     let st := apply_rule (exceeds depth_insufficient_frames total_frames 0.3)
                 "Go deeper - hips should go below knee level" 1.5 st in
     let st := default_feedback "Excellent squat form! Keep it up!" st in
     Ok st)
    (["Error analyzing squat form"], Fin 5).

(** The per-frame tests of [analyze_pushup_form], lines 482, 485, 494, 498. *)
Definition pushup_hip_sag (hip_y shoulder_y ankle_y : npfloat) : bool :=
  fgt hip_y (fadd (py_max2 shoulder_y ankle_y) (Fin 0.03)).

Definition pushup_hip_pike (hip_y shoulder_y ankle_y : npfloat) : bool :=
  flt hip_y (fsub (py_min2 shoulder_y ankle_y) (Fin 0.03)).

Definition pushup_partial_rom (elbow_angle : npfloat) : bool :=
  fgt elbow_angle (Fin 110).

Definition pushup_head_position (nose_y shoulder_y : npfloat) : bool :=
  fgt nose_y (fadd shoulder_y (Fin 0.05)).

(** The loop body of [analyze_pushup_form], lines 477-499, on the counters
    [(hip_sag_frames, hip_pike_frames, partial_rom_frames,
    head_position_frames)]. *)
Definition pushup_frame (counters : Z * Z * Z * Z) (landmarks : LandmarkFrame)
    : res (Z * Z * Z * Z) :=
  let '(hip_sag_frames, hip_pike_frames,
        partial_rom_frames, head_position_frames) := counters in
  l11 <- getitem landmarks 11 ;;
  l12 <- getitem landmarks 12 ;;
  let shoulder_y := mean2 (y l11) (y l12) in
  l23 <- getitem landmarks 23 ;;
  l24 <- getitem landmarks 24 ;;
  let hip_y := mean2 (y l23) (y l24) in
  l27 <- getitem landmarks 27 ;;
  l28 <- getitem landmarks 28 ;;
  let ankle_y := mean2 (y l27) (y l28) in
  let hip_sag_frames := bump (pushup_hip_sag hip_y shoulder_y ankle_y) hip_sag_frames in
  let hip_pike_frames := bump (pushup_hip_pike hip_y shoulder_y ankle_y) hip_pike_frames in
  elbow_angle <- angle_at landmarks 11 13 15 ;;
  let partial_rom_frames := bump (pushup_partial_rom elbow_angle) partial_rom_frames in
  l0 <- getitem landmarks 0 ;;
  let nose_y := y l0 in
  let head_position_frames :=
    bump (pushup_head_position nose_y shoulder_y) head_position_frames in
  Ok (hip_sag_frames, hip_pike_frames, partial_rom_frames, head_position_frames).

(** [analyze_pushup_form], lines 463-523. *)
Definition analyze_pushup_form (landmarks_sequence : LandmarkSequence)
    : list string * npfloat :=
  try_except
    (let feedback : list string := [] in
     let form_score := Fin 10 in
     let total_frames := len landmarks_sequence in
     counters <- for_frames pushup_frame landmarks_sequence (0, 0, 0, 0) ;;
     let '(hip_sag_frames, hip_pike_frames,
           partial_rom_frames, head_position_frames) := counters in
     let st := (feedback, form_score) in
     let st := apply_rule (exceeds hip_sag_frames total_frames 0.2)
                 "Keep your core tight - avoid hip sag" 2.5 st in
     let st := apply_rule (exceeds hip_pike_frames total_frames 0.2)
                 "Keep your body straight - avoid piking your hips" 2.0 st in
     let st := apply_rule (exceeds partial_rom_frames total_frames 0.3)
                 "Go lower - chest should nearly touch the ground" 2.0 st in
     let st := apply_rule (exceeds head_position_frames total_frames 0.25)
                 "Keep your head in neutral position" 1.0 st in
     let st := default_feedback "Perfect push-up form! Well done!" st in
     Ok st)
    (["Error analyzing push-up form"], Fin 5).

(** The per-frame tests of [analyze_lunge_form], lines 542, 548, 554. *)
Definition lunge_knee_forward (left_knee_x left_ankle_x : npfloat) : bool :=
  fgt left_knee_x (fadd left_ankle_x (Fin 0.05)).

Definition lunge_torso_lean (shoulder_x hip_x : npfloat) : bool :=
  fgt (fabs (fsub shoulder_x hip_x)) (Fin 0.08).

Definition lunge_insufficient_depth (front_knee_y back_knee_y : npfloat) : bool :=
  fgt (py_min2 front_knee_y back_knee_y) (Fin 0.7).

(** The loop body of [analyze_lunge_form], lines 538-555, on the counters
    [(knee_forward_frames, torso_lean_frames, insufficient_depth_frames)]. *)
Definition lunge_frame (counters : Z * Z * Z) (landmarks : LandmarkFrame)
    : res (Z * Z * Z) :=
  let '(knee_forward_frames, torso_lean_frames, insufficient_depth_frames) :=
    counters in
  l25 <- getitem landmarks 25 ;;
  let left_knee_x := x l25 in
  l27 <- getitem landmarks 27 ;;
  let left_ankle_x := x l27 in
  let knee_forward_frames :=
    bump (lunge_knee_forward left_knee_x left_ankle_x) knee_forward_frames in
  l11 <- getitem landmarks 11 ;;
  l12 <- getitem landmarks 12 ;;
  let shoulder_x := mean2 (x l11) (x l12) in
  l23 <- getitem landmarks 23 ;;
  l24 <- getitem landmarks 24 ;;
  let hip_x := mean2 (x l23) (x l24) in
  let torso_lean_frames := bump (lunge_torso_lean shoulder_x hip_x) torso_lean_frames in
  let front_knee_y := y l25 in
  l26 <- getitem landmarks 26 ;;
  let back_knee_y := y l26 in
  let insufficient_depth_frames :=
    bump (lunge_insufficient_depth front_knee_y back_knee_y)
         insufficient_depth_frames in
  Ok (knee_forward_frames, torso_lean_frames, insufficient_depth_frames).

(** [analyze_lunge_form], lines 525-574. *)
Definition analyze_lunge_form (landmarks_sequence : LandmarkSequence)
    : list string * npfloat :=
  try_except
    (let feedback : list string := [] in
     let form_score := Fin 10 in
     let total_frames := len landmarks_sequence in
     counters <- for_frames lunge_frame landmarks_sequence (0, 0, 0) ;;
     let '(knee_forward_frames, torso_lean_frames, insufficient_depth_frames) :=
       counters in
     let st := (feedback, form_score) in
     let st := apply_rule (exceeds knee_forward_frames total_frames 0.2)
                 "Keep your front knee behind your toes" 2.0 st in
     let st := apply_rule (exceeds torso_lean_frames total_frames 0.25)
                 "Keep your torso upright" 1.5 st in
     let st := apply_rule (exceeds insufficient_depth_frames total_frames 0.3)
                 "Go deeper in your lunge" 1.5 st in
     let st := default_feedback "Great lunge form!" st in
     Ok st)
    (["Error analyzing lunge form"], Fin 5).

(** [analyze_form], lines 378-396. *)
Definition analyze_form (landmarks_sequence : LandmarkSequence)
    (exercise_type : string) : list string * npfloat :=
  try_except
    (let '(feedback, form_score) :=
       if String.eqb exercise_type "squat" then analyze_squat_form landmarks_sequence
       else if String.eqb exercise_type "push_up" then analyze_pushup_form landmarks_sequence
       else if String.eqb exercise_type "lunge" then analyze_lunge_form landmarks_sequence
       else (["Exercise not recognized for detailed analysis"], Fin 5) in
     Ok (feedback, py_max2 (Fin 0) (py_min2 (Fin 10) form_score)))
    (["Error analyzing form"], Fin 5).

(** The record of an early return or of a fault: no [analysisQuality]. *)
Definition early_result (name message : string) : AnalysisResult :=
  {| exerciseName := name;
     repCount := 0;
     feedback := [message];
     formScore := Fin 0;
     analysisQuality := None |}.

(** [analyze_video], lines 576-657, from the point where the capture has
    been opened and read: [frame_count] counts the frames read, one entry
    of [landmarks_sequence] each. *)
Definition analyze_video (video : Capture) : AnalysisResult :=
  try_except_as
    (match video with
     | NotOpened => Ok (early_result "error" "Could not open video file")
     | ReadFault e => Raise e
     | Frames landmarks_sequence =>
         let frame_count := len landmarks_sequence in
         let valid_landmarks := filter is_not_None landmarks_sequence in
         if is_empty valid_landmarks
         then Ok (early_result "unknown" "Could not detect pose in video")
         else if len valid_landmarks <? 30
         then Ok (early_result "unknown" "Video too short for analysis")
         else
           let exercise_type := detect_exercise_type valid_landmarks in
           let rep_count := count_repetitions valid_landmarks exercise_type in
           let '(feedback, form_score) := analyze_form valid_landmarks exercise_type in
           ratio <- py_truediv (len valid_landmarks) frame_count ;;
           Ok {| exerciseName := exercise_type;
                 repCount := rep_count;
                 feedback := feedback;
                 formScore := py_round1 form_score;
                 analysisQuality :=
                   Some (if fgt ratio (Fin 0.8) then "high" else "medium") |}
     end)
    (fun e => early_result "error" ("Analysis failed: " ++ str e)%string).

End Analyzer.

(* ===================================================================== *)
(** ** An instance of the library functions *)
(* ===================================================================== *)

(** One implementation of the two library functions, for the arguments the
    analyzer hands them: the Savitzky-Golay filter of order 3 on windows 5
    and 7 (and the filters of order [window - 1], which reproduce their
    input), and the peak detector with a height and a distance. *)
Module SciPy.

(** The least-squares cubic through [w] equally spaced samples, evaluated at
    each of them: row [k] holds the weights of the fitted value at sample
    [k], over a common denominator.  The middle row is the filter itself. *)
Definition cubic_fit (window_length : Z) : option (list (list Z) * Z) :=
  if window_length =? 5 then
    Some ([[69; 4; -6; 4; -1];
           [4; 54; 24; -16; 4];
           [-6; 24; 34; 24; -6];
           [4; -16; 24; 54; 4];
           [-1; 4; -6; 4; 69]], 70)
  else if window_length =? 7 then
    Some ([[39; 8; -4; -4; 1; 4; -2];
           [8; 19; 16; 6; -4; -7; 4];
           [-4; 16; 19; 12; 2; -4; 1];
           [-4; 6; 12; 14; 12; 6; -4];
           [1; -4; 2; 12; 19; 16; -4];
           [4; -7; -4; 6; 16; 19; 8];
           [-2; 4; 1; -4; -4; 8; 39]], 42)
  else None.

Definition weighted_sum (weights : list Z) (denominator : Z) (samples : list npfloat)
    : npfloat :=
  fold_left fadd
    (map (fun ws => fmul (Fin (IZR (fst ws) / IZR denominator)) (snd ws))
         (combine weights samples))
    (Fin 0).

(** Sample [i] of the filtered series: the window is centred on [i], except
    within half a window of either end, where the cubic fitted to the first
    (last) window is evaluated at [i]. *)
Definition savgol_sample (data : list npfloat) (rows : list (list Z)) (denominator : Z)
    (w i : nat) : npfloat :=
  let n := List.length data in
  let h := (w / 2)%nat in
  if (i <? h)%nat then
    weighted_sum (nth i rows []) denominator (firstn w data)
  else if (n - h <=? i)%nat then
    weighted_sum (nth (w - (n - i)) rows []) denominator (skipn (n - w) data)
  else
    weighted_sum (nth h rows []) denominator (firstn w (skipn (i - h) data)).

Definition savgol_filter (data : list npfloat) (window_length polyorder : Z)
    : res (list npfloat) :=
  if (polyorder <? 0) || (window_length <=? polyorder) || (len data <? window_length)
  then Raise ValueError
  else if polyorder =? window_length - 1 then Ok data
  else if polyorder =? 3 then
    match cubic_fit window_length with
    | Some (rows, denominator) =>
        Ok (map (savgol_sample data rows denominator (Z.to_nat window_length))
                (seq 0 (List.length data)))
    | None => Raise ValueError
    end
  else Raise ValueError.

(** [a == b] and [a <= b] on doubles. *)
Definition feq (a b : npfloat) : bool :=
  match a, b with
  | Fin u, Fin v => Reqb u v
  | Inf s, Inf t => Bool.eqb s t
  | _, _ => false
  end.

Definition fle (a b : npfloat) : bool := flt a b || feq a b.

(** The strict local maxima of a series, a flat top counted once at its
    middle; [i] is the index of the head of [data], [prev] the sample before
    it, and [top] the index where the flat top holding [prev] began, when
    the series rose into it. *)
Fixpoint local_maxima (i : Z) (prev : npfloat) (top : option Z) (data : list npfloat)
    : list Z :=
  match data with
  | [] => []
  | v :: rest =>
      let rising := if flt prev v then Some i else None in
      match top with
      | Some start =>
          if feq v prev then local_maxima (i + 1) v top rest
          else if flt v prev
               then ((start + (i - 1)) / 2) :: local_maxima (i + 1) v None rest
               else local_maxima (i + 1) v rising rest
      | None => local_maxima (i + 1) v rising rest
      end
  end.

(** Of two peaks, the higher; the later one when neither is higher. *)
Definition higher (a b : Z * npfloat) : Z * npfloat :=
  if flt (snd b) (snd a) then a else b.

(** Keep the highest peak, drop the peaks closer than [distance] to it, and
    go on with what is left. *)
Fixpoint select_by_distance (fuel : nat) (candidates : list (Z * npfloat))
    (distance : Z) : list Z :=
  match fuel, candidates with
  | S fuel', c :: rest =>
      let best := fold_left higher rest c in
      fst best ::
      select_by_distance fuel'
        (filter (fun c' => distance <=? Z.abs (fst c' - fst best)) candidates)
        distance
  | _, _ => []
  end.

Definition find_peaks (data : list npfloat) (height : npfloat) (distance : Z) : list Z :=
  let sample := fun i => nth (Z.to_nat i) data NaN in
  let maxima :=
    match data with
    | [] => []
    | v :: rest => local_maxima 1 v None rest
    end in
  let tall := filter (fun i => fle height (sample i)) maxima in
  let kept :=
    select_by_distance (List.length tall) (map (fun i => (i, sample i)) tall) distance in
  filter (fun i => existsb (Z.eqb i) kept) tall.

End SciPy.

(* ===================================================================== *)
(** ** Vocabulary of the specification *)
(* ===================================================================== *)

(** A point with finite coordinates. *)
Definition pt (px py : R) : vec2 := (Fin px, Fin py).

(** Some coordinate of the point is an infinity or NaN. *)
Definition nonfinite_point (p : vec2) : Prop :=
  nonfinite (fst p) \/ nonfinite (snd p).

(** The degenerate inputs of the angle primitive: a zero-length ray
    ([a = b] or [b = c]) or a non-finite coordinate. *)
Definition degenerate (a b c : vec2) : Prop :=
  a = b \/ b = c \/ nonfinite_point a \/ nonfinite_point b \/ nonfinite_point c.


(** The four exercise types of the specification, and the strings the code
    uses for them. *)
Inductive ExerciseType : Type := Squat | PushUp | Lunge | Unknown.

Definition name_of (e : ExerciseType) : string :=
  match e with
  | Squat => "squat"
  | PushUp => "push_up"
  | Lunge => "lunge"
  | Unknown => "unknown"
  end.

(** A landmark frame of the data model: exactly 33 landmarks.  A sequence is
    well formed when every detected frame is one. *)
Definition well_formed (landmarks_sequence : LandmarkSequence) : Prop :=
  Forall (fun entry => forall landmarks,
            entry = Some landmarks -> List.length landmarks = 33%nat)
         landmarks_sequence.

(** The frames an analysis loop visits: the entries that are true in
    [if landmarks:]. *)
Fixpoint valid_frames (landmarks_sequence : LandmarkSequence) : list LandmarkFrame :=
  match landmarks_sequence with
  | [] => []
  | entry :: rest =>
      match entry with
      | Some landmarks =>
          if truthy entry then landmarks :: valid_frames rest else valid_frames rest
      | None => valid_frames rest
      end
  end.

(** Landmark [i] of a frame of the data model (the default is never read on
    a frame of 33 landmarks and [i < 33]). *)
Definition landmark (landmarks : LandmarkFrame) (i : nat) : Landmark :=
  nth i landmarks (mkLandmark (Fin 0) (Fin 0) (Fin 0) (Fin 0)).

Definition point (landmarks : LandmarkFrame) (i : nat) : vec2 :=
  (x (landmark landmarks i), y (landmark landmarks i)).

(** The angle at joint [j] between joints [i] and [k]. *)
Definition joint_angle (landmarks : LandmarkFrame) (i j k : nat) : npfloat :=
  calculate_angle (point landmarks i) (point landmarks j) (point landmarks k).

Definition left_knee_angle (landmarks : LandmarkFrame) : npfloat :=
  joint_angle landmarks 23 25 27.
Definition right_knee_angle (landmarks : LandmarkFrame) : npfloat :=
  joint_angle landmarks 24 26 28.
Definition left_elbow_angle (landmarks : LandmarkFrame) : npfloat :=
  joint_angle landmarks 11 13 15.
Definition right_elbow_angle (landmarks : LandmarkFrame) : npfloat :=
  joint_angle landmarks 12 14 16.

(** The per-frame average knee and elbow angles of section 4.3. *)
Definition avg_knee_angle (landmarks : LandmarkFrame) : npfloat :=
  mean2 (left_knee_angle landmarks) (right_knee_angle landmarks).
Definition avg_elbow_angle (landmarks : LandmarkFrame) : npfloat :=
  mean2 (left_elbow_angle landmarks) (right_elbow_angle landmarks).

(** [max(l) - min(l)] of a non-empty series. *)
Definition series_range (l : list npfloat) : npfloat :=
  match py_max l, py_min l with
  | Ok hi, Ok lo => fsub hi lo
  | _, _ => Fin 0
  end.


(** The per-exercise parameters of the repetition counter (section 4.5):
    peaks at or above [peak_height], valleys at or below [valley_height],
    extrema of one kind at least [min_spacing] samples apart. *)
Record RepParameters : Type := {
  peak_height : Z;
  valley_height : Z;
  min_spacing : Z
}.

Definition rep_parameters (e : ExerciseType) : option RepParameters :=
  match e with
  | Squat => Some {| peak_height := 160; valley_height := 90; min_spacing := 10 |}
  | PushUp => Some {| peak_height := 160; valley_height := 70; min_spacing := 8 |}
  | Lunge => Some {| peak_height := 140; valley_height := 100; min_spacing := 10 |}
  | Unknown => None
  end.

(** The canonical signal of section 4.5, one sample per valid frame; for the
    lunge, the knee angle of the leg with the larger range. *)
Definition canonical_signal (e : ExerciseType) (landmarks_sequence : LandmarkSequence)
    : list npfloat :=
  let frames := valid_frames landmarks_sequence in
  match e with
  | Squat => map avg_knee_angle frames
  | PushUp => map avg_elbow_angle frames
  | Lunge =>
      let left := map left_knee_angle frames in
      let right := map right_knee_angle frames in
      if fgt (series_range left) (series_range right) then left else right
  | Unknown => []
  end.

(** The window section 4.5 prescribes for every exercise. *)
Definition spec_window (signal : list npfloat) : Z := Z.min 7 (len signal).

(** A frame of 33 landmarks that places the listed joints at the given
    finite positions and every other landmark at the origin. *)
Fixpoint joint_position (joints : list (nat * (R * R))) (i : nat) : R * R :=
  match joints with
  | [] => (0%R, 0%R)
  | (j, p) :: rest => if Nat.eqb i j then p else joint_position rest i
  end.

Definition frame_with (joints : list (nat * (R * R))) : LandmarkFrame :=
  map (fun i => let p := joint_position joints i in
                mkLandmark (Fin (fst p)) (Fin (snd p)) (Fin 0) (Fin 1))
      (seq 0 33).

Section Specification.

Variable savgol_filter : list npfloat -> Z -> Z -> res (list npfloat).
Variable find_peaks : list npfloat -> npfloat -> Z -> list Z.

(** The peaks of a signal at or above [h], at least [d] samples apart. *)
Definition peaks (signal : list npfloat) (h d : Z) : list Z :=
  find_peaks signal (of_int h) d.

(** The valleys of a signal at or below [h]: the peaks of the negated signal
    at or above [-h]. *)
Definition valleys (signal : list npfloat) (h d : Z) : list Z :=
  find_peaks (np_neg signal) (of_int (- h)) d.

(** [min(#peaks, #valleys)] *)
Definition extrema_count (signal : list npfloat) (p : RepParameters) : Z :=
  Z.min (len (peaks signal (peak_height p) (min_spacing p)))
        (len (valleys signal (valley_height p) (min_spacing p))).

(** The window each counter hands to [smooth_data]. *)
Definition counter_window (e : ExerciseType) (signal : list npfloat) : Z :=
  match e with
  | Lunge => default_window_length
  | _ => Z.min 7 (len signal)
  end.

(** The repetition count of section 4.5 on the signal as the counter
    smooths it. *)
Definition rep_count (e : ExerciseType) (landmarks_sequence : LandmarkSequence) : Z :=
  match rep_parameters e with
  | None => 0
  | Some p =>
      if len (valid_frames landmarks_sequence) <? 10 then 0
      else
        let signal := canonical_signal e landmarks_sequence in
        extrema_count (smooth_data savgol_filter signal (counter_window e signal)) p
  end.

(** The elbow metric of section 4.3: the range of the smoothed per-frame
    average elbow angle, over 180; 0 with fewer than 2 valid frames. *)
Definition spec_elbow_movement (landmarks_sequence : LandmarkSequence) : npfloat :=
  let signal := map avg_elbow_angle (valid_frames landmarks_sequence) in
  if len signal <? 2 then Fin 0
  else fdiv (series_range (smooth_data savgol_filter signal default_window_length))
            (Fin 180).

End Specification.


(** A frame of a person standing upright, legs straight, arms along the
    body, and twelve such frames in a row. *)
Definition standing : LandmarkFrame :=
  frame_with [(0%nat, (0.5, 0.1)%R);
              (11%nat, (0.4, 0.2)%R); (12%nat, (0.6, 0.2)%R);
              (13%nat, (0.4, 0.35)%R); (14%nat, (0.6, 0.35)%R);
              (15%nat, (0.4, 0.5)%R); (16%nat, (0.6, 0.5)%R);
              (23%nat, (0.4, 0.5)%R); (24%nat, (0.6, 0.5)%R);
              (25%nat, (0.4, 0.7)%R); (26%nat, (0.6, 0.7)%R);
              (27%nat, (0.4, 0.9)%R); (28%nat, (0.6, 0.9)%R)].

Definition standing_still : LandmarkSequence := repeat (Some standing) 12.


(** Two frames of the arms: in the first the left arm is straight and the
    right elbow is bent at a right angle, in the second it is the other way
    round. *)
Definition left_arm_straight : LandmarkFrame :=
  frame_with [(11%nat, (0.2, 0.5)%R); (13%nat, (0.5, 0.5)%R); (15%nat, (0.8, 0.5)%R);
              (12%nat, (0.2, 0.6)%R); (14%nat, (0.5, 0.6)%R); (16%nat, (0.5, 0.9)%R)].

Definition right_arm_straight : LandmarkFrame :=
  frame_with [(11%nat, (0.2, 0.5)%R); (13%nat, (0.5, 0.5)%R); (15%nat, (0.5, 0.8)%R);
              (12%nat, (0.2, 0.6)%R); (14%nat, (0.5, 0.6)%R); (16%nat, (0.8, 0.6)%R)].

Definition alternating_arms : LandmarkSequence :=
  [Some left_arm_straight; Some right_arm_straight].


(** The movement metrics of section 4.3 the classifier reads. *)
Record Metrics : Type := {
  hip_movement : npfloat;
  knee_movement : npfloat;
  shoulder_movement : npfloat;
  elbow_movement : npfloat;
  horizontal_position : bool;
  asymmetric_leg_movement : bool
}.

Definition ExerciseType_eqb (a b : ExerciseType) : bool :=
  match a, b with
  | Squat, Squat | PushUp, PushUp | Lunge, Lunge | Unknown, Unknown => true
  | _, _ => false
  end.

(** The confidence table of section 4.4: exercise, rule, points. *)
Definition confidence_table : list (ExerciseType * (Metrics -> bool) * Z) :=
  [ (Squat, fun m => fgt (hip_movement m) (Fin 0.2) && fgt (knee_movement m) (Fin 0.25), 40);
    (Squat, fun m => fgt (hip_movement m) (Fin 0.3), 30);
    (Squat, fun m => fgt (knee_movement m) (Fin 0.4), 30);
    (PushUp, fun m => fgt (elbow_movement m) (Fin 0.3) && fgt (shoulder_movement m) (Fin 0.15), 40);
    (PushUp, fun m => horizontal_position m, 35);
    (PushUp, fun m => fgt (elbow_movement m) (Fin 0.4), 25);
    (Lunge, fun m => asymmetric_leg_movement m, 60);
    (Lunge, fun m => fgt (hip_movement m) (Fin 0.25) && fgt (knee_movement m) (Fin 0.3), 40) ].

(** The total of an exercise: the points of its rules that hold. *)
Definition confidence (m : Metrics) (e : ExerciseType) : Z :=
  fold_right Z.add 0
    (map (fun rule => snd rule)
         (filter (fun rule => ExerciseType_eqb (fst (fst rule)) e && snd (fst rule) m)
                 confidence_table)).

(** The decision of section 4.4: Unknown below 50, else the first of Squat,
    PushUp, Lunge whose total is the maximum. *)
Definition classify (m : Metrics) : ExerciseType :=
  let maximum :=
    Z.max (Z.max (confidence m Squat) (confidence m PushUp)) (confidence m Lunge) in
  if maximum <? 50 then Unknown
  else match find (fun e => confidence m e =? maximum) [Squat; PushUp; Lunge] with
       | Some e => e
       | None => Unknown
       end.

(** The metrics as the analyzer computes them. *)
Definition metrics_of (savgol_filter : list npfloat -> Z -> Z -> res (list npfloat))
    (landmarks_sequence : LandmarkSequence) : Metrics :=
  {| hip_movement := analyze_hip_movement savgol_filter landmarks_sequence;
     knee_movement := analyze_knee_movement savgol_filter landmarks_sequence;
     shoulder_movement := analyze_shoulder_movement savgol_filter landmarks_sequence;
     elbow_movement := analyze_elbow_movement savgol_filter landmarks_sequence;
     horizontal_position := check_horizontal_body_position landmarks_sequence;
     asymmetric_leg_movement := detect_asymmetric_leg_movement landmarks_sequence |}.


(** The invariants of the result record (section 3): a count that is not
    negative, a finite score in [0, 10], feedback that is not empty. *)
Definition schema_valid (r : AnalysisResult) : Prop :=
  0 <= repCount r /\
  (exists s, formScore r = Fin s /\ (0 <= s <= 10)%R) /\
  feedback r <> [].


(** Three captures: no pose in any frame; twelve frames of a standing
    person; thirty such frames followed by ten frames without a pose. *)
Definition no_pose : LandmarkSequence := [None; None; None].

Definition standing_with_gaps : LandmarkSequence :=
  repeat (Some standing) 30 ++ repeat None 10.


(** The number of valid frames on which a per-frame test holds. *)
Definition violations (test : LandmarkFrame -> bool)
    (landmarks_sequence : LandmarkSequence) : Z :=
  len (filter test (valid_frames landmarks_sequence)).

(** The knee tests of the squat and of the lunge on the left leg (hip 23,
    knee 25, ankle 27), and the range-of-motion test of the push-up on the
    left arm (shoulder 11, elbow 13, wrist 15). *)
Definition left_knee_cave (landmarks : LandmarkFrame) : bool :=
  squat_knee_cave (x (landmark landmarks 25)) (x (landmark landmarks 23))
                  (x (landmark landmarks 27)).

Definition left_knee_forward (landmarks : LandmarkFrame) : bool :=
  squat_knee_forward (x (landmark landmarks 25)) (x (landmark landmarks 27)).

Definition left_front_knee_forward (landmarks : LandmarkFrame) : bool :=
  lunge_knee_forward (x (landmark landmarks 25)) (x (landmark landmarks 27)).

Definition left_partial_rom (landmarks : LandmarkFrame) : bool :=
  pushup_partial_rom (left_elbow_angle landmarks).

(** The same tests read on the right side of the body (hip 24, knee 26,
    ankle 28; shoulder 12, elbow 14, wrist 16). *)
Definition right_knee_cave (landmarks : LandmarkFrame) : bool :=
  squat_knee_cave (x (landmark landmarks 26)) (x (landmark landmarks 24))
                  (x (landmark landmarks 28)).

Definition right_knee_forward (landmarks : LandmarkFrame) : bool :=
  squat_knee_forward (x (landmark landmarks 26)) (x (landmark landmarks 28)).

Definition right_partial_rom (landmarks : LandmarkFrame) : bool :=
  pushup_partial_rom (right_elbow_angle landmarks).

(** Two frames with the same landmarks at [indices]; two sequences whose
    valid frames are such, pairwise. *)
Definition same_landmarks (indices : list nat) (a b : LandmarkFrame) : Prop :=
  forall i, In i indices -> landmark a i = landmark b i.

Definition same_on (indices : list nat) (s s' : LandmarkSequence) : Prop :=
  Forall2 (same_landmarks indices) (valid_frames s) (valid_frames s').

(** A person whose left leg is straight under the hip and whose left elbow
    is bent at a right angle, while the right arm is straight and the right
    knee sits at [right_knee_x] (right hip and right ankle are at 0.6). *)
Definition right_knee_at (right_knee_x : R) : LandmarkFrame :=
  frame_with [(0%nat, (0.5, 0.1)%R);
              (11%nat, (0.4, 0.2)%R); (12%nat, (0.6, 0.2)%R);
              (13%nat, (0.4, 0.35)%R); (14%nat, (0.6, 0.35)%R);
              (15%nat, (0.5, 0.35)%R); (16%nat, (0.6, 0.5)%R);
              (23%nat, (0.4, 0.5)%R); (24%nat, (0.6, 0.5)%R);
              (25%nat, (0.4, 0.7)%R); (26%nat, (right_knee_x, 0.7)%R);
              (27%nat, (0.4, 0.9)%R); (28%nat, (0.6, 0.9)%R)].

(** Two frames: the right knee caved in to 0.5, then pushed out to 0.7. *)
Definition right_side_violations : LandmarkSequence :=
  [Some (right_knee_at 0.5); Some (right_knee_at 0.7)].

(** The repetition count of section 4.5 with the window it prescribes. *)
Definition spec_rep_count
    (savgol_filter : list npfloat -> Z -> Z -> res (list npfloat))
    (find_peaks : list npfloat -> npfloat -> Z -> list Z)
    (e : ExerciseType) (landmarks_sequence : LandmarkSequence) : Z :=
  match rep_parameters e with
  | None => 0
  | Some p =>
      if len (valid_frames landmarks_sequence) <? 10 then 0
      else
        let signal := canonical_signal e landmarks_sequence in
        extrema_count find_peaks
          (smooth_data savgol_filter signal (spec_window signal)) p
  end.

(** The right leg straight throughout; the left leg folded, the ankle at
    the hip (knee angle 0), or straight (knee angle 180). *)
Definition left_leg_folded : LandmarkFrame :=
  frame_with [(23%nat, (0.4, 0.5)%R); (25%nat, (0.4, 0.7)%R); (27%nat, (0.4, 0.5)%R);
              (24%nat, (0.6, 0.5)%R); (26%nat, (0.6, 0.7)%R); (28%nat, (0.6, 0.9)%R)].

Definition left_leg_straight : LandmarkFrame :=
  frame_with [(23%nat, (0.4, 0.5)%R); (25%nat, (0.4, 0.7)%R); (27%nat, (0.4, 0.9)%R);
              (24%nat, (0.6, 0.5)%R); (26%nat, (0.6, 0.7)%R); (28%nat, (0.6, 0.9)%R)].

(** Twelve frames: the left leg folded, straight for two frames, folded
    again. *)
Definition knee_pulse : LandmarkSequence :=
  repeat (Some left_leg_folded) 5 ++ repeat (Some left_leg_straight) 2
  ++ repeat (Some left_leg_folded) 5.

(** One rule of a form analysis (section 4.6): the per-frame test, the
    fraction of the frames above which the rule fires, the feedback it adds
    and the penalty it costs. *)
Record FormRule : Type := {
  rule_test : LandmarkFrame -> bool;
  rule_fraction : R;
  rule_message : string;
  rule_penalty : R
}.

(** The verdict of a table of rules: the messages of the rules that fire, in
    the order of the table, or the positive message when none fires, and 10
    minus the penalties of the rules that fire.  A rule fires when the
    number of valid frames that fail its test exceeds its fraction of the
    length of the whole sequence. *)
Definition verdict (rules : list FormRule) (positive : string)
    (landmarks_sequence : LandmarkSequence) : list string * npfloat :=
  let fired :=
    filter (fun r => exceeds (violations (rule_test r) landmarks_sequence)
                             (len landmarks_sequence) (rule_fraction r))
           rules in
  (if is_empty fired then [positive] else map rule_message fired,
   fold_left (fun score r => fsub score (Fin (rule_penalty r))) fired (Fin 10)).

(** The per-frame tests that read both sides of the body. *)
Definition shoulder_y_of (landmarks : LandmarkFrame) : npfloat :=
  mean2 (y (landmark landmarks 11)) (y (landmark landmarks 12)).
Definition hip_y_of (landmarks : LandmarkFrame) : npfloat :=
  mean2 (y (landmark landmarks 23)) (y (landmark landmarks 24)).
Definition ankle_y_of (landmarks : LandmarkFrame) : npfloat :=
  mean2 (y (landmark landmarks 27)) (y (landmark landmarks 28)).
Definition shoulder_x_of (landmarks : LandmarkFrame) : npfloat :=
  mean2 (x (landmark landmarks 11)) (x (landmark landmarks 12)).
Definition hip_x_of (landmarks : LandmarkFrame) : npfloat :=
  mean2 (x (landmark landmarks 23)) (x (landmark landmarks 24)).

Definition back_lean (landmarks : LandmarkFrame) : bool :=
  squat_back_lean (shoulder_x_of landmarks, shoulder_y_of landmarks)
                  (hip_x_of landmarks, hip_y_of landmarks).

Definition depth_insufficient (landmarks : LandmarkFrame) : bool :=
  squat_depth_insufficient
    (hip_y_of landmarks)
    (mean2 (y (landmark landmarks 25)) (y (landmark landmarks 26))).

Definition hip_sag (landmarks : LandmarkFrame) : bool :=
  pushup_hip_sag (hip_y_of landmarks) (shoulder_y_of landmarks) (ankle_y_of landmarks).

Definition hip_pike (landmarks : LandmarkFrame) : bool :=
  pushup_hip_pike (hip_y_of landmarks) (shoulder_y_of landmarks) (ankle_y_of landmarks).

Definition head_position (landmarks : LandmarkFrame) : bool :=
  pushup_head_position (y (landmark landmarks 0)) (shoulder_y_of landmarks).

Definition torso_lean (landmarks : LandmarkFrame) : bool :=
  lunge_torso_lean (shoulder_x_of landmarks) (hip_x_of landmarks).

Definition lunge_depth (landmarks : LandmarkFrame) : bool :=
  lunge_insufficient_depth (y (landmark landmarks 25)) (y (landmark landmarks 26)).

(** The rule tables of the three form analyses, in the order in which the
    code appends the feedback. *)
Definition squat_rules : list FormRule :=
  [ {| rule_test := left_knee_cave; rule_fraction := 0.15;
       rule_message := "Keep your knees aligned with your toes - avoid knee cave";
       rule_penalty := 2.5 |};
    {| rule_test := left_knee_forward; rule_fraction := 0.2;
       rule_message := "Keep your knees behind your toes";
       rule_penalty := 1.5 |};
    {| rule_test := back_lean; rule_fraction := 0.25;
       rule_message := "Keep your chest up and back straight";
       rule_penalty := 2.0 |};
    {| rule_test := depth_insufficient; rule_fraction := 0.3;
       rule_message := "Go deeper - hips should go below knee level";
       rule_penalty := 1.5 |} ].

Definition pushup_rules : list FormRule :=
  [ {| rule_test := hip_sag; rule_fraction := 0.2;
       rule_message := "Keep your core tight - avoid hip sag";
       rule_penalty := 2.5 |};
    {| rule_test := hip_pike; rule_fraction := 0.2;
       rule_message := "Keep your body straight - avoid piking your hips";
       rule_penalty := 2.0 |};
    {| rule_test := left_partial_rom; rule_fraction := 0.3;
       rule_message := "Go lower - chest should nearly touch the ground";
       rule_penalty := 2.0 |};
    {| rule_test := head_position; rule_fraction := 0.25;
       rule_message := "Keep your head in neutral position";
       rule_penalty := 1.0 |} ].

Definition lunge_rules : list FormRule :=
  [ {| rule_test := left_front_knee_forward; rule_fraction := 0.2;
       rule_message := "Keep your front knee behind your toes";
       rule_penalty := 2.0 |};
    {| rule_test := torso_lean; rule_fraction := 0.25;
       rule_message := "Keep your torso upright";
       rule_penalty := 1.5 |};
    {| rule_test := lunge_depth; rule_fraction := 0.3;
       rule_message := "Go deeper in your lunge";
       rule_penalty := 1.5 |} ].

(** The per-frame test of [check_horizontal_body_position], line 166:
    shoulders and hips at nearly the same height. *)
Definition horizontal (landmarks : LandmarkFrame) : bool :=
  flt (fabs (fsub (shoulder_y_of landmarks) (hip_y_of landmarks))) (Fin 0.15).

(** A frame of a person in the plank position, the body along the x axis,
    and three entries of a sequence: two such frames and one without a
    pose. *)
Definition plank : LandmarkFrame :=
  frame_with [(0%nat, (0.2, 0.45)%R);
              (11%nat, (0.3, 0.5)%R); (12%nat, (0.3, 0.5)%R);
              (13%nat, (0.3, 0.6)%R); (14%nat, (0.3, 0.6)%R);
              (15%nat, (0.3, 0.7)%R); (16%nat, (0.3, 0.7)%R);
              (23%nat, (0.6, 0.52)%R); (24%nat, (0.6, 0.52)%R);
              (25%nat, (0.75, 0.53)%R); (26%nat, (0.75, 0.53)%R);
              (27%nat, (0.9, 0.54)%R); (28%nat, (0.9, 0.54)%R)].

Definition plank_with_gap : LandmarkSequence := [Some plank; Some plank; None].

(** One squat seen from the side in two frames: standing with straight
    legs, then the thighs level with the knees. *)
Definition squat_top : LandmarkFrame :=
  frame_with [(11%nat, (0.5, 0.05)%R); (12%nat, (0.5, 0.05)%R);
              (23%nat, (0.5, 0.25)%R); (24%nat, (0.5, 0.25)%R);
              (25%nat, (0.5, 0.6)%R); (26%nat, (0.5, 0.6)%R);
              (27%nat, (0.5, 0.9)%R); (28%nat, (0.5, 0.9)%R)].

Definition squat_bottom : LandmarkFrame :=
  frame_with [(11%nat, (0.25, 0.4)%R); (12%nat, (0.25, 0.4)%R);
              (23%nat, (0.2, 0.6)%R); (24%nat, (0.2, 0.6)%R);
              (25%nat, (0.5, 0.6)%R); (26%nat, (0.5, 0.6)%R);
              (27%nat, (0.5, 0.9)%R); (28%nat, (0.5, 0.9)%R)].

Definition squat_rep : LandmarkSequence := [Some squat_top; Some squat_bottom].

(** Thirty frames cut after landmark 14. *)
Definition cut_frames : LandmarkSequence := repeat (Some (firstn 15 standing)) 30.

(* ===================================================================== *)
(** ** Properties *)
(* ===================================================================== *)

(** *** Arithmetic of doubles *)

Ltac rbool :=
  unfold Rltb, Reqb in *;
  repeat match goal with
         | |- context [Rlt_dec ?a ?b] => destruct (Rlt_dec a b)
         | |- context [Req_dec_T ?a ?b] => destruct (Req_dec_T a b)
         | H : context [Rlt_dec ?a ?b] |- _ => destruct (Rlt_dec a b)
         | H : context [Req_dec_T ?a ?b] |- _ => destruct (Req_dec_T a b)
         end.

Lemma Rltb_true (a b : R) : (a < b)%R -> Rltb a b = true.
Proof. intros; rbool; [reflexivity | lra]. Qed.

Lemma Rltb_false (a b : R) : (b <= a)%R -> Rltb a b = false.
Proof. intros; rbool; [lra | reflexivity]. Qed.

Lemma Reqb_true (a b : R) : a = b -> Reqb a b = true.
Proof. intros; rbool; [reflexivity | contradiction]. Qed.

Lemma Reqb_false (a b : R) : a <> b -> Reqb a b = false.
Proof. intros; rbool; [contradiction | reflexivity]. Qed.

(** Decide every comparison of two real constants in the goal. *)
Ltac rcmp :=
  repeat match goal with
         | |- context [Rltb ?a ?b] =>
             first [ rewrite (@Rltb_true a b) by lra
                   | rewrite (@Rltb_false a b) by lra ]
         | |- context [Reqb ?a ?b] =>
             first [ rewrite (@Reqb_true a b) by lra
                   | rewrite (@Reqb_false a b) by lra ]
         end.

Lemma fmul_comm (a b : npfloat) : fmul a b = fmul b a.
Proof.
  destruct a, b; simpl; try reflexivity.
  - f_equal; apply Rmult_comm.
  - f_equal; apply xorb_comm.
Qed.

Lemma fadd_comm (a b : npfloat) : fadd a b = fadd b a.
Proof.
  destruct a, b; simpl; try reflexivity.
  - f_equal; apply Rplus_comm.
  - destruct negative, negative0; reflexivity.
Qed.

Lemma Fin_eq (a b : R) : a = b -> Fin a = Fin b.
Proof. now intros ->. Qed.

Lemma fsub_self (a : npfloat) : zero_or_nan (fsub a a).
Proof.
  destruct a as [r | s | ]; unfold fsub; simpl.
  - left; apply Fin_eq; lra.
  - right; now destruct s.
  - now right.
Qed.

Lemma fmul_zero_or_nan_l (u v : npfloat) : zero_or_nan u -> zero_or_nan (fmul u v).
Proof.
  intros [-> | ->]; destruct v as [r | s | ]; simpl; try (now right).
  - left; apply Fin_eq; lra.
  - right; now rewrite Reqb_true.
Qed.

Lemma fmul_zero_or_nan_r (u v : npfloat) : zero_or_nan v -> zero_or_nan (fmul u v).
Proof. rewrite fmul_comm; apply fmul_zero_or_nan_l. Qed.

Lemma fadd_zero_or_nan (u v : npfloat) :
  zero_or_nan u -> zero_or_nan v -> zero_or_nan (fadd u v).
Proof.
  intros [-> | ->] [-> | ->]; simpl; try (now right).
  left; apply Fin_eq; lra.
Qed.

Lemma fsqrt_zero_or_nan (u : npfloat) : zero_or_nan u -> zero_or_nan (fsqrt u).
Proof.
  intros [-> | ->]; simpl; [ | now right].
  rewrite Rltb_false by lra. left; apply Fin_eq, sqrt_0.
Qed.

Lemma fdiv_zero_or_nan (u v : npfloat) :
  zero_or_nan u -> zero_or_nan v -> fdiv u v = NaN.
Proof.
  intros [-> | ->] [-> | ->]; simpl; try reflexivity.
  now rewrite !Reqb_true.
Qed.

Lemma nonfinite_fneg (u : npfloat) : nonfinite u -> nonfinite (fneg u).
Proof. now destruct u. Qed.

Lemma nonfinite_fadd_l (u v : npfloat) : nonfinite u -> nonfinite (fadd u v).
Proof.
  destruct u as [r | s | ], v as [r' | s' | ]; simpl; try tauto.
  now destruct (Bool.eqb s s').
Qed.

Lemma nonfinite_fadd_r (u v : npfloat) : nonfinite v -> nonfinite (fadd u v).
Proof. rewrite fadd_comm; apply nonfinite_fadd_l. Qed.

Lemma nonfinite_fsub_l (u v : npfloat) : nonfinite u -> nonfinite (fsub u v).
Proof. apply nonfinite_fadd_l. Qed.

Lemma nonfinite_fsub_r (u v : npfloat) : nonfinite v -> nonfinite (fsub u v).
Proof. intros; apply nonfinite_fadd_r; now apply nonfinite_fneg. Qed.

Lemma nonfinite_fmul_l (u v : npfloat) : nonfinite u -> nonfinite (fmul u v).
Proof.
  destruct u as [r | s | ], v as [r' | s' | ]; simpl; try tauto.
  now destruct (Reqb r' 0).
Qed.

Lemma nonfinite_fmul_r (u v : npfloat) : nonfinite v -> nonfinite (fmul u v).
Proof. rewrite fmul_comm; apply nonfinite_fmul_l. Qed.

Lemma nonfinite_fsqrt (u : npfloat) : nonfinite u -> nonfinite (fsqrt u).
Proof. destruct u as [r | [] | ]; simpl; tauto. Qed.

Lemma fdiv_nonfinite (u v : npfloat) : nonfinite u -> nonfinite v -> fdiv u v = NaN.
Proof. destruct u, v; simpl; tauto. Qed.

(** *** The range of doubles *)

Lemma pow2_40 : (2 ^ 40 = 1099511627776)%R.
Proof. simpl; lra. Qed.

Lemma underflow_threshold_small :
  (0 < underflow_threshold < 1 / 1000000000000)%R.
Proof.
  unfold underflow_threshold.
  assert (H40 : (2 ^ 40 <= 2 ^ 1075)%R) by (apply Rle_pow; [lra | lia]).
  rewrite pow2_40 in H40.
  assert (Hpos : (0 < 2 ^ 1075)%R) by lra.
  split.
  - now apply Rinv_0_lt_compat.
  - apply Rmult_lt_reg_r with (2 ^ 1075)%R; [assumption | ].
    rewrite Rinv_l by lra. lra.
Qed.

Lemma overflow_threshold_large : (1000000000000 < overflow_threshold)%R.
Proof.
  unfold overflow_threshold.
  assert (H40 : (2 ^ 40 <= 2 ^ 970)%R) by (apply Rle_pow; [lra | lia]).
  rewrite pow2_40 in H40.
  assert (E : (2 ^ 1024 = 2 ^ 970 * 2 ^ 54)%R) by (rewrite <- pow_add; reflexivity).
  assert (H54 : (2 ^ 1 <= 2 ^ 54)%R) by (apply Rle_pow; [lra | lia]).
  rewrite pow_1 in H54. rewrite E. nra.
Qed.

Lemma to_double_zero : to_double 0 = Fin 0.
Proof.
  unfold to_double. rewrite Rabs_R0.
  pose proof overflow_threshold_large. pose proof underflow_threshold_small.
  rewrite Rltb_true by lra. now rewrite Rltb_false by lra.
Qed.

(** A result in the range of doubles is kept. *)
Lemma to_double_in_range (r : R) :
  (underflow_threshold < Rabs r < overflow_threshold)%R -> to_double r = Fin r.
Proof.
  intros [Hlo Hhi]. unfold to_double.
  rewrite (Rltb_true Hhi). now rewrite (Rltb_true Hlo).
Qed.



(** Zero, or a magnitude between 1e-12 and 1e12: kept. *)
Lemma to_double_moderate (r : R) :
  (r = 0 \/ (1 / 1000000000000 <= r <= 1000000000000) \/
   (-1000000000000 <= r <= - (1 / 1000000000000)))%R ->
  to_double r = Fin r.
Proof.
  pose proof overflow_threshold_large. pose proof underflow_threshold_small.
  intros [-> | [Hpos | Hneg]].
  - apply to_double_zero.
  - apply to_double_in_range. rewrite Rabs_right by lra. lra.
  - apply to_double_in_range. rewrite Rabs_left by lra. lra.
Qed.

Lemma in_range_zero_or_nan (u : npfloat) : zero_or_nan u -> zero_or_nan (in_range u).
Proof.
  intros [-> | ->]; simpl; [left; apply to_double_zero | now right].
Qed.

Lemma in_range_nonfinite (u : npfloat) : nonfinite u -> nonfinite (in_range u).
Proof. destruct u; simpl; tauto. Qed.

Lemma mul64_comm (a b : npfloat) : mul64 a b = mul64 b a.
Proof. unfold mul64. now rewrite fmul_comm. Qed.

Lemma add64_comm (a b : npfloat) : add64 a b = add64 b a.
Proof. unfold add64. now rewrite fadd_comm. Qed.

Lemma dot_comm (u v : vec2) : dot u v = dot v u.
Proof. unfold dot; now rewrite (mul64_comm (fst u)), (mul64_comm (snd u)). Qed.

Lemma sub64_self (a : npfloat) : zero_or_nan (sub64 a a).
Proof. apply in_range_zero_or_nan, fsub_self. Qed.

Lemma mul64_zero_or_nan_l (u v : npfloat) : zero_or_nan u -> zero_or_nan (mul64 u v).
Proof. intros; now apply in_range_zero_or_nan, fmul_zero_or_nan_l. Qed.

Lemma add64_zero_or_nan (u v : npfloat) :
  zero_or_nan u -> zero_or_nan v -> zero_or_nan (add64 u v).
Proof. intros; now apply in_range_zero_or_nan, fadd_zero_or_nan. Qed.

Lemma div64_zero_or_nan (u v : npfloat) :
  zero_or_nan u -> zero_or_nan v -> div64 u v = NaN.
Proof. intros Hu Hv. unfold div64. now rewrite (fdiv_zero_or_nan Hu Hv). Qed.

Lemma div64_nonfinite (u v : npfloat) : nonfinite u -> nonfinite v -> div64 u v = NaN.
Proof. intros Hu Hv. unfold div64. now rewrite (fdiv_nonfinite _ _ Hu Hv). Qed.

(** *** The angle primitive *)

Lemma calculate_angle_unfold (a b c : vec2) :
  calculate_angle a b c =
  degrees (arccos (clip (div64 (dot (vsub a b) (vsub c b))
                               (mul64 (norm (vsub a b)) (norm (vsub c b))))
                        (Fin (-1)) (Fin 1))).
Proof. reflexivity. Qed.

Lemma angle_of_nan_cosine (a b c : vec2) :
  div64 (dot (vsub a b) (vsub c b)) (mul64 (norm (vsub a b)) (norm (vsub c b))) = NaN ->
  calculate_angle a b c = NaN.
Proof. intros H; rewrite calculate_angle_unfold, H; reflexivity. Qed.

Lemma dot_zero_or_nan_l (u v : vec2) :
  zero_or_nan (fst u) -> zero_or_nan (snd u) -> zero_or_nan (dot u v).
Proof. intros; apply add64_zero_or_nan; now apply mul64_zero_or_nan_l. Qed.

Lemma norm_zero_or_nan (u : vec2) :
  zero_or_nan (fst u) -> zero_or_nan (snd u) -> zero_or_nan (norm u).
Proof. intros; apply fsqrt_zero_or_nan; now apply dot_zero_or_nan_l. Qed.

Lemma dot_nonfinite_l (u v : vec2) :
  nonfinite_point u -> nonfinite (dot u v).
Proof.
  intros [H | H]; unfold dot, add64, mul64; apply in_range_nonfinite.
  - now apply nonfinite_fadd_l, in_range_nonfinite, nonfinite_fmul_l.
  - now apply nonfinite_fadd_r, in_range_nonfinite, nonfinite_fmul_l.
Qed.

Lemma norm_nonfinite (u : vec2) : nonfinite_point u -> nonfinite (norm u).
Proof. intros; now apply nonfinite_fsqrt, dot_nonfinite_l. Qed.

Lemma vsub_nonfinite_l (u v : vec2) : nonfinite_point u -> nonfinite_point (vsub u v).
Proof.
  intros [H | H]; [left | right]; now apply in_range_nonfinite, nonfinite_fsub_l.
Qed.

Lemma vsub_nonfinite_r (u v : vec2) : nonfinite_point v -> nonfinite_point (vsub u v).
Proof.
  intros [H | H]; [left | right]; now apply in_range_nonfinite, nonfinite_fsub_r.
Qed.

(** A zero-length first ray makes the cosine 0/0. *)
Lemma cosine_zero_ray_l (u v : vec2) :
  zero_or_nan (fst u) -> zero_or_nan (snd u) ->
  div64 (dot u v) (mul64 (norm u) (norm v)) = NaN.
Proof.
  intros; apply div64_zero_or_nan.
  - now apply dot_zero_or_nan_l.
  - now apply mul64_zero_or_nan_l, norm_zero_or_nan.
Qed.

(** A ray with a non-finite component makes the cosine inf/inf or NaN. *)
Lemma cosine_nonfinite_ray_l (u v : vec2) :
  nonfinite_point u -> div64 (dot u v) (mul64 (norm u) (norm v)) = NaN.
Proof.
  intros; apply div64_nonfinite.
  - now apply dot_nonfinite_l.
  - now apply in_range_nonfinite, nonfinite_fmul_l, norm_nonfinite.
Qed.

Lemma cosine_swap (u v : vec2) :
  div64 (dot u v) (mul64 (norm u) (norm v)) = div64 (dot v u) (mul64 (norm v) (norm u)).
Proof. now rewrite dot_comm, mul64_comm. Qed.

(** C1 (what the code does on the inputs of the claim): on every degenerate
    input - [a = b], [b = c], or a coordinate that is an infinity or NaN -
    [calculate_angle] returns NaN.  The division of line 55 does not raise,
    so the handler that would return 0.0 is never entered. *)
Theorem calculate_angle_degenerate_is_nan (a b c : vec2) :
  degenerate a b c -> calculate_angle a b c = NaN.
Proof.
  intros H; apply angle_of_nan_cosine.
  destruct H as [-> | [-> | [H | [H | H]]]].
  - apply cosine_zero_ray_l; apply sub64_self.
  - rewrite cosine_swap. apply cosine_zero_ray_l; apply sub64_self.
  - now apply cosine_nonfinite_ray_l, vsub_nonfinite_l.
  - now apply cosine_nonfinite_ray_l, vsub_nonfinite_r.
  - rewrite cosine_swap. now apply cosine_nonfinite_ray_l, vsub_nonfinite_l.
Qed.

(** The elbow of a frame whose shoulder and elbow coincide: the angle is NaN,
    and NaN is not the 0.0 the claim promises. *)
Lemma calculate_angle_degenerate_is_nan_witness :
  degenerate (pt 0.5 0.5) (pt 0.5 0.5) (pt 0.6 0.5) /\
  calculate_angle (pt 0.5 0.5) (pt 0.5 0.5) (pt 0.6 0.5) = NaN /\
  NaN <> Fin 0.
Proof.
  split; [ | split].
  - left; reflexivity.
  - apply (@calculate_angle_degenerate_is_nan (pt 0.5 0.5) (pt 0.5 0.5) (pt 0.6 0.5)).
    left; reflexivity.
  - discriminate.
Defined.













(** The product of two values that are zero or between 1e-3 and 1e3 in
    magnitude is zero or between 1e-6 and 1e6. *)
Lemma product_moderate (u v : R) :
  (u = 0 \/ (1 / 1000 <= u <= 1000) \/ (-1000 <= u <= - (1 / 1000)))%R ->
  (v = 0 \/ (1 / 1000 <= v <= 1000) \/ (-1000 <= v <= - (1 / 1000)))%R ->
  (u * v = 0 \/ (1 / 1000000 <= u * v <= 1000000) \/
   (-1000000 <= u * v <= - (1 / 1000000)))%R.
Proof.
  intros [-> | [Hu | Hu]] [-> | [Hv | Hv]]; try (left; ring).
  - right; left; nra.
  - right; right; nra.
  - right; right; nra.
  - right; left; nra.
Qed.

Lemma to_double_product (u v : R) :
  (u = 0 \/ (1 / 1000 <= u <= 1000) \/ (-1000 <= u <= - (1 / 1000)))%R ->
  (v = 0 \/ (1 / 1000 <= v <= 1000) \/ (-1000 <= v <= - (1 / 1000)))%R ->
  to_double (u * v) = Fin (u * v).
Proof.
  intros Hu Hv. apply to_double_moderate.
  destruct (product_moderate Hu Hv) as [H | [H | H]]; lra.
Qed.

Lemma norm_moderate (u v n : R) :
  (u = 0 \/ (1 / 1000 <= u <= 1000) \/ (-1000 <= u <= - (1 / 1000)))%R ->
  (v = 0 \/ (1 / 1000 <= v <= 1000) \/ (-1000 <= v <= - (1 / 1000)))%R ->
  (1 / 1000 <= n <= 1000)%R ->
  (n * n = u * u + v * v)%R ->
  norm (Fin u, Fin v) = Fin n.
Proof.
  intros Hu Hv Hn Hsq. unfold norm, dot, add64, mul64. cbn [fst snd fmul in_range].
  rewrite !to_double_product by assumption.
  cbn [fadd in_range]. rewrite <- Hsq.
  rewrite to_double_moderate by (right; left; nra).
  cbn [fsqrt]. rewrite Rltb_false by nra.
  apply Fin_eq. apply sqrt_square. lra.
Qed.

Lemma sub64_moderate (p q : R) :
  (p - q = 0 \/ (1 / 1000 <= p - q <= 1000) \/ (-1000 <= p - q <= - (1 / 1000)))%R ->
  sub64 (Fin p) (Fin q) = Fin (p - q).
Proof.
  intros H. unfold sub64, fsub. cbn [fneg fadd in_range].
  change (p + - q)%R with (p - q)%R. apply to_double_moderate. lra.
Qed.



(** *** Frames and loops *)

Lemma getitem_landmark (landmarks : LandmarkFrame) (i : nat) :
  (i < List.length landmarks)%nat -> getitem landmarks i = Ok (landmark landmarks i).
Proof.
  intros H. unfold getitem, landmark.
  now rewrite (nth_error_nth' landmarks (mkLandmark (Fin 0) (Fin 0) (Fin 0) (Fin 0)) H).
Qed.

Lemma xy_point (landmarks : LandmarkFrame) (i : nat) :
  (i < List.length landmarks)%nat -> xy landmarks i = Ok (point landmarks i).
Proof. intros H. unfold xy. now rewrite getitem_landmark. Qed.

Lemma angle_at_joint_angle (landmarks : LandmarkFrame) (i j k : nat) :
  (i < List.length landmarks)%nat ->
  (j < List.length landmarks)%nat ->
  (k < List.length landmarks)%nat ->
  angle_at landmarks i j k = Ok (joint_angle landmarks i j k).
Proof. intros Hi Hj Hk. unfold angle_at. now rewrite !xy_point. Qed.

(** Rewrite every landmark access of a frame known to hold 33 landmarks. *)
Ltac frame33 H :=
  repeat first
    [ rewrite angle_at_joint_angle by (rewrite H; lia)
    | rewrite xy_point by (rewrite H; lia)
    | rewrite getitem_landmark by (rewrite H; lia) ];
  cbn [bind].

Lemma well_formed_cons (entry : option LandmarkFrame) (rest : LandmarkSequence) :
  well_formed (entry :: rest) ->
  (forall landmarks, entry = Some landmarks -> List.length landmarks = 33%nat) /\
  well_formed rest.
Proof. intros H; inversion H; subst; now split. Qed.

(** On a well-formed sequence a loop whose body cannot fail on a frame of 33
    landmarks is a left fold over the valid frames. *)
Lemma for_frames_fold {S : Type} (body : S -> LandmarkFrame -> res S)
    (step : S -> LandmarkFrame -> S) (landmarks_sequence : LandmarkSequence) :
  (forall s landmarks, List.length landmarks = 33%nat ->
                       body s landmarks = Ok (step s landmarks)) ->
  well_formed landmarks_sequence ->
  forall s, for_frames body landmarks_sequence s =
            Ok (fold_left step (valid_frames landmarks_sequence) s).
Proof.
  intros Hbody. induction landmarks_sequence as [ | entry rest IH]; intros Hwf s.
  - reflexivity.
  - apply well_formed_cons in Hwf as [Hlen Hrest].
    destruct entry as [landmarks | ]; simpl.
    + destruct landmarks as [ | lm0 tl] eqn:E.
      * now apply IH.
      * rewrite <- E. rewrite Hbody by (apply Hlen; now rewrite E). simpl.
        now apply IH.
    + now apply IH.
Qed.

Lemma fold_left_append {A B : Type} (g : A -> B) (l : list A) (acc : list B) :
  fold_left (fun acc a => acc ++ [g a]) l acc = acc ++ map g l.
Proof.
  revert acc; induction l as [ | a l IH]; intros acc; simpl.
  - now rewrite app_nil_r.
  - rewrite IH, <- app_assoc. reflexivity.
Qed.

(** A loop that appends one value per frame builds the series of that value
    over the valid frames. *)
Lemma for_frames_series (body : list npfloat -> LandmarkFrame -> res (list npfloat))
    (g : LandmarkFrame -> npfloat) (landmarks_sequence : LandmarkSequence) :
  (forall acc landmarks, List.length landmarks = 33%nat ->
                         body acc landmarks = Ok (acc ++ [g landmarks])) ->
  well_formed landmarks_sequence ->
  for_frames body landmarks_sequence [] = Ok (map g (valid_frames landmarks_sequence)).
Proof.
  intros Hbody Hwf.
  rewrite (for_frames_fold body (fun acc lm => acc ++ [g lm]) Hbody Hwf).
  now rewrite fold_left_append.
Qed.

Lemma avg_knee_angles_series (landmarks_sequence : LandmarkSequence) :
  well_formed landmarks_sequence ->
  avg_knee_angles landmarks_sequence =
  Ok (map avg_knee_angle (valid_frames landmarks_sequence)).
Proof.
  intros Hwf. unfold avg_knee_angles. apply for_frames_series; [ | assumption].
  intros acc lm H. now frame33 H.
Qed.


Lemma fold_left_append2 {A B C : Type} (g : A -> B) (h : A -> C) (l : list A)
    (acc : list B * list C) :
  fold_left (fun acc a => (fst acc ++ [g a], snd acc ++ [h a])) l acc =
  (fst acc ++ map g l, snd acc ++ map h l).
Proof.
  revert acc; induction l as [ | a l IH]; intros [bs cs]; simpl.
  - now rewrite !app_nil_r.
  - rewrite IH; simpl. now rewrite <- !app_assoc.
Qed.

Lemma knee_angle_lists_series (landmarks_sequence : LandmarkSequence) :
  well_formed landmarks_sequence ->
  knee_angle_lists landmarks_sequence =
  Ok (map left_knee_angle (valid_frames landmarks_sequence),
      map right_knee_angle (valid_frames landmarks_sequence)).
Proof.
  intros Hwf. unfold knee_angle_lists.
  rewrite (for_frames_fold _
             (fun acc lm => (fst acc ++ [left_knee_angle lm],
                             snd acc ++ [right_knee_angle lm]))).
  - now rewrite fold_left_append2.
  - intros acc lm H. now frame33 H.
  - assumption.
Qed.

(** *** Smoothing *)

Lemma smooth_data_short (savgol_filter : list npfloat -> Z -> Z -> res (list npfloat))
    (data : list npfloat) (window_length : Z) :
  len data < window_length -> smooth_data savgol_filter data window_length = data.
Proof. intros H. unfold smooth_data. apply Z.ltb_lt in H. now rewrite H. Qed.

Lemma smooth_data_long (savgol_filter : list npfloat -> Z -> Z -> res (list npfloat))
    (data : list npfloat) (window_length : Z) :
  window_length <= len data ->
  smooth_data savgol_filter data window_length =
  let window_length :=
    if window_length mod 2 =? 0 then window_length - 1 else window_length in
  try_except (savgol_filter data window_length (Z.min 3 (window_length - 1))) data.
Proof. intros H. unfold smooth_data. apply Z.ltb_ge in H. now rewrite H. Qed.

Section SmoothingProperties.

Variable savgol_filter : list npfloat -> Z -> Z -> res (list npfloat).

(** The contract of [scipy.signal.savgol_filter]: the filtered array has the
    shape of its input. *)
Hypothesis savgol_filter_shape :
  forall data window_length polyorder filtered,
    savgol_filter data window_length polyorder = Ok filtered ->
    List.length filtered = List.length data.

(** C8: [smooth_data] returns a series of the length of its input, and
    returns the input itself when it is shorter than the window. *)
Theorem smooth_data_length_and_short_input (data : list npfloat) (window_length : Z) :
  List.length (smooth_data savgol_filter data window_length) = List.length data /\
  (len data < window_length -> smooth_data savgol_filter data window_length = data).
Proof.
  unfold smooth_data. split.
  - destruct (len data <? window_length); [reflexivity | ].
    destruct (savgol_filter data _ _) as [filtered | e] eqn:E; simpl.
    + now apply savgol_filter_shape in E.
    + reflexivity.
  - apply smooth_data_short.
Qed.

End SmoothingProperties.

(** *** Repetition counting *)

Lemma len_map {A B : Type} (g : A -> B) (l : list A) : len (map g l) = len l.
Proof. unfold len. now rewrite length_map. Qed.

Lemma py_range_series (l : list npfloat) :
  0 < len l -> py_range l = Ok (series_range l).
Proof. destruct l; [unfold len; simpl; lia | reflexivity]. Qed.

Section CountingProperties.

Variable savgol_filter : list npfloat -> Z -> Z -> res (list npfloat).
Variable find_peaks : list npfloat -> npfloat -> Z -> list Z.

Lemma count_squat_reps_spec (landmarks_sequence : LandmarkSequence) :
  well_formed landmarks_sequence ->
  count_squat_reps savgol_filter find_peaks landmarks_sequence =
  rep_count savgol_filter find_peaks Squat landmarks_sequence.
Proof.
  intros Hwf. unfold count_squat_reps, rep_count.
  rewrite (avg_knee_angles_series Hwf).
  cbn [bind rep_parameters canonical_signal counter_window].
  rewrite !len_map.
  destruct (len (valid_frames landmarks_sequence) <? 10); reflexivity.
Qed.


Lemma count_lunge_reps_spec (landmarks_sequence : LandmarkSequence) :
  well_formed landmarks_sequence ->
  count_lunge_reps savgol_filter find_peaks landmarks_sequence =
  rep_count savgol_filter find_peaks Lunge landmarks_sequence.
Proof.
  intros Hwf. unfold count_lunge_reps, rep_count.
  rewrite (knee_angle_lists_series Hwf). cbn [bind rep_parameters fst snd].
  rewrite len_map.
  destruct (len (valid_frames landmarks_sequence) <? 10) eqn:E; [reflexivity | ].
  apply Z.ltb_ge in E.
  rewrite !py_range_series by (rewrite len_map; lia).
  reflexivity.
Qed.


(** With 10 valid frames or more the lunge counter filters the active leg's
    series with window 5 and order 3, the default of [smooth_data], although
    [min(7, len)] is 7 there; the squat counter filters with window 7. *)
Lemma count_lunge_reps_window (landmarks_sequence : LandmarkSequence) :
  well_formed landmarks_sequence ->
  10 <= len (valid_frames landmarks_sequence) ->
  let lunge_signal := canonical_signal Lunge landmarks_sequence in
  let squat_signal := canonical_signal Squat landmarks_sequence in
  spec_window lunge_signal = 7 /\
  count_lunge_reps savgol_filter find_peaks landmarks_sequence =
    extrema_count find_peaks
      (try_except (savgol_filter lunge_signal 5 3) lunge_signal)
      {| peak_height := 140; valley_height := 100; min_spacing := 10 |} /\
  count_squat_reps savgol_filter find_peaks landmarks_sequence =
    extrema_count find_peaks
      (try_except (savgol_filter squat_signal 7 3) squat_signal)
      {| peak_height := 160; valley_height := 90; min_spacing := 10 |}.
Proof.
  intros Hwf Hlen lunge_signal squat_signal.
  assert (Hl : len lunge_signal = len (valid_frames landmarks_sequence)).
  { unfold lunge_signal, canonical_signal.
    destruct (fgt _ _); apply len_map. }
  assert (Hs : len squat_signal = len (valid_frames landmarks_sequence))
    by apply len_map.
  split; [unfold spec_window; lia | split].
  - rewrite (count_lunge_reps_spec Hwf). unfold rep_count.
    cbn [rep_parameters counter_window]. fold lunge_signal.
    rewrite (proj2 (Z.ltb_ge _ _)) by lia.
    unfold smooth_data, default_window_length.
    rewrite (proj2 (Z.ltb_ge (len lunge_signal) 5)) by lia.
    reflexivity.
  - rewrite (count_squat_reps_spec Hwf). unfold rep_count.
    cbn [rep_parameters counter_window]. fold squat_signal.
    rewrite (proj2 (Z.ltb_ge _ _)) by lia.
    unfold smooth_data.
    replace (Z.min 7 (len squat_signal)) with 7 by lia.
    rewrite (proj2 (Z.ltb_ge (len squat_signal) 7)) by lia.
    reflexivity.
Qed.

End CountingProperties.

(** *** The instance of the library functions *)

Lemma SciPy_savgol_filter_shape (data : list npfloat) (window_length polyorder : Z)
    (filtered : list npfloat) :
  SciPy.savgol_filter data window_length polyorder = Ok filtered ->
  List.length filtered = List.length data.
Proof.
  unfold SciPy.savgol_filter.
  destruct (_ || _); [discriminate | ].
  destruct (polyorder =? window_length - 1); [now intros [= ->] | ].
  destruct (polyorder =? 3); [ | discriminate].
  destruct (SciPy.cubic_fit window_length) as [[rows denominator] | ]; [ | discriminate].
  intros [= <-]. now rewrite length_map, length_seq.
Qed.

(** [n] copies of one frame of 33 landmarks make a well-formed sequence. *)
Lemma well_formed_repeat (landmarks : LandmarkFrame) (n : nat) :
  List.length landmarks = 33%nat -> well_formed (repeat (Some landmarks) n).
Proof.
  intros H. apply Forall_forall. intros entry Hin.
  apply repeat_spec in Hin. subst entry. now intros lm [= <-].
Qed.

Lemma frame_with_length (joints : list (nat * (R * R))) :
  List.length (frame_with joints) = 33%nat.
Proof. unfold frame_with. now rewrite length_map, length_seq. Qed.

Lemma standing_still_well_formed : well_formed standing_still.
Proof. apply well_formed_repeat, frame_with_length. Qed.

Lemma standing_still_valid_frames : len (valid_frames standing_still) = 12.
Proof. reflexivity. Qed.

(** *** Witnesses *)

Lemma smooth_data_length_and_short_input_witness :
  List.length (smooth_data SciPy.savgol_filter [Fin 1; Fin 2; Fin 3] 5) = 3%nat /\
  smooth_data SciPy.savgol_filter [Fin 1; Fin 2; Fin 3] 5 = [Fin 1; Fin 2; Fin 3].
Proof.
  destruct (@smooth_data_length_and_short_input
              SciPy.savgol_filter SciPy_savgol_filter_shape [Fin 1; Fin 2; Fin 3] 5)
    as [Hlen Hshort].
  split; [exact Hlen | apply Hshort; reflexivity].
Defined.


(** *** The elbow metric *)

Lemma sum_sq_nonneg (u v : R) : (0 <= u * u + v * v)%R.
Proof. nra. Qed.

(** The angle of two rays of known lengths and cosine, all of moderate
    size: no product overflows or underflows. *)
Lemma calculate_angle_cosine (ax ay bx by_ cx cy n1 n2 q : R) :
  (ax - bx = 0 \/ (1 / 1000 <= ax - bx <= 1000) \/
   (-1000 <= ax - bx <= - (1 / 1000)))%R ->
  (ay - by_ = 0 \/ (1 / 1000 <= ay - by_ <= 1000) \/
   (-1000 <= ay - by_ <= - (1 / 1000)))%R ->
  (cx - bx = 0 \/ (1 / 1000 <= cx - bx <= 1000) \/
   (-1000 <= cx - bx <= - (1 / 1000)))%R ->
  (cy - by_ = 0 \/ (1 / 1000 <= cy - by_ <= 1000) \/
   (-1000 <= cy - by_ <= - (1 / 1000)))%R ->
  (1 / 1000 <= n1 <= 1000)%R -> (1 / 1000 <= n2 <= 1000)%R ->
  (n1 * n1 = (ax - bx) * (ax - bx) + (ay - by_) * (ay - by_))%R ->
  (n2 * n2 = (cx - bx) * (cx - bx) + (cy - by_) * (cy - by_))%R ->
  (q * (n1 * n2) = (ax - bx) * (cx - bx) + (ay - by_) * (cy - by_))%R ->
  (q = 0 \/ (1 / 1000000 <= q <= 1) \/ (-1 <= q <= - (1 / 1000000)))%R ->
  calculate_angle (pt ax ay) (pt bx by_) (pt cx cy) = Fin (acos q * (180 / PI)).
Proof.
  intros Hax Hay Hcx Hcy H1 H2 Hn1 Hn2 Hq Hrange.
  rewrite calculate_angle_unfold.
  unfold vsub, pt; cbn [fst snd]. rewrite !sub64_moderate by assumption.
  rewrite (norm_moderate Hax Hay H1 Hn1), (norm_moderate Hcx Hcy H2 Hn2).
  unfold dot, add64, mul64; cbn [fst snd fmul in_range].
  rewrite !to_double_product by assumption.
  cbn [fadd in_range]. rewrite <- Hq.
  assert (Hprod : (1 / 1000000 <= n1 * n2 <= 1000000)%R) by nra.
  rewrite (@to_double_moderate (n1 * n2)%R) by lra.
  rewrite (@to_double_moderate (q * (n1 * n2))%R).
  2:{ destruct Hrange as [-> | [Hpos | Hneg]]; [left; ring | right; left | right; right];
      nra. }
  unfold div64; cbn [fdiv]. rewrite Reqb_false by lra. cbn [in_range].
  replace (q * (n1 * n2) / (n1 * n2))%R with q by (field; lra).
  rewrite to_double_moderate by lra.
  unfold clip, flt. rewrite !Rltb_false by lra.
  unfold arccos. rewrite !Rltb_false by lra. reflexivity.
Qed.

Lemma acos_straight : (acos (-1) * (180 / PI) = 180)%R.
Proof.
  replace (-1)%R with (Ropp 1) by lra.
  rewrite acos_opp, acos_1. pose proof PI_RGT_0. field. lra.
Qed.

Lemma acos_right : (acos 0 * (180 / PI) = 90)%R.
Proof.
  rewrite acos_0. pose proof PI_RGT_0. field. lra.
Qed.

Lemma left_arm_straight_elbows :
  left_elbow_angle left_arm_straight = Fin 180 /\
  right_elbow_angle left_arm_straight = Fin 90.
Proof.
  split.
  - change (left_elbow_angle left_arm_straight)
      with (calculate_angle (pt 0.2 0.5) (pt 0.5 0.5) (pt 0.8 0.5)).
    rewrite (@calculate_angle_cosine _ _ _ _ _ _ 0.3 0.3 (-1))%R by lra.
    now rewrite acos_straight.
  - change (right_elbow_angle left_arm_straight)
      with (calculate_angle (pt 0.2 0.6) (pt 0.5 0.6) (pt 0.5 0.9)).
    rewrite (@calculate_angle_cosine _ _ _ _ _ _ 0.3 0.3 0)%R by lra.
    now rewrite acos_right.
Qed.

Lemma right_arm_straight_elbows :
  left_elbow_angle right_arm_straight = Fin 90 /\
  right_elbow_angle right_arm_straight = Fin 180.
Proof.
  split.
  - change (left_elbow_angle right_arm_straight)
      with (calculate_angle (pt 0.2 0.5) (pt 0.5 0.5) (pt 0.5 0.8)).
    rewrite (@calculate_angle_cosine _ _ _ _ _ _ 0.3 0.3 0)%R by lra.
    now rewrite acos_right.
  - change (right_elbow_angle right_arm_straight)
      with (calculate_angle (pt 0.2 0.6) (pt 0.5 0.6) (pt 0.8 0.6)).
    rewrite (@calculate_angle_cosine _ _ _ _ _ _ 0.3 0.3 (-1))%R by lra.
    now rewrite acos_straight.
Qed.

Lemma alternating_arms_well_formed : well_formed alternating_arms.
Proof.
  repeat constructor; intros lm [= <-]; apply frame_with_length.
Qed.

Section ElbowMetric.

Variable savgol_filter : list npfloat -> Z -> Z -> res (list npfloat).

(** On a well-formed sequence the metric the classifier uses is the range of
    the smoothed left elbow angle, over 180. *)
Lemma analyze_elbow_movement_left_series (landmarks_sequence : LandmarkSequence) :
  well_formed landmarks_sequence ->
  analyze_elbow_movement savgol_filter landmarks_sequence =
  let signal := map left_elbow_angle (valid_frames landmarks_sequence) in
  if len signal <? 2 then Fin 0
  else fdiv (series_range (smooth_data savgol_filter signal default_window_length))
            (Fin 180).
Proof.
  intros Hwf. unfold analyze_elbow_movement.
  rewrite (@for_frames_series _ left_elbow_angle).
  - cbn [bind]. cbv zeta.
    destruct (len _ <? 2); [reflexivity | ].
    unfold series_range.
    destruct (smooth_data _ _ _) as [ | v rest]; simpl.
    + rewrite Reqb_false by lra. apply Fin_eq. lra.
    + reflexivity.
  - intros acc lm H. now frame33 H.
  - assumption.
Qed.

(** C7 (what the code does): on two frames whose left elbow goes from 180
    to 90 degrees while the right elbow goes from 90 to 180, the average
    elbow angle stays at 135 degrees, so the metric of the specification is
    0; [analyze_elbow_movement] reads the left elbow alone and returns
    0.5. *)
Theorem analyze_elbow_movement_left_elbow_only :
  map avg_elbow_angle (valid_frames alternating_arms) = [Fin 135; Fin 135] /\
  spec_elbow_movement savgol_filter alternating_arms = Fin 0 /\
  analyze_elbow_movement savgol_filter alternating_arms = Fin 0.5.
Proof.
  destruct left_arm_straight_elbows as [Ha1 Ha2].
  destruct right_arm_straight_elbows as [Hb1 Hb2].
  assert (Havg : map avg_elbow_angle (valid_frames alternating_arms) =
                 [Fin 135; Fin 135]).
  { change (valid_frames alternating_arms)
      with [left_arm_straight; right_arm_straight].
    cbn [map]. unfold avg_elbow_angle. rewrite Ha1, Ha2, Hb1, Hb2.
    unfold mean2; simpl. rewrite !Reqb_false by lra.
    f_equal; [ | f_equal]; apply Fin_eq; lra. }
  split; [exact Havg | split].
  - unfold spec_elbow_movement. rewrite Havg.
    rewrite smooth_data_short by reflexivity.
    cbv [series_range py_max py_min fold_left fgt flt fsub fneg fadd fdiv].
    rewrite !Rltb_false by lra. rewrite Reqb_false by lra.
    apply Fin_eq; lra.
  - rewrite (analyze_elbow_movement_left_series alternating_arms_well_formed).
    change (valid_frames alternating_arms)
      with [left_arm_straight; right_arm_straight].
    cbn [map]. rewrite Ha1, Hb1.
    rewrite smooth_data_short by reflexivity.
    cbv [series_range py_max py_min fold_left fgt flt fsub fneg fadd fdiv].
    rewrite Rltb_false by lra. rewrite Rltb_true by lra.
    rewrite Reqb_false by lra.
    apply Fin_eq; lra.
Qed.

End ElbowMetric.

(** *** The classifier *)

(** The decision depends on the metrics alone. *)
Lemma classify_decision (h k s e : npfloat) (hz asym : bool) :
  let m := {| hip_movement := h; knee_movement := k; shoulder_movement := s;
              elbow_movement := e; horizontal_position := hz;
              asymmetric_leg_movement := asym |} in
  let squat_confidence :=
    (if fgt h (Fin 0.2) && fgt k (Fin 0.25) then 40 else 0)
    + (if fgt h (Fin 0.3) then 30 else 0) + (if fgt k (Fin 0.4) then 30 else 0) in
  let pushup_confidence :=
    (if fgt e (Fin 0.3) && fgt s (Fin 0.15) then 40 else 0)
    + (if hz then 35 else 0) + (if fgt e (Fin 0.4) then 25 else 0) in
  let lunge_confidence :=
    (if asym then 60 else 0)
    + (if fgt h (Fin 0.25) && fgt k (Fin 0.3) then 40 else 0) in
  confidence m Squat = squat_confidence /\
  confidence m PushUp = pushup_confidence /\
  confidence m Lunge = lunge_confidence.
Proof.
  cbv zeta. unfold confidence, confidence_table.
  cbn [filter map fold_right fst snd ExerciseType_eqb andb
       hip_movement knee_movement shoulder_movement elbow_movement
       horizontal_position asymmetric_leg_movement].
  repeat match goal with
         | |- context [fgt ?a ?b] => destruct (fgt a b)
         end;
  destruct hz, asym; repeat split; reflexivity.
Qed.

(** C4: the classifier adds the points of the table, answers "unknown" when
    the largest total is below 50, and otherwise names the first of squat,
    push-up, lunge whose total is the largest. *)
Theorem detect_exercise_type_table
    (savgol_filter : list npfloat -> Z -> Z -> res (list npfloat))
    (landmarks_sequence : LandmarkSequence) :
  detect_exercise_type savgol_filter landmarks_sequence =
  name_of (classify (metrics_of savgol_filter landmarks_sequence)).
Proof.
  unfold classify, metrics_of.
  destruct (classify_decision
              (analyze_hip_movement savgol_filter landmarks_sequence)
              (analyze_knee_movement savgol_filter landmarks_sequence)
              (analyze_shoulder_movement savgol_filter landmarks_sequence)
              (analyze_elbow_movement savgol_filter landmarks_sequence)
              (check_horizontal_body_position landmarks_sequence)
              (detect_asymmetric_leg_movement landmarks_sequence))
    as (Hs & Hp & Hl).
  cbv zeta. cbn [find]. rewrite Hs, Hp, Hl. clear Hs Hp Hl.
  unfold detect_exercise_type.
  destruct landmarks_sequence as [ | entry rest].
  - cbn. rewrite !Rltb_false by lra. reflexivity.
  - cbn [is_empty]. cbv zeta.
    generalize (analyze_hip_movement savgol_filter (entry :: rest))
               (analyze_knee_movement savgol_filter (entry :: rest))
               (analyze_shoulder_movement savgol_filter (entry :: rest))
               (analyze_elbow_movement savgol_filter (entry :: rest))
               (check_horizontal_body_position (entry :: rest))
               (detect_asymmetric_leg_movement (entry :: rest)).
    intros h k s e hz asym.
    repeat match goal with
           | |- context [fgt ?a ?b] => destruct (fgt a b)
           end;
    destruct hz, asym; reflexivity.
Qed.

(** *** The result record *)

Lemma round_half_even_bounds (t : R) :
  (0 <= t <= 100)%R -> 0 <= round_half_even t <= 100.
Proof.
  intros [H0 H100]. unfold round_half_even.
  destruct (base_Int_part t) as [Hle Hgt].
  set (f := Int_part t) in *.
  assert (Hf0 : 0 <= f).
  { apply Z.lt_succ_r, lt_IZR. rewrite succ_IZR. lra. }
  assert (Hf100 : f <= 100) by (apply le_IZR; lra).
  unfold Rltb.
  destruct (Rlt_dec (t - IZR f) (1 / 2)); [lia | ].
  assert (Hf99 : f <= 99).
  { apply Z.lt_succ_r, lt_IZR. rewrite succ_IZR. lra. }
  destruct (Rlt_dec (1 / 2) (t - IZR f)); [lia | ].
  destruct (Z.even f); lia.
Qed.

Lemma py_round1_range (r : R) :
  (0 <= r <= 10)%R ->
  exists n, py_round1 (Fin r) = Fin (IZR n / 10) /\ (0 <= IZR n / 10 <= 10)%R.
Proof.
  intros H. exists (round_half_even (r * 10)). split; [reflexivity | ].
  destruct (round_half_even_bounds (t := r * 10)) as [Hlo Hhi]; [lra | ].
  apply IZR_le in Hlo, Hhi. lra.
Qed.

(** The clamp of [analyze_form] sends every double, NaN and the infinities
    included, into [0, 10]. *)
Lemma clamp_range (form_score : npfloat) :
  exists r, py_max2 (Fin 0) (py_min2 (Fin 10) form_score) = Fin r /\ (0 <= r <= 10)%R.
Proof.
  unfold py_max2, py_min2, fgt, flt.
  destruct form_score as [s | [ | ] | ].
  - destruct (Rlt_dec s 10) as [H10 | H10].
    + rewrite (Rltb_true H10).
      destruct (Rlt_dec 0 s) as [H0 | H0].
      * rewrite (Rltb_true H0). exists s; split; [reflexivity | lra].
      * rewrite Rltb_false by lra. exists 0%R; split; [reflexivity | lra].
    + rewrite Rltb_false by lra. rewrite Rltb_true by lra.
      exists 10%R; split; [reflexivity | lra].
  - exists 0%R; split; [reflexivity | lra].
  - rewrite Rltb_true by lra. exists 10%R; split; [reflexivity | lra].
  - rewrite Rltb_true by lra. exists 10%R; split; [reflexivity | lra].
Qed.

Lemma default_feedback_nonempty (message : string) (st : list string * npfloat) :
  fst (default_feedback message st) <> [].
Proof.
  unfold default_feedback. destruct st as [[ | m fb] score]; simpl; discriminate.
Qed.

Lemma len_nonneg {A : Type} (l : list A) : 0 <= len l.
Proof. unfold len; lia. Qed.

Lemma len_filter_le {A : Type} (f : A -> bool) (l : list A) : len (filter f l) <= len l.
Proof. unfold len. apply inj_le, filter_length_le. Qed.

Section ResultProperties.

Variable savgol_filter : list npfloat -> Z -> Z -> res (list npfloat).
Variable find_peaks : list npfloat -> npfloat -> Z -> list Z.

Lemma min_len_nonneg {A B : Type} (p : list A) (v : list B) : 0 <= Z.min (len p) (len v).
Proof. apply Z.min_glb; apply len_nonneg. Qed.

Lemma count_squat_reps_nonneg (s : LandmarkSequence) :
  0 <= count_squat_reps savgol_filter find_peaks s.
Proof.
  unfold count_squat_reps.
  destruct (avg_knee_angles s) as [l | e]; cbn [bind try_except]; [ | lia].
  destruct (len l <? 10); cbn [try_except]; [lia | apply min_len_nonneg].
Qed.

Lemma count_pushup_reps_nonneg (s : LandmarkSequence) :
  0 <= count_pushup_reps savgol_filter find_peaks s.
Proof.
  unfold count_pushup_reps.
  destruct (avg_elbow_angles s) as [l | e]; cbn [bind try_except]; [ | lia].
  destruct (len l <? 10); cbn [try_except]; [lia | apply min_len_nonneg].
Qed.

Lemma count_lunge_reps_nonneg (s : LandmarkSequence) :
  0 <= count_lunge_reps savgol_filter find_peaks s.
Proof.
  unfold count_lunge_reps.
  destruct (knee_angle_lists s) as [[left right] | e]; cbn [bind try_except fst snd]; [ | lia].
  destruct (len left <? 10); cbn [try_except]; [lia | ].
  destruct (py_range left) as [lr | e]; cbn [bind try_except]; [ | lia].
  destruct (py_range right) as [rr | e]; cbn [bind try_except]; [ | lia].
  apply min_len_nonneg.
Qed.

Lemma count_repetitions_nonneg (s : LandmarkSequence) (exercise_type : string) :
  0 <= count_repetitions savgol_filter find_peaks s exercise_type.
Proof.
  unfold count_repetitions.
  destruct (String.eqb exercise_type "squat"); simpl; [apply count_squat_reps_nonneg | ].
  destruct (String.eqb exercise_type "push_up"); simpl; [apply count_pushup_reps_nonneg | ].
  destruct (String.eqb exercise_type "lunge"); simpl; [apply count_lunge_reps_nonneg | lia].
Qed.

Lemma analyze_squat_form_feedback (s : LandmarkSequence) :
  fst (analyze_squat_form s) <> [].
Proof.
  unfold analyze_squat_form.
  destruct (for_frames squat_frame s (0, 0, 0, 0)) as [[[[a b] c] d] | e]; simpl.
  - apply default_feedback_nonempty.
  - discriminate.
Qed.

Lemma analyze_pushup_form_feedback (s : LandmarkSequence) :
  fst (analyze_pushup_form s) <> [].
Proof.
  unfold analyze_pushup_form.
  destruct (for_frames pushup_frame s (0, 0, 0, 0)) as [[[[a b] c] d] | e]; simpl.
  - apply default_feedback_nonempty.
  - discriminate.
Qed.

Lemma analyze_lunge_form_feedback (s : LandmarkSequence) :
  fst (analyze_lunge_form s) <> [].
Proof.
  unfold analyze_lunge_form.
  destruct (for_frames lunge_frame s (0, 0, 0)) as [[[a b] c] | e]; simpl.
  - apply default_feedback_nonempty.
  - discriminate.
Qed.

(** What [analyze_form] returns on every input: feedback that is not empty
    and a finite score in [0, 10]. *)
Lemma analyze_form_invariant (s : LandmarkSequence) (exercise_type : string) :
  fst (analyze_form s exercise_type) <> [] /\
  exists r, snd (analyze_form s exercise_type) = Fin r /\ (0 <= r <= 10)%R.
Proof.
  unfold analyze_form.
  assert (H : fst (if String.eqb exercise_type "squat" then analyze_squat_form s
                   else if String.eqb exercise_type "push_up" then analyze_pushup_form s
                   else if String.eqb exercise_type "lunge" then analyze_lunge_form s
                   else (["Exercise not recognized for detailed analysis"], Fin 5)) <> []).
  { destruct (String.eqb exercise_type "squat"); [apply analyze_squat_form_feedback | ].
    destruct (String.eqb exercise_type "push_up"); [apply analyze_pushup_form_feedback | ].
    destruct (String.eqb exercise_type "lunge"); [apply analyze_lunge_form_feedback | ].
    discriminate. }
  destruct (if String.eqb exercise_type "squat" then _ else _) as [fb score].
  simpl in *. split; [exact H | apply clamp_range].
Qed.

End ResultProperties.

Section Orchestrator.

Variable savgol_filter : list npfloat -> Z -> Z -> res (list npfloat).
Variable find_peaks : list npfloat -> npfloat -> Z -> list Z.

Lemma early_result_valid (name message : string) :
  schema_valid (early_result name message).
Proof.
  unfold schema_valid, early_result; simpl. repeat split.
  - lia.
  - exists 0%R; split; [reflexivity | lra].
  - discriminate.
Qed.

(** C2: whatever the capture delivers - a file that does not open, a fault
    while reading, no pose, too few frames, an exercise that is not
    recognised, frames on which a stage fails - [analyze_video] returns a
    record with [repCount >= 0], [formScore] in [0, 10] and feedback that is
    not empty. *)
Theorem analyze_video_schema_valid (video : Capture) :
  schema_valid (analyze_video savgol_filter find_peaks video).
Proof.
  destruct video as [ | e | frames]; unfold analyze_video; cbn [try_except_as].
  - apply early_result_valid.
  - apply early_result_valid.
  - cbv zeta.
    destruct (is_empty (filter is_not_None frames)); [apply early_result_valid | ].
    destruct (len (filter is_not_None frames) <? 30); [apply early_result_valid | ].
    set (valid := filter is_not_None frames).
    set (exercise := detect_exercise_type savgol_filter valid).
    destruct (analyze_form_invariant valid exercise) as (Hfb & r & Hscore & Hr).
    destruct (analyze_form valid exercise) as [fb score]. simpl in Hfb, Hscore.
    destruct (py_truediv (len valid) (len frames)) as [ratio | e];
      cbn [bind]; [ | apply early_result_valid].
    unfold schema_valid; simpl. repeat split.
    + apply count_repetitions_nonneg.
    + subst score. destruct (py_round1_range Hr) as (n & Hn & Hrange).
      exists (IZR n / 10)%R. split; [exact Hn | exact Hrange].
    + exact Hfb.
Qed.

(** C3: the steps of the orchestrator on the frames read.  No valid frame:
    the "Could not detect pose" record.  Fewer than 30 valid frames: the
    "too short" record.  Otherwise the record holds the classifier's answer
    on the valid frames, the repetition count and the form analysis for that
    answer, the score rounded to a multiple of one tenth, and the quality
    "high" when valid/total exceeds 0.8 and "medium" when it does not. *)
Theorem analyze_video_steps (frames : LandmarkSequence) :
  let valid := filter is_not_None frames in
  let result := analyze_video savgol_filter find_peaks (Frames frames) in
  (valid = [] ->
   result = mkResult "unknown" 0 ["Could not detect pose in video"] (Fin 0) None) /\
  (valid <> [] -> len valid < 30 ->
   result = mkResult "unknown" 0 ["Video too short for analysis"] (Fin 0) None) /\
  (30 <= len valid ->
   let exercise := detect_exercise_type savgol_filter valid in
   exerciseName result = exercise /\
   repCount result = count_repetitions savgol_filter find_peaks valid exercise /\
   feedback result = fst (analyze_form valid exercise) /\
   formScore result = py_round1 (snd (analyze_form valid exercise)) /\
   (exists n, formScore result = Fin (IZR n / 10)) /\
   ((0.8 < IZR (len valid) / IZR (len frames))%R ->
    analysisQuality result = Some "high") /\
   ((IZR (len valid) / IZR (len frames) <= 0.8)%R ->
    analysisQuality result = Some "medium")).
Proof.
  intros valid result. unfold result, analyze_video. cbn [try_except_as]. cbv zeta.
  fold valid. split; [ | split].
  - intros ->. reflexivity.
  - intros Hne Hshort. destruct valid as [ | v rest]; [contradiction | ].
    cbn [is_empty]. apply Z.ltb_lt in Hshort. now rewrite Hshort.
  - intros Hlong. set (exercise := detect_exercise_type savgol_filter valid).
    assert (Hne : is_empty valid = false).
    { destruct valid; [unfold len in Hlong; simpl in Hlong; lia | reflexivity]. }
    rewrite Hne. rewrite (proj2 (Z.ltb_ge _ _)) by lia.
    destruct (analyze_form_invariant valid exercise) as (_ & r & Hscore & Hr).
    destruct (analyze_form valid exercise) as [fb score]. simpl in Hscore. subst score.
    assert (Htotal : len frames <> 0).
    { pose proof (len_filter_le is_not_None frames). fold valid in H. lia. }
    unfold py_truediv. rewrite (proj2 (Z.eqb_neq _ _) Htotal). cbn [bind].
    simpl. repeat split.
    + destruct (py_round1_range Hr) as (n & Hn & _). now exists n.
    + intros Hhigh. unfold fgt, flt. now rewrite (Rltb_true Hhigh).
    + intros Hmed. unfold fgt, flt. now rewrite (Rltb_false Hmed).
Qed.

End Orchestrator.

(** The three branches of the orchestrator, each on a capture that takes
    it. *)
Lemma analyze_video_steps_witness :
  analyze_video SciPy.savgol_filter SciPy.find_peaks (Frames no_pose) =
    mkResult "unknown" 0 ["Could not detect pose in video"] (Fin 0) None /\
  analyze_video SciPy.savgol_filter SciPy.find_peaks (Frames standing_still) =
    mkResult "unknown" 0 ["Video too short for analysis"] (Fin 0) None /\
  analysisQuality
    (analyze_video SciPy.savgol_filter SciPy.find_peaks (Frames standing_with_gaps)) =
    Some "medium".
Proof.
  split; [ | split].
  - apply (@analyze_video_steps SciPy.savgol_filter SciPy.find_peaks no_pose).
    reflexivity.
  - apply (@analyze_video_steps SciPy.savgol_filter SciPy.find_peaks standing_still).
    + discriminate.
    + reflexivity.
  - apply (@analyze_video_steps SciPy.savgol_filter SciPy.find_peaks standing_with_gaps).
    + apply Z.leb_le. reflexivity.
    + change (len (filter is_not_None standing_with_gaps)) with 30.
      change (len standing_with_gaps) with 40.
      lra.
Defined.

(** *** The form rules *)

Lemma bump_count (test : LandmarkFrame -> bool) (lm : LandmarkFrame)
    (rest : list LandmarkFrame) (n : Z) :
  bump (test lm) n + len (filter test rest) = n + len (filter test (lm :: rest)).
Proof.
  unfold bump; simpl. destruct (test lm); [ | lia].
  unfold len; simpl List.length. lia.
Qed.

(** Four counters bumped by four per-frame tests count the frames on which
    each test holds. *)
Lemma fold_bump4 (t1 t2 t3 t4 : LandmarkFrame -> bool) (l : list LandmarkFrame)
    (c : Z * Z * Z * Z) :
  fold_left (fun c lm => let '(n1, n2, n3, n4) := c in
                         (bump (t1 lm) n1, bump (t2 lm) n2,
                          bump (t3 lm) n3, bump (t4 lm) n4)) l c =
  let '(n1, n2, n3, n4) := c in
  (n1 + len (filter t1 l), n2 + len (filter t2 l),
   n3 + len (filter t3 l), n4 + len (filter t4 l)).
Proof.
  revert c; induction l as [ | lm rest IH]; intros [[[n1 n2] n3] n4].
  - unfold len; simpl. repeat f_equal; lia.
  - cbn [fold_left]. rewrite IH. now rewrite !bump_count.
Qed.

Lemma fold_bump3 (t1 t2 t3 : LandmarkFrame -> bool) (l : list LandmarkFrame)
    (c : Z * Z * Z) :
  fold_left (fun c lm => let '(n1, n2, n3) := c in
                         (bump (t1 lm) n1, bump (t2 lm) n2, bump (t3 lm) n3)) l c =
  let '(n1, n2, n3) := c in
  (n1 + len (filter t1 l), n2 + len (filter t2 l), n3 + len (filter t3 l)).
Proof.
  revert c; induction l as [ | lm rest IH]; intros [[n1 n2] n3].
  - unfold len; simpl. repeat f_equal; lia.
  - cbn [fold_left]. rewrite IH. now rewrite !bump_count.
Qed.

Lemma squat_counters (s : LandmarkSequence) :
  well_formed s ->
  exists back_lean depth,
    for_frames squat_frame s (0, 0, 0, 0) =
    Ok (violations left_knee_cave s, back_lean, depth, violations left_knee_forward s).
Proof.
  intros Hwf.
  rewrite (for_frames_fold squat_frame
             (fun c lm =>
                let '(n1, n2, n3, n4) := c in
                (bump (left_knee_cave lm) n1,
                 bump (squat_back_lean
                         (mean2 (x (landmark lm 11)) (x (landmark lm 12)),
                          mean2 (y (landmark lm 11)) (y (landmark lm 12)))
                         (mean2 (x (landmark lm 23)) (x (landmark lm 24)),
                          mean2 (y (landmark lm 23)) (y (landmark lm 24)))) n2,
                 bump (squat_depth_insufficient
                         (mean2 (y (landmark lm 23)) (y (landmark lm 24)))
                         (mean2 (y (landmark lm 25)) (y (landmark lm 26)))) n3,
                 bump (left_knee_forward lm) n4))).
  - rewrite fold_bump4. unfold violations. eexists; eexists. reflexivity.
  - intros [[[n1 n2] n3] n4] lm H. unfold squat_frame. now frame33 H.
  - assumption.
Qed.

Lemma lunge_counters (s : LandmarkSequence) :
  well_formed s ->
  exists lean depth,
    for_frames lunge_frame s (0, 0, 0) =
    Ok (violations left_front_knee_forward s, lean, depth).
Proof.
  intros Hwf.
  rewrite (for_frames_fold lunge_frame
             (fun c lm =>
                let '(n1, n2, n3) := c in
                (bump (left_front_knee_forward lm) n1,
                 bump (lunge_torso_lean
                         (mean2 (x (landmark lm 11)) (x (landmark lm 12)))
                         (mean2 (x (landmark lm 23)) (x (landmark lm 24)))) n2,
                 bump (lunge_insufficient_depth
                         (y (landmark lm 25)) (y (landmark lm 26))) n3))).
  - rewrite fold_bump3. unfold violations. eexists; eexists. reflexivity.
  - intros [[n1 n2] n3] lm H. unfold lunge_frame. now frame33 H.
  - assumption.
Qed.

Lemma pushup_counters (s : LandmarkSequence) :
  well_formed s ->
  exists sag pike head,
    for_frames pushup_frame s (0, 0, 0, 0) =
    Ok (sag, pike, violations left_partial_rom s, head).
Proof.
  intros Hwf.
  rewrite (for_frames_fold pushup_frame
             (fun c lm =>
                let '(n1, n2, n3, n4) := c in
                let shoulder_y := mean2 (y (landmark lm 11)) (y (landmark lm 12)) in
                let hip_y := mean2 (y (landmark lm 23)) (y (landmark lm 24)) in
                let ankle_y := mean2 (y (landmark lm 27)) (y (landmark lm 28)) in
                (bump (pushup_hip_sag hip_y shoulder_y ankle_y) n1,
                 bump (pushup_hip_pike hip_y shoulder_y ankle_y) n2,
                 bump (left_partial_rom lm) n3,
                 bump (pushup_head_position (y (landmark lm 0)) shoulder_y) n4))).
  - rewrite fold_bump4. unfold violations. do 3 eexists. reflexivity.
  - intros [[[n1 n2] n3] n4] lm H. unfold pushup_frame. now frame33 H.
  - assumption.
Qed.

(** A test that reads only the landmarks at [indices] counts the same on two
    sequences that agree there. *)
Lemma violations_same_on (indices : list nat) (test : LandmarkFrame -> bool)
    (s s' : LandmarkSequence) :
  (forall a b, same_landmarks indices a b -> test a = test b) ->
  same_on indices s s' ->
  violations test s = violations test s'.
Proof.
  intros Htest Hsame. unfold violations, same_on in *.
  induction Hsame as [ | a b l l' Hab _ IH]; [reflexivity | ].
  simpl. rewrite (Htest a b Hab).
  destruct (test b); [ | exact IH].
  unfold len in *; simpl List.length. lia.
Qed.

Lemma left_knee_tests_same (a b : LandmarkFrame) :
  same_landmarks [23; 25; 27]%nat a b ->
  left_knee_cave a = left_knee_cave b /\ left_knee_forward a = left_knee_forward b.
Proof.
  intros H. unfold left_knee_cave, left_knee_forward.
  rewrite (H 23%nat), (H 25%nat), (H 27%nat) by (simpl; tauto). now split.
Qed.

Lemma left_front_knee_test_same (a b : LandmarkFrame) :
  same_landmarks [25; 27]%nat a b ->
  left_front_knee_forward a = left_front_knee_forward b.
Proof.
  intros H. unfold left_front_knee_forward.
  now rewrite (H 25%nat), (H 27%nat) by (simpl; tauto).
Qed.

Lemma left_partial_rom_same (a b : LandmarkFrame) :
  same_landmarks [11; 13; 15]%nat a b -> left_partial_rom a = left_partial_rom b.
Proof.
  intros H. unfold left_partial_rom, left_elbow_angle, joint_angle, point.
  now rewrite (H 11%nat), (H 13%nat), (H 15%nat) by (simpl; tauto).
Qed.

(** C10: on a well-formed sequence the knee-cave and knee-forward counters of
    the squat analysis, the front-knee counter of the lunge analysis and the
    partial-range counter of the push-up analysis count the frames on which
    the test holds on the left hip, knee and ankle (23, 25, 27), resp. the
    left shoulder, elbow and wrist (11, 13, 15); they are the same on any
    sequence that agrees with it on those landmarks, whatever its right
    side does. *)
Theorem form_rules_left_side_only (s : LandmarkSequence) :
  well_formed s ->
  (exists back_lean depth,
     for_frames squat_frame s (0, 0, 0, 0) =
     Ok (violations left_knee_cave s, back_lean, depth,
         violations left_knee_forward s)) /\
  (exists lean depth,
     for_frames lunge_frame s (0, 0, 0) =
     Ok (violations left_front_knee_forward s, lean, depth)) /\
  (exists sag pike head,
     for_frames pushup_frame s (0, 0, 0, 0) =
     Ok (sag, pike, violations left_partial_rom s, head)) /\
  (forall s', same_on [23; 25; 27]%nat s s' ->
              violations left_knee_cave s = violations left_knee_cave s' /\
              violations left_knee_forward s = violations left_knee_forward s') /\
  (forall s', same_on [25; 27]%nat s s' ->
              violations left_front_knee_forward s =
              violations left_front_knee_forward s') /\
  (forall s', same_on [11; 13; 15]%nat s s' ->
              violations left_partial_rom s = violations left_partial_rom s').
Proof.
  intros Hwf.
  split; [now apply squat_counters | ].
  split; [now apply lunge_counters | ].
  split; [now apply pushup_counters | ].
  split; [ | split].
  - intros s' Hsame. split.
    + apply (violations_same_on (indices := [23; 25; 27]%nat)); [ | assumption].
      intros a b Hab. now apply left_knee_tests_same.
    + apply (violations_same_on (indices := [23; 25; 27]%nat)); [ | assumption].
      intros a b Hab. now apply left_knee_tests_same.
  - intros s' Hsame.
    apply (violations_same_on (indices := [25; 27]%nat)); [ | assumption].
    apply left_front_knee_test_same.
  - intros s' Hsame.
    apply (violations_same_on (indices := [11; 13; 15]%nat)); [ | assumption].
    apply left_partial_rom_same.
Qed.

Lemma right_knee_at_left_leg (r : R) :
  left_knee_cave (right_knee_at r) = false /\
  left_knee_forward (right_knee_at r) = false /\
  left_front_knee_forward (right_knee_at r) = false.
Proof.
  unfold left_knee_cave, left_knee_forward, left_front_knee_forward.
  change (x (landmark (right_knee_at r) 25)) with (Fin 0.4).
  change (x (landmark (right_knee_at r) 23)) with (Fin 0.4).
  change (x (landmark (right_knee_at r) 27)) with (Fin 0.4).
  unfold squat_knee_cave, squat_knee_forward, lunge_knee_forward, py_min2, fgt, flt.
  rewrite (Rltb_false (a := 0.4) (b := 0.4)) by lra.
  cbn [fsub fadd fneg]. rewrite !Rltb_false by lra. now repeat split.
Qed.

Lemma right_knee_at_elbows (r : R) :
  left_partial_rom (right_knee_at r) = false /\
  right_partial_rom (right_knee_at r) = true.
Proof.
  unfold left_partial_rom, right_partial_rom, pushup_partial_rom. split.
  - change (left_elbow_angle (right_knee_at r))
      with (calculate_angle (pt 0.4 0.2) (pt 0.4 0.35) (pt 0.5 0.35)).
    rewrite (@calculate_angle_cosine _ _ _ _ _ _ 0.15 0.1 0)%R by lra.
    rewrite acos_right. unfold fgt, flt. now rewrite Rltb_false by lra.
  - change (right_elbow_angle (right_knee_at r))
      with (calculate_angle (pt 0.6 0.2) (pt 0.6 0.35) (pt 0.6 0.5)).
    rewrite (@calculate_angle_cosine _ _ _ _ _ _ 0.15 0.15 (-1))%R by lra.
    rewrite acos_straight. unfold fgt, flt. now rewrite Rltb_true by lra.
Qed.

Lemma right_knee_tests :
  right_knee_cave (right_knee_at 0.5) = true /\
  right_knee_forward (right_knee_at 0.7) = true.
Proof.
  unfold right_knee_cave, right_knee_forward.
  change (x (landmark (right_knee_at 0.5) 26)) with (Fin 0.5).
  change (x (landmark (right_knee_at 0.5) 24)) with (Fin 0.6).
  change (x (landmark (right_knee_at 0.5) 28)) with (Fin 0.6).
  change (x (landmark (right_knee_at 0.7) 26)) with (Fin 0.7).
  change (x (landmark (right_knee_at 0.7) 28)) with (Fin 0.6).
  unfold squat_knee_cave, squat_knee_forward, py_min2, fgt, flt.
  rewrite (Rltb_false (a := 0.6) (b := 0.6)) by lra.
  cbn [fsub fadd fneg]. rewrite !Rltb_true by lra. now split.
Qed.

Lemma right_side_violations_well_formed : well_formed right_side_violations.
Proof.
  repeat constructor; intros lm [= <-]; apply frame_with_length.
Qed.

Lemma right_side_violations_counts :
  violations left_knee_cave right_side_violations = 0 /\
  violations left_knee_forward right_side_violations = 0 /\
  violations left_front_knee_forward right_side_violations = 0 /\
  violations left_partial_rom right_side_violations = 0.
Proof.
  unfold violations.
  change (valid_frames right_side_violations)
    with [right_knee_at 0.5; right_knee_at 0.7].
  destruct (right_knee_at_left_leg 0.5) as (Ha1 & Ha2 & Ha3).
  destruct (right_knee_at_left_leg 0.7) as (Hb1 & Hb2 & Hb3).
  destruct (right_knee_at_elbows 0.5) as (Ha4 & _).
  destruct (right_knee_at_elbows 0.7) as (Hb4 & _).
  cbn [filter].
  rewrite Ha1, Ha2, Ha3, Ha4, Hb1, Hb2, Hb3, Hb4. now repeat split.
Qed.

(** Two frames in which only the right side breaks the rules - the right
    knee caves in in the first and passes the right ankle in the second,
    the right arm stays straight in both: none of the four counters moves. *)
Lemma form_rules_left_side_only_witness :
  right_knee_cave (right_knee_at 0.5) = true /\
  right_knee_forward (right_knee_at 0.7) = true /\
  right_partial_rom (right_knee_at 0.5) = true /\
  right_partial_rom (right_knee_at 0.7) = true /\
  (exists back_lean depth,
     for_frames squat_frame right_side_violations (0, 0, 0, 0) =
     Ok (0, back_lean, depth, 0)) /\
  (exists lean depth,
     for_frames lunge_frame right_side_violations (0, 0, 0) = Ok (0, lean, depth)) /\
  (exists sag pike head,
     for_frames pushup_frame right_side_violations (0, 0, 0, 0) =
     Ok (sag, pike, 0, head)).
Proof.
  destruct right_knee_tests as [Hcave Hforward].
  destruct (right_knee_at_elbows 0.5) as [_ Hrom1].
  destruct (right_knee_at_elbows 0.7) as [_ Hrom2].
  destruct right_side_violations_counts as (H1 & H2 & H3 & H4).
  destruct (@form_rules_left_side_only right_side_violations
              right_side_violations_well_formed)
    as (Hsquat & Hlunge & Hpushup & _).
  rewrite H1, H2 in Hsquat. rewrite H3 in Hlunge. rewrite H4 in Hpushup.
  repeat split; assumption.
Defined.

(** *** The scenarios of section 8 *)

(** Hip movement 0.35 and knee movement 0.45 with still arms and symmetric
    legs: every squat rule holds, the total is 100, the answer is squat. *)
Example classify_squat :
  let m := {| hip_movement := Fin 0.35; knee_movement := Fin 0.45;
              shoulder_movement := Fin 0; elbow_movement := Fin 0;
              horizontal_position := false; asymmetric_leg_movement := false |} in
  confidence m Squat = 100 /\ confidence m PushUp = 0 /\
  confidence m Lunge = 40 /\ classify m = Squat.
Proof.
  cbv zeta.
  destruct (classify_decision (Fin 0.35) (Fin 0.45) (Fin 0) (Fin 0) false false)
    as (Hs & Hp & Hl).
  unfold classify. cbn [find]. rewrite Hs, Hp, Hl.
  unfold fgt, flt. rcmp. repeat split; reflexivity.
Qed.

(** No movement at all: every total is 0 and the answer is unknown. *)
Example classify_still :
  classify {| hip_movement := Fin 0; knee_movement := Fin 0;
              shoulder_movement := Fin 0; elbow_movement := Fin 0;
              horizontal_position := false; asymmetric_leg_movement := false |} =
  Unknown.
Proof.
  destruct (classify_decision (Fin 0) (Fin 0) (Fin 0) (Fin 0) false false)
    as (Hs & Hp & Hl).
  unfold classify. cbn [find]. rewrite Hs, Hp, Hl.
  unfold fgt, flt. rcmp. reflexivity.
Qed.

(** A NaN metric fails every comparison: a sequence whose knee angles are
    all NaN cannot score on any knee rule. *)
Example classify_nan :
  classify {| hip_movement := NaN; knee_movement := NaN;
              shoulder_movement := NaN; elbow_movement := NaN;
              horizontal_position := false; asymmetric_leg_movement := false |} =
  Unknown.
Proof. reflexivity. Qed.

(** A file that does not open, and a reader that raises. *)
Example analyze_video_not_opened
    (savgol_filter : list npfloat -> Z -> Z -> res (list npfloat))
    (find_peaks : list npfloat -> npfloat -> Z -> list Z) :
  analyze_video savgol_filter find_peaks NotOpened =
    mkResult "error" 0 ["Could not open video file"] (Fin 0) None /\
  analyze_video savgol_filter find_peaks (ReadFault (LibraryError "decoder lost")) =
    mkResult "error" 0 ["Analysis failed: decoder lost"] (Fin 0) None.
Proof. split; reflexivity. Qed.

(** An exercise that is not recognised gets the neutral feedback and 5.0. *)
Example analyze_form_unknown (s : LandmarkSequence) :
  analyze_form s "unknown" = (["Exercise not recognized for detailed analysis"], Fin 5).
Proof.
  unfold analyze_form. cbn [String.eqb Ascii.eqb Bool.eqb].
  cbn [try_except]. f_equal.
  unfold py_max2, py_min2, fgt, flt. now rcmp.
Qed.

(** Frames that hold fewer landmarks than the analysis reads: the squat
    stage falls back to its own message and 5.0, and the rest of the
    pipeline goes on. *)
Example analyze_squat_form_degraded :
  analyze_squat_form [Some [mkLandmark (Fin 0) (Fin 0) (Fin 0) (Fin 1)]] =
  (["Error analyzing squat form"], Fin 5).
Proof. reflexivity. Qed.

(** *** The lunge counter on a pulse *)

Lemma acos_same : (acos 1 * (180 / PI) = 0)%R.
Proof. rewrite acos_1. lra. Qed.

Lemma knee_pulse_angles :
  left_knee_angle left_leg_folded = Fin 0 /\
  left_knee_angle left_leg_straight = Fin 180 /\
  right_knee_angle left_leg_folded = Fin 180 /\
  right_knee_angle left_leg_straight = Fin 180.
Proof.
  repeat split.
  - change (left_knee_angle left_leg_folded)
      with (calculate_angle (pt 0.4 0.5) (pt 0.4 0.7) (pt 0.4 0.5)).
    rewrite (@calculate_angle_cosine _ _ _ _ _ _ 0.2 0.2 1)%R by lra.
    now rewrite acos_same.
  - change (left_knee_angle left_leg_straight)
      with (calculate_angle (pt 0.4 0.5) (pt 0.4 0.7) (pt 0.4 0.9)).
    rewrite (@calculate_angle_cosine _ _ _ _ _ _ 0.2 0.2 (-1))%R by lra.
    now rewrite acos_straight.
  - change (right_knee_angle left_leg_folded)
      with (calculate_angle (pt 0.6 0.5) (pt 0.6 0.7) (pt 0.6 0.9)).
    rewrite (@calculate_angle_cosine _ _ _ _ _ _ 0.2 0.2 (-1))%R by lra.
    now rewrite acos_straight.
  - change (right_knee_angle left_leg_straight)
      with (calculate_angle (pt 0.6 0.5) (pt 0.6 0.7) (pt 0.6 0.9)).
    rewrite (@calculate_angle_cosine _ _ _ _ _ _ 0.2 0.2 (-1))%R by lra.
    now rewrite acos_straight.
Qed.

Lemma knee_pulse_well_formed : well_formed knee_pulse.
Proof.
  unfold knee_pulse. repeat (apply Forall_app; split);
    apply well_formed_repeat, frame_with_length.
Qed.

Lemma knee_pulse_signal :
  canonical_signal Lunge knee_pulse =
  [Fin 0; Fin 0; Fin 0; Fin 0; Fin 0; Fin 180; Fin 180;
   Fin 0; Fin 0; Fin 0; Fin 0; Fin 0].
Proof.
  destruct knee_pulse_angles as (Hf & Hs & Hrf & Hrs).
  unfold canonical_signal.
  change (valid_frames knee_pulse)
    with (repeat left_leg_folded 5 ++ repeat left_leg_straight 2
          ++ repeat left_leg_folded 5).
  cbn [repeat app map]. rewrite Hf, Hs, Hrf, Hrs.
  cbv [series_range py_max py_min fold_left fgt flt fsub fneg fadd].
  rcmp. reflexivity.
Qed.

Ltac fin_list := repeat (f_equal; try (apply Fin_eq; lra); try lra).

Lemma savgol_pulse_5 :
  SciPy.savgol_filter
    [Fin 0; Fin 0; Fin 0; Fin 0; Fin 0; Fin 180; Fin 180;
     Fin 0; Fin 0; Fin 0; Fin 0; Fin 0] 5 3 =
  Ok [Fin 0; Fin 0; Fin 0; Fin (-108 / 7); Fin (324 / 7); Fin (1044 / 7);
      Fin (1044 / 7); Fin (324 / 7); Fin (-108 / 7); Fin 0; Fin 0; Fin 0].
Proof.
  cbv -[IZR Rdiv Rminus Rltb Reqb Rplus Rmult Ropp Rinv].
  fin_list.
Qed.

Lemma savgol_pulse_7 :
  SciPy.savgol_filter
    [Fin 0; Fin 0; Fin 0; Fin 0; Fin 0; Fin 180; Fin 180;
     Fin 0; Fin 0; Fin 0; Fin 0; Fin 0] 7 3 =
  Ok [Fin (60 / 7); Fin (-90 / 7); Fin (-90 / 7); Fin (60 / 7); Fin (540 / 7);
      Fin (780 / 7); Fin (780 / 7); Fin (540 / 7); Fin (60 / 7);
      Fin (-90 / 7); Fin (-90 / 7); Fin (60 / 7)].
Proof.
  cbv -[IZR Rdiv Rminus Rltb Reqb Rplus Rmult Ropp Rinv].
  fin_list.
Qed.

Lemma lm_none_up (i : Z) (prev v : npfloat) (rest : list npfloat) :
  flt prev v = true ->
  SciPy.local_maxima i prev None (v :: rest) = SciPy.local_maxima (i + 1) v (Some i) rest.
Proof. intros H; simpl; now rewrite H. Qed.

Lemma lm_none_flat (i : Z) (prev v : npfloat) (rest : list npfloat) :
  flt prev v = false ->
  SciPy.local_maxima i prev None (v :: rest) = SciPy.local_maxima (i + 1) v None rest.
Proof. intros H; simpl; now rewrite H. Qed.

Lemma lm_top_flat (i start : Z) (prev v : npfloat) (rest : list npfloat) :
  SciPy.feq v prev = true ->
  SciPy.local_maxima i prev (Some start) (v :: rest) =
  SciPy.local_maxima (i + 1) v (Some start) rest.
Proof. intros H; simpl; now rewrite H. Qed.

Lemma lm_top_down (i start : Z) (prev v : npfloat) (rest : list npfloat) :
  SciPy.feq v prev = false -> flt v prev = true ->
  SciPy.local_maxima i prev (Some start) (v :: rest) =
  ((start + (i - 1)) / 2) :: SciPy.local_maxima (i + 1) v None rest.
Proof. intros H1 H2; simpl; now rewrite H1, H2. Qed.

Lemma lm_top_up (i start : Z) (prev v : npfloat) (rest : list npfloat) :
  SciPy.feq v prev = false -> flt v prev = false -> flt prev v = true ->
  SciPy.local_maxima i prev (Some start) (v :: rest) =
  SciPy.local_maxima (i + 1) v (Some i) rest.
Proof. intros H1 H2 H3; simpl; now rewrite H1, H2, H3. Qed.

Ltac cmp := cbv [flt SciPy.feq SciPy.fle fneg]; rcmp; reflexivity.

Ltac maxima_step :=
  first [ rewrite lm_none_up by cmp
        | rewrite lm_none_flat by cmp
        | rewrite lm_top_flat by cmp
        | rewrite lm_top_down by cmp
        | rewrite lm_top_up by cmp ].


(** The detector from its three stages. *)
Lemma find_peaks_stages (v : npfloat) (rest : list npfloat) (height : npfloat)
    (distance : Z) (maxima tall kept : list Z) :
  SciPy.local_maxima 1 v None rest = maxima ->
  filter (fun i => SciPy.fle height (nth (Z.to_nat i) (v :: rest) NaN)) maxima = tall ->
  SciPy.select_by_distance (List.length tall)
    (map (fun i => (i, nth (Z.to_nat i) (v :: rest) NaN)) tall) distance = kept ->
  SciPy.find_peaks (v :: rest) height distance =
  filter (fun i => existsb (Z.eqb i) kept) tall.
Proof. intros <- <- <-. reflexivity. Qed.

Ltac eval_cmp :=
  cbv -[IZR Rdiv Rminus Rltb Reqb Rplus Rmult Ropp Rinv]; rcmp; reflexivity.

Lemma peaks_pulse_5 :
  SciPy.find_peaks
    [Fin 0; Fin 0; Fin 0; Fin (-108 / 7); Fin (324 / 7); Fin (1044 / 7);
     Fin (1044 / 7); Fin (324 / 7); Fin (-108 / 7); Fin 0; Fin 0; Fin 0]
    (of_int 140) 10 = [5].
Proof.
  rewrite (@find_peaks_stages _ _ _ _ [5] [5] [5]).
  - reflexivity.
  - repeat maxima_step. reflexivity.
  - eval_cmp.
  - eval_cmp.
Qed.

Lemma valleys_pulse_5 :
  SciPy.find_peaks
    (np_neg [Fin 0; Fin 0; Fin 0; Fin (-108 / 7); Fin (324 / 7); Fin (1044 / 7);
             Fin (1044 / 7); Fin (324 / 7); Fin (-108 / 7); Fin 0; Fin 0; Fin 0])
    (of_int (Z.opp 100)) 10 = [8].
Proof.
  cbn [np_neg map fneg].
  rewrite (@find_peaks_stages _ _ _ _ [3; 8] [3; 8] [8]).
  - reflexivity.
  - repeat maxima_step. reflexivity.
  - eval_cmp.
  - eval_cmp.
Qed.

Lemma peaks_pulse_7 :
  SciPy.find_peaks
    [Fin (60 / 7); Fin (-90 / 7); Fin (-90 / 7); Fin (60 / 7); Fin (540 / 7);
     Fin (780 / 7); Fin (780 / 7); Fin (540 / 7); Fin (60 / 7);
     Fin (-90 / 7); Fin (-90 / 7); Fin (60 / 7)]
    (of_int 140) 10 = [].
Proof.
  rewrite (@find_peaks_stages _ _ _ _ [5] [] []).
  - reflexivity.
  - repeat maxima_step. reflexivity.
  - eval_cmp.
  - reflexivity.
Qed.

Lemma knee_pulse_valid_frames : len (valid_frames knee_pulse) = 12.
Proof. reflexivity. Qed.

Lemma count_lunge_reps_knee_pulse :
  count_lunge_reps SciPy.savgol_filter SciPy.find_peaks knee_pulse = 1.
Proof.
  rewrite (count_lunge_reps_spec _ _ knee_pulse_well_formed).
  unfold rep_count. cbn [rep_parameters counter_window].
  rewrite knee_pulse_valid_frames, knee_pulse_signal.
  rewrite smooth_data_long by (apply Z.leb_le; reflexivity).
  change (default_window_length mod 2 =? 0) with false. cbv zeta iota.
  change (Z.min 3 (default_window_length - 1)) with 3.
  unfold default_window_length. rewrite savgol_pulse_5. cbn [try_except].
  unfold extrema_count, peaks, valleys; cbn [peak_height valley_height min_spacing].
  now rewrite peaks_pulse_5, valleys_pulse_5.
Qed.

Lemma spec_rep_count_knee_pulse :
  spec_rep_count SciPy.savgol_filter SciPy.find_peaks Lunge knee_pulse = 0.
Proof.
  unfold spec_rep_count. cbn [rep_parameters].
  rewrite knee_pulse_valid_frames, knee_pulse_signal.
  change (spec_window _) with 7.
  rewrite smooth_data_long by (apply Z.leb_le; reflexivity).
  change (7 mod 2 =? 0) with false. cbv zeta iota.
  change (Z.min 3 (7 - 1)) with 3.
  rewrite savgol_pulse_7. cbn [try_except].
  unfold extrema_count, peaks, valleys; cbn [peak_height valley_height min_spacing].
  rewrite peaks_pulse_7. apply Z.min_l, len_nonneg.
Qed.

(** C6 (what the code does for the lunge): on every well-formed sequence
    with 10 valid frames or more, [count_lunge_reps] filters the active
    leg's series with window 5 although [min(7, len)] is 7, where
    [count_squat_reps] filters with window 7.  On the twelve frames of
    [knee_pulse] the difference shows: with the filter and detector of
    [SciPy] the code counts 1 repetition, and the count of section 4.5, with
    window 7, is 0. *)
Theorem count_lunge_reps_default_window :
  (forall (savgol_filter : list npfloat -> Z -> Z -> res (list npfloat))
          (find_peaks : list npfloat -> npfloat -> Z -> list Z)
          (landmarks_sequence : LandmarkSequence),
     well_formed landmarks_sequence ->
     10 <= len (valid_frames landmarks_sequence) ->
     let lunge_signal := canonical_signal Lunge landmarks_sequence in
     let squat_signal := canonical_signal Squat landmarks_sequence in
     spec_window lunge_signal = 7 /\
     count_lunge_reps savgol_filter find_peaks landmarks_sequence =
       extrema_count find_peaks
         (try_except (savgol_filter lunge_signal 5 3) lunge_signal)
         {| peak_height := 140; valley_height := 100; min_spacing := 10 |} /\
     count_squat_reps savgol_filter find_peaks landmarks_sequence =
       extrema_count find_peaks
         (try_except (savgol_filter squat_signal 7 3) squat_signal)
         {| peak_height := 160; valley_height := 90; min_spacing := 10 |}) /\
  count_lunge_reps SciPy.savgol_filter SciPy.find_peaks knee_pulse = 1 /\
  spec_rep_count SciPy.savgol_filter SciPy.find_peaks Lunge knee_pulse = 0.
Proof.
  split; [ | split].
  - intros savgol_filter find_peaks landmarks_sequence Hwf Hlen.
    now apply count_lunge_reps_window.
  - exact count_lunge_reps_knee_pulse.
  - exact spec_rep_count_knee_pulse.
Qed.

(** The general part on twelve frames of a person standing still. *)
Lemma count_lunge_reps_default_window_witness :
  spec_window (canonical_signal Lunge standing_still) = 7 /\
  count_lunge_reps SciPy.savgol_filter SciPy.find_peaks standing_still =
    extrema_count SciPy.find_peaks
      (try_except
         (SciPy.savgol_filter (canonical_signal Lunge standing_still) 5 3)
         (canonical_signal Lunge standing_still))
      {| peak_height := 140; valley_height := 100; min_spacing := 10 |}.
Proof.
  destruct count_lunge_reps_default_window as [Hgeneral _].
  destruct (Hgeneral SciPy.savgol_filter SciPy.find_peaks standing_still
              standing_still_well_formed)
    as (Hw & Hl & _).
  - rewrite standing_still_valid_frames. lia.
  - split; [exact Hw | exact Hl].
Defined.

(* ===================================================================== *)
(** ** Further properties of the analyzer *)
(* ===================================================================== *)

(** *** Loops over frames *)

(** What a loop keeps: a property of the locals indexed by the number of
    frames visited holds at the end for the number of valid frames. *)
Lemma for_frames_invariant {S : Type} (body : S -> LandmarkFrame -> res S)
    (I : nat -> S -> Prop) :
  (forall n s landmarks s', I n s -> body s landmarks = Ok s' -> I (Datatypes.S n) s') ->
  forall (landmarks_sequence : LandmarkSequence) (n : nat) (s0 s : S),
    I n s0 ->
    for_frames body landmarks_sequence s0 = Ok s ->
    I (n + List.length (valid_frames landmarks_sequence))%nat s.
Proof.
  intros Hstep. induction landmarks_sequence as [ | entry rest IH]; intros n s0 s H0 Hrun.
  - simpl in *. injection Hrun as <-. now rewrite Nat.add_0_r.
  - destruct entry as [[ | lm0 tl] | ]; simpl in Hrun |- *.
    + now apply IH with s0.
    + destruct (body s0 (lm0 :: tl)) as [s1 | e] eqn:E; [ | discriminate].
      simpl in Hrun. rewrite Nat.add_succ_r.
      apply (IH (Datatypes.S n) s1 s); [ | assumption].
      now apply Hstep with s0 (lm0 :: tl).
    + now apply IH with s0.
Qed.

(** A loop leaves its locals alone when no frame is valid. *)
Lemma for_frames_no_valid_frame {S : Type} (body : S -> LandmarkFrame -> res S)
    (landmarks_sequence : LandmarkSequence) (s : S) :
  valid_frames landmarks_sequence = [] ->
  for_frames body landmarks_sequence s = Ok s.
Proof.
  induction landmarks_sequence as [ | entry rest IH]; intros H; [reflexivity | ].
  destruct entry as [[ | lm0 tl] | ]; simpl in *.
  - now apply IH.
  - discriminate.
  - now apply IH.
Qed.

(** A loop raises as soon as its body raises on one valid frame, whatever
    the locals are when it gets there. *)
Lemma for_frames_raises {S : Type} (body : S -> LandmarkFrame -> res S)
    (landmarks_sequence : LandmarkSequence) (landmarks : LandmarkFrame) :
  In landmarks (valid_frames landmarks_sequence) ->
  (forall s, exists e, body s landmarks = Raise e) ->
  forall s, exists e, for_frames body landmarks_sequence s = Raise e.
Proof.
  intros Hin Hbody.
  induction landmarks_sequence as [ | entry rest IH]; intros s; [contradiction | ].
  destruct entry as [[ | lm0 tl] | ]; simpl in *.
  - now apply IH.
  - destruct (body s (lm0 :: tl)) as [s1 | e] eqn:E.
    + simpl. destruct Hin as [<- | Hin].
      * destruct (Hbody s) as [e He]. congruence.
      * now apply IH.
    + now exists e.
  - now apply IH.
Qed.

Lemma getitem_short (landmarks : LandmarkFrame) (i : nat) :
  (List.length landmarks <= i)%nat -> getitem landmarks i = Raise IndexError.
Proof.
  intros H. unfold getitem. now rewrite (proj2 (nth_error_None landmarks i) H).
Qed.

Lemma getitem_cases (landmarks : LandmarkFrame) (i : nat) :
  getitem landmarks i = Raise IndexError \/
  getitem landmarks i = Ok (landmark landmarks i).
Proof.
  destruct (Nat.le_gt_cases (List.length landmarks) i) as [H | H].
  - left. now apply getitem_short.
  - right. now apply getitem_landmark.
Qed.

(** The length of what an appending loop returns. *)
Lemma appending_loop_length (body : list npfloat -> LandmarkFrame -> res (list npfloat))
    (landmarks_sequence : LandmarkSequence) (l : list npfloat) :
  (forall acc landmarks acc', body acc landmarks = Ok acc' ->
                              exists v, acc' = acc ++ [v]) ->
  for_frames body landmarks_sequence [] = Ok l ->
  len l = len (valid_frames landmarks_sequence).
Proof.
  intros Happ Hrun.
  pose proof (@for_frames_invariant _ body (fun n acc => List.length acc = n)) as H.
  specialize (H (fun n s lm s' Hn Hb =>
                   match Happ s lm s' Hb with
                   | ex_intro _ v Hv =>
                       eq_trans (f_equal (@List.length _) Hv)
                         (eq_trans (length_app s [v])
                            (eq_trans (Nat.add_1_r _) (f_equal Datatypes.S Hn)))
                   end)).
  specialize (H landmarks_sequence 0%nat [] l eq_refl Hrun).
  unfold len. now rewrite H.
Qed.

(** *** Metrics on short and truncated sequences *)

(** Split the binds of a loop body that returned. *)
Ltac body_returned H :=
  repeat match type of H with
         | context [bind ?m _] =>
             let E := fresh "E" in
             destruct m eqn:E; cbn [bind] in H; [ | discriminate H]
         end.

Ltac appending :=
  let H := fresh "H" in
  intros ? ? ? H; body_returned H; injection H as <-; eexists; reflexivity.

Section ShortSequences.

Variable savgol_filter : list npfloat -> Z -> Z -> res (list npfloat).

Lemma analyze_hip_movement_short (s : LandmarkSequence) :
  len (valid_frames s) < 2 -> analyze_hip_movement savgol_filter s = Fin 0.
Proof.
  intros Hlen. unfold analyze_hip_movement.
  destruct (for_frames _ s []) as [l | e] eqn:E; cbn [bind try_except]; [ | reflexivity].
  apply appending_loop_length in E; [ | appending].
  rewrite E. now rewrite (proj2 (Z.ltb_lt _ _) Hlen).
Qed.

Lemma analyze_shoulder_movement_short (s : LandmarkSequence) :
  len (valid_frames s) < 2 -> analyze_shoulder_movement savgol_filter s = Fin 0.
Proof.
  intros Hlen. unfold analyze_shoulder_movement.
  destruct (for_frames _ s []) as [l | e] eqn:E; cbn [bind try_except]; [ | reflexivity].
  apply appending_loop_length in E; [ | appending].
  rewrite E. now rewrite (proj2 (Z.ltb_lt _ _) Hlen).
Qed.

Lemma analyze_elbow_movement_short (s : LandmarkSequence) :
  len (valid_frames s) < 2 -> analyze_elbow_movement savgol_filter s = Fin 0.
Proof.
  intros Hlen. unfold analyze_elbow_movement.
  destruct (for_frames _ s []) as [l | e] eqn:E; cbn [bind try_except]; [ | reflexivity].
  apply appending_loop_length in E; [ | appending].
  rewrite E. now rewrite (proj2 (Z.ltb_lt _ _) Hlen).
Qed.

Lemma avg_knee_angles_length (s : LandmarkSequence) (l : list npfloat) :
  avg_knee_angles s = Ok l -> len l = len (valid_frames s).
Proof. intros E. apply appending_loop_length in E; [assumption | appending]. Qed.

Lemma avg_elbow_angles_length (s : LandmarkSequence) (l : list npfloat) :
  avg_elbow_angles s = Ok l -> len l = len (valid_frames s).
Proof. intros E. apply appending_loop_length in E; [assumption | appending]. Qed.

Lemma knee_angle_lists_length (s : LandmarkSequence) (l r : list npfloat) :
  knee_angle_lists s = Ok (l, r) ->
  len l = len (valid_frames s) /\ len r = len (valid_frames s).
Proof.
  intros E. unfold knee_angle_lists in E.
  apply (@for_frames_invariant _ _
           (fun n p => List.length (fst p) = n /\ List.length (snd p) = n))
    with (n := 0%nat) in E.
  - unfold len. simpl in E. destruct E as [-> ->]. now split.
  - intros n p lm p' [Hl Hr] H. body_returned H. injection H as <-. simpl.
    rewrite !length_app, Hl, Hr. simpl. lia.
  - now split.
Qed.

Lemma analyze_knee_movement_short (s : LandmarkSequence) :
  len (valid_frames s) < 2 -> analyze_knee_movement savgol_filter s = Fin 0.
Proof.
  intros Hlen. unfold analyze_knee_movement.
  destruct (avg_knee_angles s) as [l | e] eqn:E; cbn [bind try_except]; [ | reflexivity].
  apply avg_knee_angles_length in E.
  rewrite E. now rewrite (proj2 (Z.ltb_lt _ _) Hlen).
Qed.

Lemma detect_asymmetric_leg_movement_short (s : LandmarkSequence) :
  len (valid_frames s) < 2 -> detect_asymmetric_leg_movement s = false.
Proof.
  intros Hlen. unfold detect_asymmetric_leg_movement.
  destruct (knee_angle_lists s) as [[l r] | e] eqn:E; cbn [bind try_except]; [ | reflexivity].
  apply knee_angle_lists_length in E as [El _]. cbn [fst].
  rewrite El. now rewrite (proj2 (Z.ltb_lt _ _) Hlen).
Qed.

Lemma fgt_zero (c : R) : (0 <= c)%R -> fgt (Fin 0) (Fin c) = false.
Proof. intros H. unfold fgt, flt. now apply Rltb_false. Qed.

(** The classifier on metrics that show no movement of the legs and of the
    elbows: at most the 35 points of the horizontal position, below 50. *)
Lemma detect_exercise_type_still (s : LandmarkSequence) :
  analyze_hip_movement savgol_filter s = Fin 0 ->
  analyze_knee_movement savgol_filter s = Fin 0 ->
  analyze_elbow_movement savgol_filter s = Fin 0 ->
  detect_asymmetric_leg_movement s = false ->
  detect_exercise_type savgol_filter s = "unknown".
Proof.
  intros Hh Hk He Ha. unfold detect_exercise_type.
  destruct s as [ | entry rest]; [reflexivity | ].
  cbn [is_empty]. cbv zeta. rewrite Hh, Hk, He, Ha.
  rewrite !fgt_zero by lra. cbn [andb].
  destruct (check_horizontal_body_position _); reflexivity.
Qed.

(** X1: with fewer than 2 valid frames every movement metric is 0, the
    asymmetry test is false and the classifier answers "unknown" - also when
    the frames that are there are truncated. *)
Theorem short_sequence_is_unknown (s : LandmarkSequence) :
  len (valid_frames s) < 2 ->
  analyze_hip_movement savgol_filter s = Fin 0 /\
  analyze_knee_movement savgol_filter s = Fin 0 /\
  analyze_shoulder_movement savgol_filter s = Fin 0 /\
  analyze_elbow_movement savgol_filter s = Fin 0 /\
  detect_asymmetric_leg_movement s = false /\
  detect_exercise_type savgol_filter s = "unknown".
Proof.
  intros H.
  pose proof (analyze_hip_movement_short s H) as Hh.
  pose proof (analyze_knee_movement_short s H) as Hk.
  pose proof (analyze_elbow_movement_short s H) as He.
  pose proof (detect_asymmetric_leg_movement_short s H) as Ha.
  repeat split; try assumption.
  - now apply analyze_shoulder_movement_short.
  - now apply detect_exercise_type_still.
Qed.

End ShortSequences.

(** One frame of a standing person between two frames without a pose. *)
Lemma short_sequence_is_unknown_witness :
  analyze_hip_movement SciPy.savgol_filter [None; Some standing; None] = Fin 0 /\
  detect_exercise_type SciPy.savgol_filter [None; Some standing; None] = "unknown".
Proof.
  destruct (@short_sequence_is_unknown SciPy.savgol_filter [None; Some standing; None])
    as (Hh & _ & _ & _ & _ & Hd).
  - reflexivity.
  - now split.
Defined.

(** Decide every landmark access of a body on a frame too short for one of
    them. *)
Ltac body_raises :=
  unfold angle_at, xy;
  repeat match goal with
         | |- context [getitem ?lm ?i] =>
             first [ rewrite (@getitem_short lm i) by lia
                   | destruct (getitem_cases lm i) as [-> | ->] ];
             cbn [bind]
         end;
  eexists; reflexivity.

Section TruncatedFrames.

Variable savgol_filter : list npfloat -> Z -> Z -> res (list npfloat).
Variable find_peaks : list npfloat -> npfloat -> Z -> list Z.

Variable s : LandmarkSequence.
Variable landmarks : LandmarkFrame.
Hypothesis landmarks_valid : In landmarks (valid_frames s).

Lemma avg_knee_angles_truncated :
  (List.length landmarks < 29)%nat -> exists e, avg_knee_angles s = Raise e.
Proof.
  intros Hlen. unfold avg_knee_angles.
  apply for_frames_raises with landmarks; [assumption | ].
  intros acc. body_raises.
Qed.

Lemma knee_angle_lists_truncated :
  (List.length landmarks < 29)%nat -> exists e, knee_angle_lists s = Raise e.
Proof.
  intros Hlen. unfold knee_angle_lists.
  apply for_frames_raises with landmarks; [assumption | ].
  intros acc. body_raises.
Qed.

Lemma avg_elbow_angles_truncated :
  (List.length landmarks < 17)%nat -> exists e, avg_elbow_angles s = Raise e.
Proof.
  intros Hlen. unfold avg_elbow_angles.
  apply for_frames_raises with landmarks; [assumption | ].
  intros acc. body_raises.
Qed.

Lemma squat_frame_truncated :
  (List.length landmarks < 28)%nat ->
  exists e, for_frames squat_frame s (0, 0, 0, 0) = Raise e.
Proof.
  intros Hlen. apply for_frames_raises with landmarks; [assumption | ].
  intros [[[n1 n2] n3] n4]. unfold squat_frame. body_raises.
Qed.

Lemma lunge_frame_truncated :
  (List.length landmarks < 28)%nat ->
  exists e, for_frames lunge_frame s (0, 0, 0) = Raise e.
Proof.
  intros Hlen. apply for_frames_raises with landmarks; [assumption | ].
  intros [[n1 n2] n3]. unfold lunge_frame. body_raises.
Qed.

Lemma pushup_frame_truncated :
  (List.length landmarks < 29)%nat ->
  exists e, for_frames pushup_frame s (0, 0, 0, 0) = Raise e.
Proof.
  intros Hlen. apply for_frames_raises with landmarks; [assumption | ].
  intros [[[n1 n2] n3] n4]. unfold pushup_frame. body_raises.
Qed.

(** X2: one valid frame that is too short for the landmarks a stage reads
    makes that stage fall back, whatever the other frames hold: the squat
    and lunge counters (which read up to landmark 28) and the push-up
    counter (up to 16) return 0, and each form analysis returns its own
    error message with the score 5.0 (squat and lunge read up to landmark
    27, push-up up to 28). *)
Theorem truncated_frame_falls_back :
  ((List.length landmarks < 29)%nat ->
   count_squat_reps savgol_filter find_peaks s = 0 /\
   count_lunge_reps savgol_filter find_peaks s = 0 /\
   analyze_pushup_form s = (["Error analyzing push-up form"], Fin 5)) /\
  ((List.length landmarks < 28)%nat ->
   analyze_squat_form s = (["Error analyzing squat form"], Fin 5) /\
   analyze_lunge_form s = (["Error analyzing lunge form"], Fin 5)) /\
  ((List.length landmarks < 17)%nat ->
   count_pushup_reps savgol_filter find_peaks s = 0).
Proof.
  split; [ | split]; intros Hlen.
  - destruct (avg_knee_angles_truncated Hlen) as [e1 H1].
    destruct (knee_angle_lists_truncated Hlen) as [e2 H2].
    destruct (pushup_frame_truncated Hlen) as [e3 H3].
    unfold count_squat_reps, count_lunge_reps, analyze_pushup_form.
    rewrite H1, H2, H3. now repeat split.
  - destruct (squat_frame_truncated Hlen) as [e1 H1].
    destruct (lunge_frame_truncated Hlen) as [e2 H2].
    unfold analyze_squat_form, analyze_lunge_form.
    rewrite H1, H2. now split.
  - destruct (avg_elbow_angles_truncated Hlen) as [e H].
    unfold count_pushup_reps. now rewrite H.
Qed.

End TruncatedFrames.

(** Twelve frames of a standing person and one frame cut after landmark
    15. *)
Lemma truncated_frame_falls_back_witness :
  count_squat_reps SciPy.savgol_filter SciPy.find_peaks
    (standing_still ++ [Some (firstn 16 standing)]) = 0 /\
  analyze_squat_form (standing_still ++ [Some (firstn 16 standing)]) =
    (["Error analyzing squat form"], Fin 5) /\
  count_pushup_reps SciPy.savgol_filter SciPy.find_peaks
    (standing_still ++ [Some (firstn 16 standing)]) = 0.
Proof.
  destruct (@truncated_frame_falls_back SciPy.savgol_filter SciPy.find_peaks
              (standing_still ++ [Some (firstn 16 standing)]) (firstn 16 standing))
    as (H29 & H28 & H17).
  - do 12 right. left. reflexivity.
  - destruct H29 as (Hs & _ & _); [cbn; lia | ].
    destruct H28 as (Hf & _); [cbn; lia | ].
    split; [exact Hs | split; [exact Hf | apply H17; cbn; lia]].
Defined.

Section TruncatedClassifier.

Variable savgol_filter : list npfloat -> Z -> Z -> res (list npfloat).

Lemma truncated_frame_metrics (s : LandmarkSequence) (landmarks : LandmarkFrame) :
  In landmarks (valid_frames s) ->
  (List.length landmarks < 16)%nat ->
  analyze_hip_movement savgol_filter s = Fin 0 /\
  analyze_knee_movement savgol_filter s = Fin 0 /\
  analyze_elbow_movement savgol_filter s = Fin 0 /\
  detect_asymmetric_leg_movement s = false.
Proof.
  intros Hin Hlen.
  assert (Hh : exists e,
             for_frames (fun hip_positions lm =>
                           l23 <- getitem lm 23 ;;
                           l24 <- getitem lm 24 ;;
                           Ok (hip_positions ++ [mean2 (y l23) (y l24)]))
                        s [] = Raise e).
  { apply for_frames_raises with landmarks; [assumption | ]. intros acc. body_raises. }
  assert (He : exists e,
             for_frames (fun elbow_angles lm =>
                           left_elbow_angle <- angle_at lm 11 13 15 ;;
                           Ok (elbow_angles ++ [left_elbow_angle]))
                        s [] = Raise e).
  { apply for_frames_raises with landmarks; [assumption | ]. intros acc. body_raises. }
  destruct Hh as [e1 Hh]. destruct He as [e2 He].
  destruct (@avg_knee_angles_truncated s landmarks Hin) as [e3 Hk]; [lia | ].
  destruct (@knee_angle_lists_truncated s landmarks Hin) as [e4 Ha]; [lia | ].
  unfold analyze_hip_movement, analyze_knee_movement, analyze_elbow_movement,
    detect_asymmetric_leg_movement.
  rewrite Hh, He, Hk, Ha. now repeat split.
Qed.

(** X3: a valid frame with fewer than 16 landmarks anywhere in the sequence
    makes the classifier answer "unknown": the hip, knee and elbow metrics
    and the asymmetry test all fall back, and what is left (the horizontal
    position) is worth 35 points at most. *)
Theorem truncated_frame_is_unknown (s : LandmarkSequence) (landmarks : LandmarkFrame) :
  In landmarks (valid_frames s) ->
  (List.length landmarks < 16)%nat ->
  detect_exercise_type savgol_filter s = "unknown".
Proof.
  intros Hin Hlen.
  destruct (truncated_frame_metrics s landmarks Hin Hlen) as (Hh & Hk & He & Ha).
  now apply detect_exercise_type_still.
Qed.

End TruncatedClassifier.

Lemma truncated_frame_is_unknown_witness :
  detect_exercise_type SciPy.savgol_filter
    (standing_still ++ [Some (firstn 15 standing)]) = "unknown".
Proof.
  apply (@truncated_frame_is_unknown SciPy.savgol_filter
           (standing_still ++ [Some (firstn 15 standing)]) (firstn 15 standing)).
  - do 12 right. left. reflexivity.
  - cbn; lia.
Defined.

(** *** The form analyses as rule tables *)

Lemma squat_counters_all (s : LandmarkSequence) :
  well_formed s ->
  for_frames squat_frame s (0, 0, 0, 0) =
  Ok (violations left_knee_cave s, violations back_lean s,
      violations depth_insufficient s, violations left_knee_forward s).
Proof.
  intros Hwf.
  rewrite (for_frames_fold squat_frame
             (fun c lm =>
                let '(n1, n2, n3, n4) := c in
                (bump (left_knee_cave lm) n1, bump (back_lean lm) n2,
                 bump (depth_insufficient lm) n3, bump (left_knee_forward lm) n4))).
  - rewrite fold_bump4. reflexivity.
  - intros [[[n1 n2] n3] n4] lm H. unfold squat_frame. now frame33 H.
  - assumption.
Qed.

Lemma pushup_counters_all (s : LandmarkSequence) :
  well_formed s ->
  for_frames pushup_frame s (0, 0, 0, 0) =
  Ok (violations hip_sag s, violations hip_pike s,
      violations left_partial_rom s, violations head_position s).
Proof.
  intros Hwf.
  rewrite (for_frames_fold pushup_frame
             (fun c lm =>
                let '(n1, n2, n3, n4) := c in
                (bump (hip_sag lm) n1, bump (hip_pike lm) n2,
                 bump (left_partial_rom lm) n3, bump (head_position lm) n4))).
  - rewrite fold_bump4. reflexivity.
  - intros [[[n1 n2] n3] n4] lm H. unfold pushup_frame. now frame33 H.
  - assumption.
Qed.

Lemma lunge_counters_all (s : LandmarkSequence) :
  well_formed s ->
  for_frames lunge_frame s (0, 0, 0) =
  Ok (violations left_front_knee_forward s, violations torso_lean s,
      violations lunge_depth s).
Proof.
  intros Hwf.
  rewrite (for_frames_fold lunge_frame
             (fun c lm =>
                let '(n1, n2, n3) := c in
                (bump (left_front_knee_forward lm) n1, bump (torso_lean lm) n2,
                 bump (lunge_depth lm) n3))).
  - rewrite fold_bump3. reflexivity.
  - intros [[n1 n2] n3] lm H. unfold lunge_frame. now frame33 H.
  - assumption.
Qed.

Ltac by_fired_rules :=
  unfold verdict; cbn [filter rule_test rule_fraction rule_message rule_penalty];
  repeat match goal with
         | |- context [exceeds ?c ?t ?f] => destruct (exceeds c t f)
         end;
  reflexivity.

(** X4: on a well-formed sequence [analyze_squat_form] is the verdict of the
    squat table: a rule fires when its violations exceed its fraction of
    [len(landmarks_sequence)] - all entries, valid or not -, the feedback
    lists the fired rules in the order knee cave, knee forward, back lean,
    depth, and the score is 10 minus their penalties. *)
Theorem analyze_squat_form_verdict (s : LandmarkSequence) :
  well_formed s ->
  analyze_squat_form s = verdict squat_rules "Excellent squat form! Keep it up!" s.
Proof.
  intros Hwf. unfold analyze_squat_form.
  rewrite (squat_counters_all Hwf). cbn [bind try_except]. cbv zeta.
  unfold squat_rules. by_fired_rules.
Qed.

(** X5: on a well-formed sequence [analyze_pushup_form] is the verdict of
    the push-up table (hip sag, hip pike, partial range of motion of the
    left elbow, head position). *)
Theorem analyze_pushup_form_verdict (s : LandmarkSequence) :
  well_formed s ->
  analyze_pushup_form s = verdict pushup_rules "Perfect push-up form! Well done!" s.
Proof.
  intros Hwf. unfold analyze_pushup_form.
  rewrite (pushup_counters_all Hwf). cbn [bind try_except]. cbv zeta.
  unfold pushup_rules. by_fired_rules.
Qed.

(** X6: on a well-formed sequence [analyze_lunge_form] is the verdict of the
    lunge table (left knee forward, torso lean, depth). *)
Theorem analyze_lunge_form_verdict (s : LandmarkSequence) :
  well_formed s ->
  analyze_lunge_form s = verdict lunge_rules "Great lunge form!" s.
Proof.
  intros Hwf. unfold analyze_lunge_form.
  rewrite (lunge_counters_all Hwf). cbn [bind try_except]. cbv zeta.
  unfold lunge_rules. by_fired_rules.
Qed.

(** The two frames with right-side violations only: well formed, so the
    squat analysis is the verdict of its table. *)
Lemma analyze_squat_form_verdict_witness :
  analyze_squat_form right_side_violations =
  verdict squat_rules "Excellent squat form! Keep it up!" right_side_violations.
Proof.
  apply (@analyze_squat_form_verdict right_side_violations).
  exact right_side_violations_well_formed.
Defined.

Lemma analyze_pushup_form_verdict_witness :
  analyze_pushup_form alternating_arms =
  verdict pushup_rules "Perfect push-up form! Well done!" alternating_arms.
Proof.
  apply (@analyze_pushup_form_verdict alternating_arms).
  exact alternating_arms_well_formed.
Defined.

Lemma analyze_lunge_form_verdict_witness :
  analyze_lunge_form knee_pulse =
  verdict lunge_rules "Great lunge form!" knee_pulse.
Proof.
  apply (@analyze_lunge_form_verdict knee_pulse).
  exact knee_pulse_well_formed.
Defined.

(** *** Scores *)

Lemma round_half_even_IZR (n : Z) : round_half_even (IZR n) = n.
Proof.
  unfold round_half_even.
  assert (H : Int_part (IZR n) = n) by (symmetry; apply Int_part_spec; lra).
  rewrite H. rewrite Rltb_true by lra. reflexivity.
Qed.

Lemma py_round1_half (k : Z) : py_round1 (Fin (IZR k / 2)) = Fin (IZR k / 2).
Proof.
  unfold py_round1.
  replace (IZR k / 2 * 10)%R with (IZR (5 * k)) by (rewrite mult_IZR; lra).
  rewrite round_half_even_IZR. apply Fin_eq. rewrite mult_IZR. lra.
Qed.

Lemma clamp_identity (r : R) :
  (0 <= r <= 10)%R -> py_max2 (Fin 0) (py_min2 (Fin 10) (Fin r)) = Fin r.
Proof.
  intros [H0 H10]. unfold py_max2, py_min2, fgt, flt.
  destruct (Rlt_dec r 10) as [Hlt | Hge].
  - rewrite (Rltb_true Hlt).
    destruct (Rlt_dec 0 r) as [Hpos | Hzero].
    + now rewrite (Rltb_true Hpos).
    + rewrite Rltb_false by lra. apply Fin_eq; lra.
  - rewrite Rltb_false by lra. rewrite Rltb_true by lra. apply Fin_eq; lra.
Qed.

(** Name the half point a score made of constants is. *)
Ltac half_point :=
  cbn [fsub fadd fneg];
  first [ exists 20; split; [lia | apply Fin_eq; lra]
        | exists 19; split; [lia | apply Fin_eq; lra]
        | exists 18; split; [lia | apply Fin_eq; lra]
        | exists 17; split; [lia | apply Fin_eq; lra]
        | exists 16; split; [lia | apply Fin_eq; lra]
        | exists 15; split; [lia | apply Fin_eq; lra]
        | exists 14; split; [lia | apply Fin_eq; lra]
        | exists 13; split; [lia | apply Fin_eq; lra]
        | exists 12; split; [lia | apply Fin_eq; lra]
        | exists 11; split; [lia | apply Fin_eq; lra]
        | exists 10; split; [lia | apply Fin_eq; lra]
        | exists 9; split; [lia | apply Fin_eq; lra]
        | exists 8; split; [lia | apply Fin_eq; lra]
        | exists 7; split; [lia | apply Fin_eq; lra]
        | exists 6; split; [lia | apply Fin_eq; lra]
        | exists 5; split; [lia | apply Fin_eq; lra] ].

Ltac by_rules :=
  unfold apply_rule, default_feedback;
  repeat match goal with
         | |- context [exceeds ?c ?t ?f] => destruct (exceeds c t f)
         end;
  cbn [fst snd is_empty app].

Lemma analyze_squat_form_half_point (s : LandmarkSequence) :
  exists k, 5 <= k <= 20 /\ snd (analyze_squat_form s) = Fin (IZR k / 2).
Proof.
  unfold analyze_squat_form.
  destruct (for_frames squat_frame s (0, 0, 0, 0)) as [[[[a b] c] d] | e];
    cbn [bind try_except snd]; cbv zeta; [ | half_point].
  by_rules; half_point.
Qed.

Lemma analyze_pushup_form_half_point (s : LandmarkSequence) :
  exists k, 5 <= k <= 20 /\ snd (analyze_pushup_form s) = Fin (IZR k / 2).
Proof.
  unfold analyze_pushup_form.
  destruct (for_frames pushup_frame s (0, 0, 0, 0)) as [[[[a b] c] d] | e];
    cbn [bind try_except snd]; cbv zeta; [ | half_point].
  by_rules; half_point.
Qed.

Lemma analyze_lunge_form_half_point (s : LandmarkSequence) :
  exists k, 5 <= k <= 20 /\ snd (analyze_lunge_form s) = Fin (IZR k / 2).
Proof.
  unfold analyze_lunge_form.
  destruct (for_frames lunge_frame s (0, 0, 0)) as [[[a b] c] | e];
    cbn [bind try_except snd]; cbv zeta; [ | half_point].
  by_rules; half_point.
Qed.

Lemma analyze_form_of_stage (verdict_of_stage : list string * npfloat) :
  (exists k, 5 <= k <= 20 /\ snd verdict_of_stage = Fin (IZR k / 2)) ->
  try_except
    (let '(feedback, form_score) := verdict_of_stage in
     Ok (feedback, py_max2 (Fin 0) (py_min2 (Fin 10) form_score)))
    (["Error analyzing form"], Fin 5) = verdict_of_stage.
Proof.
  intros (k & Hk & Hs). destruct verdict_of_stage as [fb score].
  simpl in Hs. subst score. cbn [try_except]. f_equal.
  apply clamp_identity. destruct Hk as [Hlo Hhi].
  apply IZR_le in Hlo, Hhi. lra.
Qed.

Lemma analyze_form_half_point (s : LandmarkSequence) (exercise_type : string) :
  exists k, 5 <= k <= 20 /\ snd (analyze_form s exercise_type) = Fin (IZR k / 2).
Proof.
  pose proof (analyze_squat_form_half_point s) as Hs.
  pose proof (analyze_pushup_form_half_point s) as Hp.
  pose proof (analyze_lunge_form_half_point s) as Hl.
  assert (Hu : exists k, 5 <= k <= 20 /\
                 snd (["Exercise not recognized for detailed analysis"], Fin 5) =
                 Fin (IZR k / 2)) by half_point.
  unfold analyze_form.
  destruct (String.eqb exercise_type "squat");
    [ | destruct (String.eqb exercise_type "push_up");
        [ | destruct (String.eqb exercise_type "lunge")]];
    cbv iota; [rewrite (analyze_form_of_stage _ Hs) | rewrite (analyze_form_of_stage _ Hp)
              | rewrite (analyze_form_of_stage _ Hl) | rewrite (analyze_form_of_stage _ Hu)];
    assumption.
Qed.

(** X7: [analyze_form] hands on the verdict of the stage it calls: every
    score a stage returns is a multiple of 0.5 between 2.5 and 10, so the
    clamp to [0, 10] never changes it, the handler of [analyze_form] is never
    entered, and rounding to one decimal leaves the score as it is. *)
Theorem analyze_form_is_stage_verdict (s : LandmarkSequence) (exercise_type : string) :
  analyze_form s "squat" = analyze_squat_form s /\
  analyze_form s "push_up" = analyze_pushup_form s /\
  analyze_form s "lunge" = analyze_lunge_form s /\
  exists k, 5 <= k <= 20 /\
            snd (analyze_form s exercise_type) = Fin (IZR k / 2) /\
            py_round1 (snd (analyze_form s exercise_type)) =
            snd (analyze_form s exercise_type).
Proof.
  split; [exact (analyze_form_of_stage _ (analyze_squat_form_half_point s)) | ].
  split; [exact (analyze_form_of_stage _ (analyze_pushup_form_half_point s)) | ].
  split; [exact (analyze_form_of_stage _ (analyze_lunge_form_half_point s)) | ].
  destruct (analyze_form_half_point s exercise_type) as (k & Hk & Hv).
  exists k. rewrite Hv.
  split; [exact Hk | split; [reflexivity | apply py_round1_half]].
Qed.

Ltac decide_praise :=
  split; intros H;
  first [ reflexivity
        | discriminate H
        | exfalso; injection H; intros; lra ].

(** X8: each form analysis returns the score 10.0 exactly when its
    feedback is its one positive message: a fired rule, or the fallback of
    the stage, always costs points. *)
Theorem perfect_score_iff_praise (s : LandmarkSequence) :
  (snd (analyze_squat_form s) = Fin 10 <->
   fst (analyze_squat_form s) = ["Excellent squat form! Keep it up!"]) /\
  (snd (analyze_pushup_form s) = Fin 10 <->
   fst (analyze_pushup_form s) = ["Perfect push-up form! Well done!"]) /\
  (snd (analyze_lunge_form s) = Fin 10 <->
   fst (analyze_lunge_form s) = ["Great lunge form!"]).
Proof.
  split; [ | split].
  - unfold analyze_squat_form.
    destruct (for_frames squat_frame s (0, 0, 0, 0)) as [[[[a b] c] d] | e];
      cbn [bind try_except fst snd]; cbv zeta; [ | decide_praise].
    by_rules; cbn [fsub fadd fneg]; decide_praise.
  - unfold analyze_pushup_form.
    destruct (for_frames pushup_frame s (0, 0, 0, 0)) as [[[[a b] c] d] | e];
      cbn [bind try_except fst snd]; cbv zeta; [ | decide_praise].
    by_rules; cbn [fsub fadd fneg]; decide_praise.
  - unfold analyze_lunge_form.
    destruct (for_frames lunge_frame s (0, 0, 0)) as [[[a b] c] | e];
      cbn [bind try_except fst snd]; cbv zeta; [ | decide_praise].
    by_rules; cbn [fsub fadd fneg]; decide_praise.
Qed.

(** *** Sequences with few valid frames *)

Section FewFrames.

Variable savgol_filter : list npfloat -> Z -> Z -> res (list npfloat).
Variable find_peaks : list npfloat -> npfloat -> Z -> list Z.

Lemma count_squat_reps_few (s : LandmarkSequence) :
  len (valid_frames s) < 10 -> count_squat_reps savgol_filter find_peaks s = 0.
Proof.
  intros Hlen. unfold count_squat_reps.
  destruct (avg_knee_angles s) as [l | e] eqn:E; cbn [bind try_except]; [ | reflexivity].
  apply avg_knee_angles_length in E.
  rewrite E. now rewrite (proj2 (Z.ltb_lt _ _) Hlen).
Qed.

Lemma count_pushup_reps_few (s : LandmarkSequence) :
  len (valid_frames s) < 10 -> count_pushup_reps savgol_filter find_peaks s = 0.
Proof.
  intros Hlen. unfold count_pushup_reps.
  destruct (avg_elbow_angles s) as [l | e] eqn:E; cbn [bind try_except]; [ | reflexivity].
  apply avg_elbow_angles_length in E.
  rewrite E. now rewrite (proj2 (Z.ltb_lt _ _) Hlen).
Qed.

Lemma count_lunge_reps_few (s : LandmarkSequence) :
  len (valid_frames s) < 10 -> count_lunge_reps savgol_filter find_peaks s = 0.
Proof.
  intros Hlen. unfold count_lunge_reps.
  destruct (knee_angle_lists s) as [[l r] | e] eqn:E; cbn [bind try_except];
    [ | reflexivity].
  apply knee_angle_lists_length in E as [El _]. cbn [fst].
  rewrite El. now rewrite (proj2 (Z.ltb_lt _ _) Hlen).
Qed.

(** X9: with fewer than 10 valid frames no repetition is counted, for any
    exercise name and whatever the frames hold (truncated frames
    included). *)
Theorem counters_need_ten_frames (s : LandmarkSequence) (exercise_type : string) :
  len (valid_frames s) < 10 ->
  count_squat_reps savgol_filter find_peaks s = 0 /\
  count_pushup_reps savgol_filter find_peaks s = 0 /\
  count_lunge_reps savgol_filter find_peaks s = 0 /\
  count_repetitions savgol_filter find_peaks s exercise_type = 0.
Proof.
  intros Hlen.
  pose proof (count_squat_reps_few s Hlen) as Hs.
  pose proof (count_pushup_reps_few s Hlen) as Hp.
  pose proof (count_lunge_reps_few s Hlen) as Hl.
  repeat split; try assumption.
  unfold count_repetitions. rewrite Hs, Hp, Hl.
  destruct (String.eqb exercise_type "squat"); [reflexivity | ].
  destruct (String.eqb exercise_type "push_up"); [reflexivity | ].
  destruct (String.eqb exercise_type "lunge"); reflexivity.
Qed.

End FewFrames.

(** Nine frames of a person going from a folded to a straight left leg. *)
Lemma counters_need_ten_frames_witness :
  count_repetitions SciPy.savgol_filter SciPy.find_peaks
    (repeat (Some left_leg_folded) 4 ++ None :: repeat (Some left_leg_straight) 5)
    "lunge" = 0.
Proof.
  apply (@counters_need_ten_frames SciPy.savgol_filter SciPy.find_peaks
           (repeat (Some left_leg_folded) 4 ++ None :: repeat (Some left_leg_straight) 5)
           "lunge").
  reflexivity.
Defined.

Lemma exceeds_none (total_frames : Z) (fraction : R) :
  0 <= total_frames -> (0 <= fraction)%R -> exceeds 0 total_frames fraction = false.
Proof.
  intros Ht Hf. unfold exceeds, fgt, flt, fmul, of_int.
  apply IZR_le in Ht. apply Rltb_false. nra.
Qed.

(** X10: a sequence without a valid frame - empty, or only entries without
    a pose - gets the positive message and the full score from each form
    analysis: no rule can fire on frames that are not there. *)
Theorem no_valid_frame_is_praised (s : LandmarkSequence) :
  valid_frames s = [] ->
  analyze_squat_form s = (["Excellent squat form! Keep it up!"], Fin 10) /\
  analyze_pushup_form s = (["Perfect push-up form! Well done!"], Fin 10) /\
  analyze_lunge_form s = (["Great lunge form!"], Fin 10).
Proof.
  intros Hnone. pose proof (len_nonneg s) as Hlen.
  unfold analyze_squat_form, analyze_pushup_form, analyze_lunge_form.
  rewrite !(for_frames_no_valid_frame _ _ _ Hnone).
  cbn [bind try_except]. cbv zeta.
  rewrite !exceeds_none by (assumption || lra).
  repeat split; reflexivity.
Qed.

Lemma no_valid_frame_is_praised_witness :
  analyze_squat_form no_pose = (["Excellent squat form! Keep it up!"], Fin 10).
Proof.
  apply (@no_valid_frame_is_praised no_pose). reflexivity.
Defined.

(** *** The horizontal position *)

Lemma fold_bump (test : LandmarkFrame -> bool) (l : list LandmarkFrame) (n : Z) :
  fold_left (fun c lm => bump (test lm) c) l n = n + len (filter test l).
Proof.
  revert n. induction l as [ | lm rest IH]; intros n.
  - unfold len; simpl; lia.
  - cbn [fold_left]. rewrite IH. apply bump_count.
Qed.

Lemma horizontal_frames_count (s : LandmarkSequence) :
  well_formed s ->
  for_frames (fun horizontal_frames landmarks =>
                l11 <- getitem landmarks 11 ;;
                l12 <- getitem landmarks 12 ;;
                let shoulder_y := mean2 (y l11) (y l12) in
                l23 <- getitem landmarks 23 ;;
                l24 <- getitem landmarks 24 ;;
                let hip_y := mean2 (y l23) (y l24) in
                if flt (fabs (fsub shoulder_y hip_y)) (Fin 0.15)
                then Ok (horizontal_frames + 1)
                else Ok horizontal_frames)
             s 0 = Ok (violations horizontal s).
Proof.
  intros Hwf.
  rewrite (for_frames_fold _ (fun c lm => bump (horizontal lm) c)).
  - rewrite fold_bump. reflexivity.
  - intros n lm H. frame33 H. cbv zeta. unfold bump, horizontal, shoulder_y_of, hip_y_of.
    now destruct (flt _ _).
  - assumption.
Qed.

Lemma ratio_exceeds (count total : Z) :
  0 < total ->
  fgt (Fin (IZR count / IZR total)) (Fin 0.6) = (3 * total <? 5 * count).
Proof.
  intros Ht. unfold fgt, flt. apply IZR_lt in Ht.
  destruct (3 * total <? 5 * count) eqn:E.
  - apply Z.ltb_lt in E. apply IZR_lt in E. rewrite !mult_IZR in E.
    apply Rltb_true. apply Rmult_lt_reg_r with (IZR total); [lra | ].
    unfold Rdiv. rewrite Rmult_assoc, Rinv_l by lra. lra.
  - apply Z.ltb_ge in E. apply IZR_le in E. rewrite !mult_IZR in E.
    apply Rltb_false. apply Rmult_le_reg_r with (IZR total); [lra | ].
    unfold Rdiv. rewrite Rmult_assoc, Rinv_l by lra. lra.
Qed.

(** X11: on a well-formed sequence [check_horizontal_body_position] holds
    exactly when the frames whose shoulders and hips are less than 0.15
    apart in height are more than three fifths of all entries of the
    sequence, the entries without a pose included; on the empty sequence
    the division fails and the answer is false. *)
Theorem check_horizontal_body_position_ratio (s : LandmarkSequence) :
  well_formed s ->
  check_horizontal_body_position s = (3 * len s <? 5 * violations horizontal s).
Proof.
  intros Hwf. unfold check_horizontal_body_position.
  pose proof (horizontal_frames_count Hwf) as Hcount.
  cbv zeta in Hcount |- *. rewrite Hcount. cbn [bind].
  unfold py_truediv. destruct (len s =? 0) eqn:E.
  - apply Z.eqb_eq in E. destruct s; [reflexivity | ].
    unfold len in E; simpl in E; lia.
  - apply Z.eqb_neq in E. cbn [bind try_except].
    apply ratio_exceeds. pose proof (len_nonneg s). lia.
Qed.

Lemma plank_is_horizontal : horizontal plank = true.
Proof.
  unfold horizontal, shoulder_y_of, hip_y_of.
  change (y (landmark plank 11)) with (Fin 0.5).
  change (y (landmark plank 12)) with (Fin 0.5).
  change (y (landmark plank 23)) with (Fin 0.52).
  change (y (landmark plank 24)) with (Fin 0.52).
  unfold mean2; cbn [fadd fdiv]. rcmp.
  cbn [fsub fadd fneg fabs]. unfold flt. apply Rltb_true.
  apply Rabs_def1; lra.
Qed.

Lemma plank_with_gap_well_formed : well_formed plank_with_gap.
Proof.
  repeat constructor; intros lm H; try discriminate H;
    injection H as <-; apply frame_with_length.
Qed.

(** Two frames in the plank position and one entry without a pose: two
    thirds of the entries are horizontal. *)
Lemma check_horizontal_body_position_ratio_witness :
  check_horizontal_body_position plank_with_gap = true.
Proof.
  rewrite (check_horizontal_body_position_ratio plank_with_gap_well_formed).
  unfold violations.
  change (valid_frames plank_with_gap) with [plank; plank].
  cbn [filter]. rewrite plank_is_horizontal. reflexivity.
Defined.

(** *** What an answer of the classifier needs *)

Lemma fgt_weaken (v : npfloat) (a b : R) :
  (b <= a)%R -> fgt v (Fin a) = true -> fgt v (Fin b) = true.
Proof.
  intros Hab. destruct v as [r | [ | ] | ]; unfold fgt, flt; try (intros H; exact H).
  intros H. apply Rltb_true.
  unfold Rltb in H. destruct (Rlt_dec a r); [lra | discriminate].
Qed.

(** The answer from the three totals: a name is answered only with a total
    of 50 or more. *)
Lemma answer_needs_fifty (squat_confidence pushup_confidence lunge_confidence : Z) :
  let max_confidence :=
    Z.max (Z.max squat_confidence pushup_confidence) lunge_confidence in
  let answer :=
    try_except
      (if max_confidence <? 50 then Ok "unknown"
       else if squat_confidence =? max_confidence then Ok "squat"
       else if pushup_confidence =? max_confidence then Ok "push_up"
       else Ok "lunge")
      "unknown" in
  (answer = "unknown" \/ answer = "squat" \/ answer = "push_up" \/ answer = "lunge") /\
  (answer = "squat" -> 50 <= squat_confidence) /\
  (answer = "push_up" -> 50 <= pushup_confidence) /\
  (answer = "lunge" -> 50 <= lunge_confidence).
Proof.
  cbv zeta.
  destruct (Z.ltb_spec (Z.max (Z.max squat_confidence pushup_confidence)
                              lunge_confidence) 50) as [Hlt | Hge].
  { cbn [try_except]. repeat split; try discriminate. now left. }
  destruct (Z.eqb_spec squat_confidence
              (Z.max (Z.max squat_confidence pushup_confidence) lunge_confidence))
    as [Hs | Hs].
  { cbn [try_except]. repeat split; try discriminate; [auto | intros _; lia]. }
  destruct (Z.eqb_spec pushup_confidence
              (Z.max (Z.max squat_confidence pushup_confidence) lunge_confidence))
    as [Hp | Hp].
  { cbn [try_except]. repeat split; try discriminate; [auto | intros _; lia]. }
  cbn [try_except]. repeat split; try discriminate; [auto | intros _; lia].
Qed.

(** Split on a comparison; where it holds, use what it implies. *)
Ltac case_with b H := destruct b; [try rewrite H by reflexivity | ].

Section ClassifierNeeds.

Variable savgol_filter : list npfloat -> Z -> Z -> res (list npfloat).

(** X12: the classifier answers one of four names.  It answers "squat"
    only when the hip metric exceeds 0.2, the knee metric exceeds 0.25 and
    one of them exceeds its higher mark (0.3 resp. 0.4); "push_up" only
    when the elbow metric exceeds 0.3 and the body is horizontal or the
    elbows pass 0.4; "lunge" only when the legs move asymmetrically. *)
Theorem detect_exercise_type_needs (s : LandmarkSequence) :
  let answer := detect_exercise_type savgol_filter s in
  (answer = "unknown" \/ answer = "squat" \/ answer = "push_up" \/ answer = "lunge") /\
  (answer = "squat" ->
   fgt (analyze_hip_movement savgol_filter s) (Fin 0.2) = true /\
   fgt (analyze_knee_movement savgol_filter s) (Fin 0.25) = true /\
   (fgt (analyze_hip_movement savgol_filter s) (Fin 0.3) = true \/
    fgt (analyze_knee_movement savgol_filter s) (Fin 0.4) = true)) /\
  (answer = "push_up" ->
   fgt (analyze_elbow_movement savgol_filter s) (Fin 0.3) = true /\
   (check_horizontal_body_position s = true \/
    fgt (analyze_elbow_movement savgol_filter s) (Fin 0.4) = true)) /\
  (answer = "lunge" -> detect_asymmetric_leg_movement s = true).
Proof.
  cbv zeta. unfold detect_exercise_type.
  destruct s as [ | entry rest].
  { cbn [is_empty try_except]. repeat split; try discriminate. now left. }
  cbn [is_empty]. cbv zeta.
  set (h := analyze_hip_movement savgol_filter (entry :: rest)).
  set (k := analyze_knee_movement savgol_filter (entry :: rest)).
  set (sh := analyze_shoulder_movement savgol_filter (entry :: rest)).
  set (e := analyze_elbow_movement savgol_filter (entry :: rest)).
  pose proof (@fgt_weaken h 0.3 0.2 ltac:(lra)) as Hh.
  pose proof (@fgt_weaken k 0.4 0.25 ltac:(lra)) as Hk.
  pose proof (@fgt_weaken e 0.4 0.3 ltac:(lra)) as He.
  match goal with
  | |- context [Z.max (Z.max ?a ?b) ?c] =>
      set (squat_confidence := a); set (pushup_confidence := b);
      set (lunge_confidence := c)
  end.
  destruct (answer_needs_fifty squat_confidence pushup_confidence lunge_confidence)
    as (Hnames & Hsquat & Hpushup & Hlunge).
  split; [exact Hnames | ].
  split; [ | split]; intros Hanswer.
  - apply Hsquat in Hanswer. revert Hanswer. unfold squat_confidence.
    case_with (fgt h (Fin 0.3)) Hh; case_with (fgt k (Fin 0.4)) Hk;
      destruct (fgt h (Fin 0.2)); destruct (fgt k (Fin 0.25));
      cbn [andb]; intros H50; first [lia | auto].
  - apply Hpushup in Hanswer. revert Hanswer. unfold pushup_confidence.
    case_with (fgt e (Fin 0.4)) He; destruct (fgt e (Fin 0.3));
      destruct (fgt sh (Fin 0.15));
      destruct (check_horizontal_body_position (entry :: rest));
      cbn [andb]; intros H50; first [lia | auto].
  - apply Hlunge in Hanswer. revert Hanswer. unfold lunge_confidence.
    destruct (detect_asymmetric_leg_movement (entry :: rest));
      destruct (fgt h (Fin 0.25) && fgt k (Fin 0.3)); intros H50;
      first [lia | reflexivity].
Qed.

End ClassifierNeeds.

(** *** The movement metrics on complete frames *)

Section MovementMetrics.

Variable savgol_filter : list npfloat -> Z -> Z -> res (list npfloat).

Lemma analyze_hip_movement_series (s : LandmarkSequence) :
  well_formed s ->
  analyze_hip_movement savgol_filter s =
  let hip_positions := map hip_y_of (valid_frames s) in
  if len hip_positions <? 2 then Fin 0
  else series_range (smooth_data savgol_filter hip_positions default_window_length).
Proof.
  intros Hwf. unfold analyze_hip_movement.
  rewrite (@for_frames_series _ hip_y_of).
  - cbn [bind]. cbv zeta.
    destruct (len _ <? 2); [reflexivity | ].
    unfold series_range, py_range.
    destruct (smooth_data _ _ _) as [ | v rest]; reflexivity.
  - intros acc lm H. now frame33 H.
  - assumption.
Qed.

Lemma analyze_shoulder_movement_series (s : LandmarkSequence) :
  well_formed s ->
  analyze_shoulder_movement savgol_filter s =
  let shoulder_positions := map shoulder_y_of (valid_frames s) in
  if len shoulder_positions <? 2 then Fin 0
  else series_range
         (smooth_data savgol_filter shoulder_positions default_window_length).
Proof.
  intros Hwf. unfold analyze_shoulder_movement.
  rewrite (@for_frames_series _ shoulder_y_of).
  - cbn [bind]. cbv zeta.
    destruct (len _ <? 2); [reflexivity | ].
    unfold series_range, py_range.
    destruct (smooth_data _ _ _) as [ | v rest]; reflexivity.
  - intros acc lm H. now frame33 H.
  - assumption.
Qed.

Lemma analyze_knee_movement_series (s : LandmarkSequence) :
  well_formed s ->
  analyze_knee_movement savgol_filter s =
  let knee_angles := map avg_knee_angle (valid_frames s) in
  if len knee_angles <? 2 then Fin 0
  else fdiv (series_range (smooth_data savgol_filter knee_angles default_window_length))
            (Fin 180).
Proof.
  intros Hwf. unfold analyze_knee_movement.
  rewrite (avg_knee_angles_series Hwf).
  cbn [bind]. cbv zeta.
  destruct (len _ <? 2); [reflexivity | ].
  unfold series_range, py_range.
  destruct (smooth_data _ _ _) as [ | v rest]; simpl.
  - rewrite Reqb_false by lra. apply Fin_eq. lra.
  - reflexivity.
Qed.

Lemma detect_asymmetric_leg_movement_series (s : LandmarkSequence) :
  well_formed s ->
  detect_asymmetric_leg_movement s =
  let left_knee_angles := map left_knee_angle (valid_frames s) in
  let right_knee_angles := map right_knee_angle (valid_frames s) in
  if len left_knee_angles <? 2 then false
  else fgt (fabs (fsub (series_range left_knee_angles)
                       (series_range right_knee_angles))) (Fin 30).
Proof.
  intros Hwf. unfold detect_asymmetric_leg_movement.
  rewrite (knee_angle_lists_series Hwf).
  cbn [bind fst snd]. cbv zeta.
  destruct (len (map left_knee_angle _) <? 2) eqn:E; [reflexivity | ].
  apply Z.ltb_ge in E.
  rewrite !py_range_series by (rewrite ?len_map in *; lia).
  reflexivity.
Qed.

(** X13: on a well-formed sequence no movement metric takes its fallback:
    the hip and the shoulder metric are the range of the smoothed mean
    height of the two hips resp. shoulders, the knee metric is the range of
    the smoothed mean knee angle over 180, and the asymmetry test compares
    the ranges of the raw left and right knee angles with 30 degrees; each
    is 0 resp. false with fewer than 2 valid frames. *)
Theorem movement_metrics_of_complete_frames (s : LandmarkSequence) :
  well_formed s ->
  let frames := valid_frames s in
  let smooth := fun signal => smooth_data savgol_filter signal default_window_length in
  analyze_hip_movement savgol_filter s =
    (if len frames <? 2 then Fin 0
     else series_range (smooth (map hip_y_of frames))) /\
  analyze_shoulder_movement savgol_filter s =
    (if len frames <? 2 then Fin 0
     else series_range (smooth (map shoulder_y_of frames))) /\
  analyze_knee_movement savgol_filter s =
    (if len frames <? 2 then Fin 0
     else fdiv (series_range (smooth (map avg_knee_angle frames))) (Fin 180)) /\
  detect_asymmetric_leg_movement s =
    (if len frames <? 2 then false
     else fgt (fabs (fsub (series_range (map left_knee_angle frames))
                          (series_range (map right_knee_angle frames))))
              (Fin 30)).
Proof.
  intros Hwf. cbv zeta.
  rewrite (analyze_hip_movement_series Hwf), (analyze_shoulder_movement_series Hwf),
    (analyze_knee_movement_series Hwf), (detect_asymmetric_leg_movement_series Hwf).
  cbv zeta. rewrite !len_map. repeat split; reflexivity.
Qed.

(** *** Ties go to the squat *)

Lemma fgt_above (a c : R) : (c < a)%R -> fgt (Fin a) (Fin c) = true.
Proof. intros H. unfold fgt, flt. now apply Rltb_true. Qed.

(** X14: when the hip metric exceeds 0.3 and the knee metric exceeds 0.4
    the answer is "squat", whatever the arms and the asymmetry test say:
    the squat total is then 100, and the squat is tested first. *)
Theorem squat_wins_ties (s : LandmarkSequence) :
  fgt (analyze_hip_movement savgol_filter s) (Fin 0.3) = true ->
  fgt (analyze_knee_movement savgol_filter s) (Fin 0.4) = true ->
  detect_exercise_type savgol_filter s = "squat".
Proof.
  intros Hh Hk. unfold detect_exercise_type.
  destruct s as [ | entry rest].
  { exfalso. revert Hh. unfold analyze_hip_movement. cbn. unfold fgt, flt.
    rewrite Rltb_false by lra. discriminate. }
  cbn [is_empty]. cbv zeta.
  rewrite Hh, Hk.
  rewrite (fgt_weaken (a := 0.3) (b := 0.2) _ ltac:(lra) Hh).
  rewrite (fgt_weaken (a := 0.4) (b := 0.25) _ ltac:(lra) Hk).
  rewrite (fgt_weaken (a := 0.3) (b := 0.25) _ ltac:(lra) Hh).
  rewrite (fgt_weaken (a := 0.4) (b := 0.3) _ ltac:(lra) Hk).
  cbn [andb].
  destruct (fgt (analyze_elbow_movement savgol_filter (entry :: rest)) (Fin 0.3)
            && fgt (analyze_shoulder_movement savgol_filter (entry :: rest)) (Fin 0.15));
    destruct (check_horizontal_body_position (entry :: rest));
    destruct (fgt (analyze_elbow_movement savgol_filter (entry :: rest)) (Fin 0.4));
    destruct (detect_asymmetric_leg_movement (entry :: rest));
    reflexivity.
Qed.

End MovementMetrics.

Lemma squat_rep_well_formed : well_formed squat_rep.
Proof.
  repeat constructor; intros lm [= <-]; apply frame_with_length.
Qed.

Lemma squat_rep_knee_angles :
  map avg_knee_angle (valid_frames squat_rep) = [Fin 180; Fin 90].
Proof.
  change (valid_frames squat_rep) with [squat_top; squat_bottom].
  cbn [map]. unfold avg_knee_angle.
  change (left_knee_angle squat_top)
    with (calculate_angle (pt 0.5 0.25) (pt 0.5 0.6) (pt 0.5 0.9)).
  change (right_knee_angle squat_top)
    with (calculate_angle (pt 0.5 0.25) (pt 0.5 0.6) (pt 0.5 0.9)).
  change (left_knee_angle squat_bottom)
    with (calculate_angle (pt 0.2 0.6) (pt 0.5 0.6) (pt 0.5 0.9)).
  change (right_knee_angle squat_bottom)
    with (calculate_angle (pt 0.2 0.6) (pt 0.5 0.6) (pt 0.5 0.9)).
  rewrite (@calculate_angle_cosine _ _ _ _ _ _ 0.35 0.3 (-1))%R by lra.
  rewrite (@calculate_angle_cosine _ _ _ _ _ _ 0.3 0.3 0)%R by lra.
  rewrite acos_straight, acos_right.
  unfold mean2; cbn [fadd fdiv]. rcmp.
  f_equal; [ | f_equal]; apply Fin_eq; lra.
Qed.

Lemma squat_rep_hip_positions :
  map hip_y_of (valid_frames squat_rep) = [Fin 0.25; Fin 0.6].
Proof.
  change (valid_frames squat_rep) with [squat_top; squat_bottom].
  cbn [map]. unfold hip_y_of.
  change (y (landmark squat_top 23)) with (Fin 0.25).
  change (y (landmark squat_top 24)) with (Fin 0.25).
  change (y (landmark squat_bottom 23)) with (Fin 0.6).
  change (y (landmark squat_bottom 24)) with (Fin 0.6).
  unfold mean2; cbn [fadd fdiv]. rcmp.
  f_equal; [ | f_equal]; apply Fin_eq; lra.
Qed.

Lemma squat_rep_ranges (savgol_filter : list npfloat -> Z -> Z -> res (list npfloat)) :
  series_range (smooth_data savgol_filter (map hip_y_of (valid_frames squat_rep))
                            default_window_length) = Fin 0.35 /\
  fdiv (series_range (smooth_data savgol_filter
                                  (map avg_knee_angle (valid_frames squat_rep))
                                  default_window_length))
       (Fin 180) = Fin 0.5.
Proof.
  rewrite squat_rep_hip_positions, squat_rep_knee_angles.
  rewrite !smooth_data_short by reflexivity.
  cbv [series_range py_max py_min fold_left fgt flt fsub fneg fadd fdiv].
  rcmp. split; apply Fin_eq; lra.
Qed.

Lemma squat_rep_metrics (savgol_filter : list npfloat -> Z -> Z -> res (list npfloat)) :
  analyze_hip_movement savgol_filter squat_rep = Fin 0.35 /\
  analyze_knee_movement savgol_filter squat_rep = Fin 0.5.
Proof.
  rewrite (analyze_hip_movement_series savgol_filter squat_rep_well_formed).
  rewrite (analyze_knee_movement_series savgol_filter squat_rep_well_formed).
  exact (squat_rep_ranges savgol_filter).
Qed.

(** One squat in two frames: the hips go down by 0.35 and the knees bend
    from 180 to 90 degrees. *)
Lemma movement_metrics_of_complete_frames_witness :
  analyze_hip_movement SciPy.savgol_filter squat_rep = Fin 0.35 /\
  analyze_knee_movement SciPy.savgol_filter squat_rep = Fin 0.5.
Proof.
  destruct (@movement_metrics_of_complete_frames SciPy.savgol_filter squat_rep
              squat_rep_well_formed) as (Hh & _ & Hk & _).
  rewrite Hh, Hk.
  exact (squat_rep_ranges SciPy.savgol_filter).
Defined.

(** The same squat: hip metric 0.35 and knee metric 0.5. *)
Lemma squat_wins_ties_witness :
  detect_exercise_type SciPy.savgol_filter squat_rep = "squat".
Proof.
  destruct (squat_rep_metrics SciPy.savgol_filter) as [Hh Hk].
  apply (@squat_wins_ties SciPy.savgol_filter squat_rep).
  - rewrite Hh. apply fgt_above. lra.
  - rewrite Hk. apply fgt_above. lra.
Defined.

(** *** The orchestrator *)

Lemma quality_ratio (valid total : Z) :
  0 < total ->
  fgt (Fin (IZR valid / IZR total)) (Fin 0.8) = (4 * total <? 5 * valid).
Proof.
  intros Ht. unfold fgt, flt. apply IZR_lt in Ht.
  destruct (4 * total <? 5 * valid) eqn:E.
  - apply Z.ltb_lt in E. apply IZR_lt in E. rewrite !mult_IZR in E.
    apply Rltb_true. apply Rmult_lt_reg_r with (IZR total); [lra | ].
    unfold Rdiv. rewrite Rmult_assoc, Rinv_l by lra. lra.
  - apply Z.ltb_ge in E. apply IZR_le in E. rewrite !mult_IZR in E.
    apply Rltb_false. apply Rmult_le_reg_r with (IZR total); [lra | ].
    unfold Rdiv. rewrite Rmult_assoc, Rinv_l by lra. lra.
Qed.

Section Outcomes.

Variable savgol_filter : list npfloat -> Z -> Z -> res (list npfloat).
Variable find_peaks : list npfloat -> npfloat -> Z -> list Z.


(** The record of a full analysis: the division of the quality cannot
    fail, and the handler of [analyze_video] is not entered. *)
Lemma analyze_video_full (frames : LandmarkSequence) :
  let valid := filter is_not_None frames in
  let exercise_type := detect_exercise_type savgol_filter valid in
  30 <= len valid ->
  analyze_video savgol_filter find_peaks (Frames frames) =
  {| exerciseName := exercise_type;
     repCount := count_repetitions savgol_filter find_peaks valid exercise_type;
     feedback := fst (analyze_form valid exercise_type);
     formScore := snd (analyze_form valid exercise_type);
     analysisQuality :=
       Some (if 4 * len frames <? 5 * len valid then "high" else "medium") |}.
Proof.
  intros valid exercise_type Hlong.
  unfold analyze_video. cbn [try_except_as]. cbv zeta.
  fold valid. fold exercise_type.
  assert (Hne : is_empty valid = false).
  { destruct valid; [unfold len in Hlong; simpl in Hlong; lia | reflexivity]. }
  rewrite Hne. rewrite (proj2 (Z.ltb_ge _ _)) by lia.
  destruct (analyze_form_half_point valid exercise_type) as (k & Hk & Hscore).
  destruct (analyze_form valid exercise_type) as [fb score].
  cbn [fst snd] in *. subst score.
  assert (Htotal : 0 < len frames).
  { pose proof (len_filter_le is_not_None frames) as Hle. fold valid in Hle. lia. }
  unfold py_truediv. rewrite (proj2 (Z.eqb_neq _ _)) by lia. cbn [bind].
  rewrite py_round1_half, (quality_ratio _ Htotal). reflexivity.
Qed.


(** X16: at least 30 frames with a pose on which the classifier answers
    "unknown" give the count 0, the neutral feedback and the score 5.0,
    with the quality of a full analysis. *)
Theorem analyze_video_unrecognised (frames : LandmarkSequence) :
  let valid := filter is_not_None frames in
  30 <= len valid ->
  detect_exercise_type savgol_filter valid = "unknown" ->
  analyze_video savgol_filter find_peaks (Frames frames) =
  {| exerciseName := "unknown";
     repCount := 0;
     feedback := ["Exercise not recognized for detailed analysis"];
     formScore := Fin 5;
     analysisQuality :=
       Some (if 4 * len frames <? 5 * len valid then "high" else "medium") |}.
Proof.
  intros valid Hlong Hunknown.
  pose proof (analyze_video_full frames) as Hfull. cbv zeta in Hfull.
  fold valid in Hfull. rewrite (Hfull Hlong), Hunknown.
  f_equal; unfold analyze_form; cbn [String.eqb Ascii.eqb Bool.eqb try_except fst snd].
  unfold py_max2, py_min2, fgt, flt. now rcmp.
Qed.

End Outcomes.

Lemma valid_frames_repeat (landmarks : LandmarkFrame) (n : nat) :
  truthy (Some landmarks) = true ->
  In landmarks (valid_frames (repeat (Some landmarks) (S n))).
Proof. intros H. cbn [repeat valid_frames]. rewrite H. now left. Qed.

Lemma cut_frames_unknown :
  detect_exercise_type SciPy.savgol_filter cut_frames = "unknown".
Proof.
  destruct (@truncated_frame_metrics SciPy.savgol_filter cut_frames (firstn 15 standing))
    as (Hh & Hk & He & Ha).
  - apply (@valid_frames_repeat (firstn 15 standing) 29). reflexivity.
  - cbn; lia.
  - apply detect_exercise_type_still; assumption.
Qed.

(** Thirty frames that hold 15 landmarks each. *)
Lemma analyze_video_unrecognised_witness :
  analyze_video SciPy.savgol_filter SciPy.find_peaks (Frames cut_frames) =
  {| exerciseName := "unknown";
     repCount := 0;
     feedback := ["Exercise not recognized for detailed analysis"];
     formScore := Fin 5;
     analysisQuality := Some "high" |}.
Proof.
  apply (@analyze_video_unrecognised SciPy.savgol_filter SciPy.find_peaks cut_frames).
  - apply Z.leb_le. reflexivity.
  - exact cut_frames_unknown.
Defined.
